(** * CodexMonitor: the remote thread live-connection coordinator

    A shallow embedding of [useRemoteThreadLiveConnection] (the hook that
    subscribes to a remote thread, reconnects on focus, blur, selection and
    backend events, and coalesces overlapping reconnect attempts), with the
    properties its specification states about it.

    Conventions of the embedding:
    - a JS string is a [string]; its characters are code units below 256;
    - a ref cell ([useRef]) is a field of the record [State];
    - the [async] body of a reconnect attempt is cut at its [await]s: an
      attempt is a record holding its captured variables and the [await] it
      is suspended at, and it advances when the awaited call settles;
    - a promise is identified by the index of its attempt; a call of the
      [async] function [reconnectLive] is identified with the promise its
      result is resolved with;
    - calls to the collaborators (subscribe, unsubscribe, refresh, session
      reconnect) are appended to a log, each with the attempt that issued it;
    - [reconnectSequenceRef] is an integer (a JS number counts exactly up to
      2^53 increments). *)

From Stdlib Require Import ZArith NArith Ascii String List Bool Lia.
From stdpp Require Import base decidable option list gmap strings.

Local Open Scope string_scope.
Local Open Scope Z_scope.

Set Warnings "-register-all".

(** ** JavaScript strings *)

Module Js.

(** [s.indexOf(c)] for a one-character pattern: the first position of [c],
    or [-1]. *)
Fixpoint indexOf (s : string) (c : ascii) : Z :=
  match s with
  | EmptyString => -1
  | String a r =>
      if Ascii.eqb a c then 0
      else let i := indexOf r c in if i <? 0 then -1 else i + 1
  end.

(** [s.length]. *)
Definition length (s : string) : Z := Z.of_nat (String.length s).

(** [s.slice(from, to)] and [s.slice(from)] for [0 <= from <= to]. *)
Definition slice (s : string) (from to : Z) : string :=
  String.substring (Z.to_nat from) (Z.to_nat (to - from)) s.

Definition sliceFrom (s : string) (from : Z) : string :=
  slice s from (length s).

(** White space removed by [trim], among the code units below 256:
    tab, line feed, vertical tab, form feed, carriage return, space and the
    no-break space. *)
Definition isWhiteSpace (c : ascii) : bool :=
  let n := nat_of_ascii c in
  ((9 <=? n)%nat && (n <=? 13)%nat) || (n =? 32)%nat || (n =? 160)%nat.

Fixpoint trimStart (s : string) : string :=
  match s with
  | EmptyString => EmptyString
  | String c r => if isWhiteSpace c then trimStart r else s
  end.

Fixpoint trimEnd (s : string) : string :=
  match s with
  | EmptyString => EmptyString
  | String c r =>
      match trimEnd r with
      | EmptyString => if isWhiteSpace c then EmptyString else String c EmptyString
      | r' => String c r'
      end
  end.

Definition trim (s : string) : string := trimEnd (trimStart s).

(** Truthiness of a string: every string but the empty one. *)
Definition truthy (s : string) : bool := negb (String.eqb s "").

(** Truthiness of [string | null]. *)
Definition truthyOpt (o : option string) : bool :=
  match o with Some s => truthy s | None => false end.

(** The values an event payload can hold. [JOther image] is a value that is
    neither nullish, nor a string, nor a plain object (a number, a boolean);
    [image] is what [String(...)] makes of it. *)
Inductive Value : Type :=
  | JUndefined
  | JNull
  | JString (s : string)
  | JOther (image : string)
  | JObject (fields : list (string * Value)).

Fixpoint lookupField (fields : list (string * Value)) (name : string) : Value :=
  match fields with
  | [] => JUndefined
  | (k, v) :: rest => if String.eqb k name then v else lookupField rest name
  end.

(** [v.name] on a value that is not nullish. *)
Definition get (v : Value) (name : string) : Value :=
  match v with
  | JObject fields => lookupField fields name
  | _ => JUndefined
  end.

(** [a ?? b]. *)
Definition coalesce (a b : Value) : Value :=
  match a with
  | JUndefined | JNull => b
  | _ => a
  end.

(** [String(v)]. *)
Definition toString (v : Value) : string :=
  match v with
  | JUndefined => "undefined"
  | JNull => "null"
  | JString s => s
  | JOther image => image
  | JObject _ => "[object Object]"
  end.

End Js.

(** ** Subscription keys *)

Record ParsedKey : Type := mkParsedKey {
  pk_workspaceId : string;
  pk_threadId : string;
}.

Definition keyForThread (workspaceId threadId : string) : string :=
  workspaceId ++ ":" ++ threadId.

Definition splitKey (key : string) : option ParsedKey :=
  let separator := Js.indexOf key ":"%char in
  if (separator <=? 0) || (separator >=? Js.length key - 1) then None
  else Some {| pk_workspaceId := Js.slice key 0 separator;
               pk_threadId := Js.sliceFrom key (separator + 1) |}.

(** ** Event methods and thread ids *)

Definition isThreadActivityMethod (method : string) : bool :=
  String.prefix "item/" method
  || String.prefix "turn/" method
  || String.eqb method "error"
  || String.eqb method "thread/tokenUsage/updated".

(** The test of line 53: the methods whose id is nested in [params.turn]. *)
Definition isTurnScopedMethod (method : string) : bool :=
  String.eqb method "turn/started"
  || String.eqb method "turn/completed"
  || String.eqb method "error".

(** [String(o.threadId ?? o.thread_id ?? "").trim()]. *)
Definition threadIdField (o : Js.Value) : string :=
  Js.trim (Js.toString
    (Js.coalesce (Js.coalesce (Js.get o "threadId") (Js.get o "thread_id"))
                 (Js.JString ""))).

Definition directThreadId (params : list (string * Js.Value)) : option string :=
  let direct := threadIdField (Js.JObject params) in
  if (0 <? Js.length direct) then Some direct else None.

Definition extractThreadId (method : string) (params : list (string * Js.Value))
  : option string :=
  if isTurnScopedMethod method then
    let turn := Js.coalesce (Js.get (Js.JObject params) "turn") (Js.JObject []) in
    let fromTurn := threadIdField turn in
    if Js.truthy fromTurn then Some fromTurn else directThreadId params
  else directThreadId params.

(** ** Connection state and its resting value *)

Inductive RemoteThreadConnectionState : Type := Live | Polling | Disconnected.

#[global] Instance RemoteThreadConnectionState_eq_dec :
  EqDecision RemoteThreadConnectionState := ltac:(solve_decision).

Record WorkspaceInfo : Type := mkWorkspaceInfo {
  ws_id : string;
  ws_connected : bool;
}.

#[global] Instance WorkspaceInfo_eq_dec : EqDecision WorkspaceInfo :=
  ltac:(solve_decision).

(** [workspace?.connected] as a condition. *)
Definition connectedOpt (workspace : option WorkspaceInfo) : bool :=
  match workspace with Some w => ws_connected w | None => false end.

(** The initializer passed to [useState] (lines 86-94). *)
Definition initialConnectionState
  (backendMode : string) (activeWorkspace : option WorkspaceInfo)
  : RemoteThreadConnectionState :=
  if negb (String.eqb backendMode "remote") then
    if connectedOpt activeWorkspace then Live else Disconnected
  else if negb (connectedOpt activeWorkspace) then Disconnected
  else Polling.

(** The value [reconcileDisconnectedState] passes to [setState]
    (lines 154-165). *)
Definition restingState
  (backendMode : string) (workspace : option WorkspaceInfo)
  : RemoteThreadConnectionState :=
  if negb (String.eqb backendMode "remote") then
    if connectedOpt workspace then Live else Disconnected
  else if negb (connectedOpt workspace) then Disconnected
  else Polling.

(** ** The coordinator's state *)

Definition SELF_DETACH_IGNORE_WINDOW_MS : N := 10000.

Record ReconnectOptions : Type := mkReconnectOptions {
  runResume : option bool;
}.

(** [options?.runResume]: [None] when [options] or the field is absent. *)
Definition runResumeOf (options : option ReconnectOptions) : option bool :=
  match options with
  | Some o => runResume o
  | None => None
  end.

(** The [await] an attempt is suspended at, or the value its promise
    settled with. *)
Inductive Suspension : Type :=
  | AwaitReconnectWorkspace   (* line 209 *)
  | AwaitRefreshThread        (* line 216 *)
  | AwaitDedupeUnsubscribe    (* line 227 *)
  | AwaitSubscribe            (* line 232 *)
  | AwaitStaleUnsubscribe     (* line 235 *)
  | Settled (result : bool).

#[global] Instance Suspension_eq_dec : EqDecision Suspension :=
  ltac:(solve_decision).

(** One run of the [async] block of lines 194-251 with the variables it
    closes over. *)
Record Attempt : Type := mkAttempt {
  at_workspaceId : string;
  at_threadId : string;
  at_targetKey : string;
  at_options : option ReconnectOptions;
  at_sequence : Z;
  at_suspension : Suspension;
}.

Definition pending (a : Attempt) : Prop :=
  forall result, at_suspension a <> Settled result.

Definition isPending (a : Attempt) : bool :=
  match at_suspension a with Settled _ => false | _ => true end.

(** [inFlightReconnectRef.current]; the promise is the index of its
    attempt. *)
Record InFlight : Type := mkInFlight {
  if_key : string;
  if_sequence : Z;
  if_promise : nat;
}.

#[global] Instance InFlight_eq_dec : EqDecision InFlight :=
  ltac:(solve_decision).

(** Calls to the collaborators. *)
Inductive Call : Type :=
  | ReconnectWorkspace (workspace : WorkspaceInfo)
  | RefreshThread (workspaceId threadId : string)
  | ThreadLiveSubscribe (workspaceId threadId : string)
  | ThreadLiveUnsubscribe (workspaceId threadId : string).

#[global] Instance Call_eq_dec : EqDecision Call := ltac:(solve_decision).

(** A logged call: the attempt that issued it ([None] for a handler or an
    effect) and the call. *)
Definition LoggedCall : Type := option nat * Call.

Record State : Type := mkState {
  backendMode : string;                          (* backendModeRef *)
  activeWorkspace : option WorkspaceInfo;        (* activeWorkspaceRef *)
  activeThreadId : option string;                (* activeThreadIdRef *)
  hasReconnectWorkspace : bool;                  (* reconnectWorkspaceRef is set *)
  connectionState : RemoteThreadConnectionState; (* connectionStateRef *)
  activeSubscriptionKey : option string;         (* activeSubscriptionKeyRef *)
  desiredSubscriptionKey : option string;        (* desiredSubscriptionKeyRef *)
  ignoreDetachedEventsUntil : gmap string N;     (* ignoreDetachedEventsUntilRef *)
  inFlightReconnect : option InFlight;           (* inFlightReconnectRef *)
  reconnectSequence : Z;                         (* reconnectSequenceRef *)
  attempts : list Attempt;
  calls : list LoggedCall;
}.

(** What a handler reads from the document and the clock while it runs. *)
Record Env : Type := mkEnv {
  visible : bool;   (* isDocumentVisible() *)
  focused : bool;   (* isWindowFocused() *)
  now : N;          (* Date.now() *)
}.

(** The props of the hook that the coordinator reads. *)
Record Props : Type := mkProps {
  p_backendMode : string;
  p_activeWorkspace : option WorkspaceInfo;
  p_activeThreadId : option string;
  p_hasReconnectWorkspace : bool;
}.

Definition setProps (p : Props) (s : State) : State :=
  mkState (p_backendMode p) (p_activeWorkspace p) (p_activeThreadId p)
    (p_hasReconnectWorkspace p) (connectionState s) (activeSubscriptionKey s)
    (desiredSubscriptionKey s) (ignoreDetachedEventsUntil s)
    (inFlightReconnect s) (reconnectSequence s) (attempts s) (calls s).

Definition setConnectionState (c : RemoteThreadConnectionState) (s : State) : State :=
  mkState (backendMode s) (activeWorkspace s) (activeThreadId s)
    (hasReconnectWorkspace s) c (activeSubscriptionKey s)
    (desiredSubscriptionKey s) (ignoreDetachedEventsUntil s)
    (inFlightReconnect s) (reconnectSequence s) (attempts s) (calls s).

Definition setActiveSubscriptionKey (k : option string) (s : State) : State :=
  mkState (backendMode s) (activeWorkspace s) (activeThreadId s)
    (hasReconnectWorkspace s) (connectionState s) k
    (desiredSubscriptionKey s) (ignoreDetachedEventsUntil s)
    (inFlightReconnect s) (reconnectSequence s) (attempts s) (calls s).

Definition setDesiredSubscriptionKey (k : option string) (s : State) : State :=
  mkState (backendMode s) (activeWorkspace s) (activeThreadId s)
    (hasReconnectWorkspace s) (connectionState s) (activeSubscriptionKey s)
    k (ignoreDetachedEventsUntil s)
    (inFlightReconnect s) (reconnectSequence s) (attempts s) (calls s).

Definition setIgnoreDetachedEventsUntil (m : gmap string N) (s : State) : State :=
  mkState (backendMode s) (activeWorkspace s) (activeThreadId s)
    (hasReconnectWorkspace s) (connectionState s) (activeSubscriptionKey s)
    (desiredSubscriptionKey s) m
    (inFlightReconnect s) (reconnectSequence s) (attempts s) (calls s).

Definition setInFlightReconnect (f : option InFlight) (s : State) : State :=
  mkState (backendMode s) (activeWorkspace s) (activeThreadId s)
    (hasReconnectWorkspace s) (connectionState s) (activeSubscriptionKey s)
    (desiredSubscriptionKey s) (ignoreDetachedEventsUntil s)
    f (reconnectSequence s) (attempts s) (calls s).

Definition setReconnectSequence (n : Z) (s : State) : State :=
  mkState (backendMode s) (activeWorkspace s) (activeThreadId s)
    (hasReconnectWorkspace s) (connectionState s) (activeSubscriptionKey s)
    (desiredSubscriptionKey s) (ignoreDetachedEventsUntil s)
    (inFlightReconnect s) n (attempts s) (calls s).

Definition setAttempts (l : list Attempt) (s : State) : State :=
  mkState (backendMode s) (activeWorkspace s) (activeThreadId s)
    (hasReconnectWorkspace s) (connectionState s) (activeSubscriptionKey s)
    (desiredSubscriptionKey s) (ignoreDetachedEventsUntil s)
    (inFlightReconnect s) (reconnectSequence s) l (calls s).

(** A collaborator is called. *)
Definition issue (issuer : option nat) (c : Call) (s : State) : State :=
  mkState (backendMode s) (activeWorkspace s) (activeThreadId s)
    (hasReconnectWorkspace s) (connectionState s) (activeSubscriptionKey s)
    (desiredSubscriptionKey s) (ignoreDetachedEventsUntil s)
    (inFlightReconnect s) (reconnectSequence s) (attempts s)
    (calls s ++ [(issuer, c)]).

(** The state of the hook when it is created, before any effect runs. *)
Definition initialState (p : Props) : State :=
  mkState (p_backendMode p) (p_activeWorkspace p) (p_activeThreadId p)
    (p_hasReconnectWorkspace p)
    (initialConnectionState (p_backendMode p) (p_activeWorkspace p))
    None None ∅ None 0 [] [].

(** ** Helpers of the hook *)

(** [setState] (lines 133-139). *)
Definition setState (next : RemoteThreadConnectionState) (s : State) : State :=
  if bool_decide (connectionState s = next) then s
  else setConnectionState next s.

(** [unsubscribeByKey] (lines 141-152): the call is issued at once, and a
    failure of it is swallowed. *)
Definition unsubscribeByKey (key : string) (s : State) : State :=
  match splitKey key with
  | None => s
  | Some parsed =>
      issue None
        (ThreadLiveUnsubscribe (pk_workspaceId parsed) (pk_threadId parsed)) s
  end.

(** [reconcileDisconnectedState] (lines 154-165). *)
Definition reconcileDisconnectedState (s : State) : State :=
  let workspace := activeWorkspace s in
  if negb (String.eqb (backendMode s) "remote") then
    setState (if connectedOpt workspace then Live else Disconnected) s
  else if negb (connectedOpt workspace) then setState Disconnected s
  else setState Polling s.

(** ** A reconnect attempt (lines 194-251)

    Each function below is a stretch of the [async] block between two
    [await]s. It returns the state and where the attempt is suspended
    next. *)

Section AttemptBody.

Variable env : Env.
(** [pid] is the promise of the attempt, [a] its captured variables. *)
Variable pid : nat.
Variable a : Attempt.

Let workspaceId := at_workspaceId a.
Let threadId := at_threadId a.
Let targetKey := at_targetKey a.
Let sequence := at_sequence a.

(** Line 232. *)
Definition callSubscribe (s : State) : State * Suspension :=
  (issue (Some pid) (ThreadLiveSubscribe workspaceId threadId) s,
   AwaitSubscribe).

(** Lines 218-232. *)
Definition afterRefresh (s : State) : State * Suspension :=
  if negb (bool_decide (sequence = reconnectSequence s)) then
    (s, Settled false)
  else if bool_decide (activeSubscriptionKey s = Some targetKey) then
    let s1 :=
      setIgnoreDetachedEventsUntil
        (<[targetKey := (now env + SELF_DETACH_IGNORE_WINDOW_MS)%N]>
           (ignoreDetachedEventsUntil s)) s in
    (issue (Some pid) (ThreadLiveUnsubscribe workspaceId threadId) s1,
     AwaitDedupeUnsubscribe)
  else callSubscribe s.

(** Lines 211-217, then on. *)
Definition afterSessionReconnect (s : State) : State * Suspension :=
  if negb (bool_decide (sequence = reconnectSequence s)) then
    (s, Settled false)
  else if negb (bool_decide (runResumeOf (at_options a) = Some false)) then
    (issue (Some pid) (RefreshThread workspaceId threadId) s,
     AwaitRefreshThread)
  else afterRefresh s.

(** Lines 230-232, after the unsubscribe of the dedupe path has settled
    (a failure of it is swallowed by its [catch]). *)
Definition afterDedupeUnsubscribe (s : State) : State * Suspension :=
  callSubscribe (setActiveSubscriptionKey None s).

(** Lines 233-244. *)
Definition afterSubscribe (s : State) : State * Suspension :=
  if negb (bool_decide (sequence = reconnectSequence s)) then
    if negb (bool_decide (desiredSubscriptionKey s = Some targetKey)) then
      (issue (Some pid) (ThreadLiveUnsubscribe workspaceId threadId) s,
       AwaitStaleUnsubscribe)
    else (s, Settled false)
  else
    (setState Polling (setActiveSubscriptionKey (Some targetKey) s),
     Settled true).

(** Line 239, after the cleanup unsubscribe has settled. *)
Definition afterStaleUnsubscribe (s : State) : State * Suspension :=
  (s, Settled false).

(** The [catch] block (lines 245-250). *)
Definition onRejected (s : State) : State * Suspension :=
  if bool_decide (sequence = reconnectSequence s) then
    (reconcileDisconnectedState s, Settled false)
  else (s, Settled false).

(** Lines 201-210, then on: the block up to its first [await]. The
    sequence number has been taken and the state set by the caller. *)
Definition attemptStart (s : State) : State * Suspension :=
  let s1 := setDesiredSubscriptionKey (Some targetKey) s in
  match activeWorkspace s1 with
  | Some workspaceEntry =>
      if negb (ws_connected workspaceEntry)
         && hasReconnectWorkspace s1
         && bool_decide (ws_id workspaceEntry = workspaceId)
      then (issue (Some pid) (ReconnectWorkspace workspaceEntry) s1,
            AwaitReconnectWorkspace)
      else afterSessionReconnect s1
  | None => afterSessionReconnect s1
  end.

End AttemptBody.

(** How an awaited call settles. *)
Inductive Outcome : Type := Fulfilled | Rejected.

(** The [finally] callback of lines 259-263. *)
Definition finallyClear (pid : nat) (s : State) : State :=
  match inFlightReconnect s with
  | Some f =>
      if bool_decide (if_promise f = pid) then setInFlightReconnect None s
      else s
  | None => s
  end.

Definition withSuspension (a : Attempt) (next : Suspension) : Attempt :=
  mkAttempt (at_workspaceId a) (at_threadId a) (at_targetKey a)
    (at_options a) (at_sequence a) next.

(** The attempt is parked at its next [await]; when its promise has
    settled, the [finally] callback runs. *)
Definition park (pid : nat) (a : Attempt) (r : State * Suspension) : State :=
  let s := setAttempts (<[pid := withSuspension a (snd r)]> (attempts (fst r)))
             (fst r) in
  match snd r with
  | Settled _ => finallyClear pid s
  | _ => s
  end.

(** The call awaited by attempt [pid] settles and the attempt runs on to
    its next [await] or to its end. *)
Definition resume (env : Env) (pid : nat) (o : Outcome) (s : State) : State :=
  match attempts s !! pid with
  | None => s
  | Some a =>
      match at_suspension a, o with
      | AwaitReconnectWorkspace, Fulfilled =>
          park pid a (afterSessionReconnect env pid a s)
      | AwaitRefreshThread, Fulfilled => park pid a (afterRefresh env pid a s)
      | AwaitDedupeUnsubscribe, _ => park pid a (afterDedupeUnsubscribe pid a s)
      | AwaitSubscribe, Fulfilled => park pid a (afterSubscribe pid a s)
      | AwaitStaleUnsubscribe, _ => park pid a (afterStaleUnsubscribe s)
      | (AwaitReconnectWorkspace | AwaitRefreshThread | AwaitSubscribe), Rejected =>
          park pid a (onRejected a s)
      | Settled _, _ => s
      end
  end.

(** ** [reconnectLive] (lines 167-267) *)

(** What a call of [reconnectLive] returns: [false], or the promise of an
    attempt. *)
Inductive ReconnectResult : Type :=
  | ResolvedFalse
  | AttemptPromise (pid : nat).

(** Lines 194-264: a new attempt is started and recorded as in flight. *)
Definition startAttempt (env : Env) (workspaceId threadId targetKey : string)
  (options : option ReconnectOptions) (s : State) : State * ReconnectResult :=
  let pid := List.length (attempts s) in
  let sequence := reconnectSequence s + 1 in
  let s1 := setReconnectSequence sequence s in
  let workspaceAtStart := activeWorkspace s1 in
  let s2 := setState (if connectedOpt workspaceAtStart then Polling
                      else Disconnected) s1 in
  let captured (susp : Suspension) :=
    mkAttempt workspaceId threadId targetKey options sequence susp in
  let r := attemptStart env pid (captured AwaitSubscribe) s2 in
  let s3 := setAttempts (attempts (fst r) ++ [captured (snd r)]) (fst r) in
  let s4 := setInFlightReconnect
              (Some (mkInFlight targetKey (reconnectSequence s3) pid)) s3 in
  (match snd r with Settled _ => finallyClear pid s4 | _ => s4 end,
   AttemptPromise pid).

Definition reconnectLive (env : Env) (workspaceId threadId : string)
  (options : option ReconnectOptions) (s : State) : State * ReconnectResult :=
  if negb (String.eqb (backendMode s) "remote")
     || negb (Js.truthy workspaceId)
     || negb (Js.truthy threadId)
     || negb (bool_decide (is_Some (activeWorkspace s)))
  then (reconcileDisconnectedState s, ResolvedFalse)
  else
    let targetKey := keyForThread workspaceId threadId in
    let s1 := setDesiredSubscriptionKey (Some targetKey) s in
    match inFlightReconnect s1 with
    | Some inFlight =>
        if bool_decide (if_key inFlight = targetKey) then
          if bool_decide (if_sequence inFlight = reconnectSequence s1) then
            (s1, AttemptPromise (if_promise inFlight))
          else
            startAttempt env workspaceId threadId targetKey options
              (setInFlightReconnect None s1)
        else startAttempt env workspaceId threadId targetKey options s1
    | None => startAttempt env workspaceId threadId targetKey options s1
    end.

(** ** The selection effect (lines 269-311) *)

Definition selectionEffect (env : Env) (s : State) : State :=
  let activeWorkspaceId := ws_id <$> activeWorkspace s in
  let activeWorkspaceConnected := connectedOpt (activeWorkspace s) in
  let nextKey :=
    match activeWorkspaceId, activeThreadId s with
    | Some w, Some t =>
        if String.eqb (backendMode s) "remote" && Js.truthy w && Js.truthy t
        then Some (keyForThread w t) else None
    | _, _ => None
    end in
  let s1 := setDesiredSubscriptionKey nextKey s in
  let previousKey := activeSubscriptionKey s1 in
  let s2 :=
    match previousKey with
    | Some k =>
        if Js.truthy k && negb (bool_decide (previousKey = nextKey))
        then unsubscribeByKey k (setActiveSubscriptionKey None s1)
        else s1
    | None => s1
    end in
  match nextKey with
  | None => reconcileDisconnectedState s2
  | Some key =>
      if negb (visible env) then reconcileDisconnectedState s2
      else
        match splitKey key with
        | None => reconcileDisconnectedState s2
        | Some parsed =>
            if bool_decide (activeSubscriptionKey s2 = nextKey)
               && negb (bool_decide (connectionState s2 = Disconnected))
               && activeWorkspaceConnected
            then s2
            else fst (reconnectLive env (pk_workspaceId parsed)
                        (pk_threadId parsed)
                        (Some (mkReconnectOptions (Some true))) s2)
        end
  end.

(** ** The event router (lines 313-389) *)

(** A backend event as the handler reads it: [event.workspace_id], the
    method ([null] when the event has none) and the parameter bag. *)
Record AppServerEvent : Type := mkAppServerEvent {
  ev_workspace_id : string;
  ev_method : option string;
  ev_params : list (string * Js.Value);
}.

(** The branch for [thread/live_detached] once the thread id matched
    (lines 347-363). *)
Definition onLiveDetached (env : Env) (activeWorkspaceId selectedThreadId : string)
  (s : State) : State :=
  let threadKey := keyForThread activeWorkspaceId selectedThreadId in
  let ignoreDetachedUntil :=
    default 0%N (ignoreDetachedEventsUntil s !! threadKey) in
  if (0 <? ignoreDetachedUntil)%N && (now env <=? ignoreDetachedUntil)%N then
    setIgnoreDetachedEventsUntil
      (delete threadKey (ignoreDetachedEventsUntil s)) s
  else
    let s1 :=
      if (0 <? ignoreDetachedUntil)%N then
        setIgnoreDetachedEventsUntil
          (delete threadKey (ignoreDetachedEventsUntil s)) s
      else s in
    let s2 := reconcileDisconnectedState (setActiveSubscriptionKey None s1) in
    if visible env && focused env then
      fst (reconnectLive env activeWorkspaceId selectedThreadId
             (Some (mkReconnectOptions (Some true))) s2)
    else s2.

Definition onAppServerEvent (env : Env) (event : AppServerEvent) (s : State)
  : State :=
  match ev_method event with
  | None => s
  | Some method =>
      if negb (Js.truthy method) then s
      else
        match ws_id <$> activeWorkspace s, activeThreadId s with
        | Some activeWorkspaceId, Some selectedThreadId =>
            if negb (Js.truthy activeWorkspaceId)
               || negb (Js.truthy selectedThreadId) then s
            else if negb (String.eqb (ev_workspace_id event) activeWorkspaceId)
            then s
            else if String.eqb method "codex/connected" && visible env then
              fst (reconnectLive env activeWorkspaceId selectedThreadId
                     (Some (mkReconnectOptions (Some false))) s)
            else
              let threadId := extractThreadId method (ev_params event) in
              let matches := bool_decide (threadId = Some selectedThreadId) in
              if String.eqb method "thread/live_attached" then
                if matches then
                  setState Polling
                    (setActiveSubscriptionKey
                       (Some (keyForThread activeWorkspaceId selectedThreadId)) s)
                else s
              else if String.eqb method "thread/live_detached" then
                if matches then
                  onLiveDetached env activeWorkspaceId selectedThreadId s
                else s
              else if String.eqb method "thread/live_heartbeat" then
                if matches then setState Live s else s
              else if negb (isThreadActivityMethod method) then s
              else if negb matches then s
              else setState Live s
        | _, _ => s
        end
  end.

(** ** Focus, blur and visibility (lines 391-485) *)

Definition reconnectActiveThread (env : Env) (s : State) : State :=
  match ws_id <$> activeWorkspace s, activeThreadId s with
  | Some workspaceId, Some threadId =>
      if negb (Js.truthy workspaceId) || negb (Js.truthy threadId) then s
      else fst (reconnectLive env workspaceId threadId
                  (Some (mkReconnectOptions (Some true))) s)
  | _, _ => s
  end.

Definition handleFocus (env : Env) (s : State) : State :=
  if negb (visible env) then s else reconnectActiveThread env s.

Definition handleBlur (s : State) : State :=
  let s1 := setReconnectSequence (reconnectSequence s + 1) s in
  let s2 := setDesiredSubscriptionKey None s1 in
  match activeSubscriptionKey s2 with
  | Some currentKey =>
      if negb (Js.truthy currentKey) then s2
      else
        reconcileDisconnectedState
          (unsubscribeByKey currentKey (setActiveSubscriptionKey None s2))
  | None => s2
  end.

(** [visible env] is [document.visibilityState === "visible"]. *)
Definition handleVisibilityChange (env : Env) (s : State) : State :=
  if visible env then reconnectActiveThread env s else handleBlur s.

(** The cleanup of the last effect (lines 466-484), without the removal of
    the listeners. *)
Definition teardown (s : State) : State :=
  let s1 := setDesiredSubscriptionKey None s in
  let s2 := setIgnoreDetachedEventsUntil ∅ s1 in
  match activeSubscriptionKey s2 with
  | Some currentKey =>
      if Js.truthy currentKey
      then unsubscribeByKey currentKey (setActiveSubscriptionKey None s2)
      else s2
  | None => s2
  end.

(** ** Operations of a coordinator instance *)

Inductive Operation : Type :=
  | OpMount                                  (* the effects of the first render *)
  | OpRender (p : Props)                     (* a render with new props *)
  | OpReconnectLive (workspaceId threadId : string)
      (options : option ReconnectOptions)    (* the exported [reconnectLive] *)
  | OpAppServerEvent (event : AppServerEvent)
  | OpFocus
  | OpBlur
  | OpVisibilityChange
  | OpSettle (pid : nat) (o : Outcome)       (* an awaited call settles *)
  | OpTeardown.

(** The dependencies of the selection effect (lines 303-311) differ
    between the refs and the new props. *)
Definition selectionChanged (p : Props) (s : State) : bool :=
  negb (bool_decide (p_activeThreadId p = activeThreadId s)
        && bool_decide (connectedOpt (p_activeWorkspace p)
                        = connectedOpt (activeWorkspace s))
        && bool_decide (ws_id <$> p_activeWorkspace p
                        = ws_id <$> activeWorkspace s)
        && bool_decide (p_backendMode p = backendMode s)).

Definition step (env : Env) (op : Operation) (s : State) : State :=
  match op with
  | OpMount => selectionEffect env s
  | OpRender p =>
      if selectionChanged p s then selectionEffect env (setProps p s)
      else setProps p s
  | OpReconnectLive w t options => fst (reconnectLive env w t options s)
  | OpAppServerEvent event => onAppServerEvent env event s
  | OpFocus => handleFocus env s
  | OpBlur => handleBlur s
  | OpVisibilityChange => handleVisibilityChange env s
  | OpSettle pid o => resume env pid o s
  | OpTeardown => teardown s
  end.

(** A run: the operations in order, each with what it reads from the
    environment. *)
Fixpoint run (ops : list (Env * Operation)) (s : State) : State :=
  match ops with
  | [] => s
  | (env, op) :: rest => run rest (step env op s)
  end.

(** The states a coordinator instance can be in. *)
Inductive reachable : State -> Prop :=
  | reachable_init (p : Props) : reachable (initialState p)
  | reachable_step (env : Env) (op : Operation) (s : State) :
      reachable s -> reachable (step env op s).

(** The subscribe calls attempt [pid] has issued. *)
Definition isSubscribeBy (pid : nat) (c : LoggedCall) : bool :=
  match c with
  | (Some p, ThreadLiveSubscribe _ _) => bool_decide (p = pid)
  | _ => false
  end.

Definition subscribesIn (pid : nat) (l : list LoggedCall) : nat :=
  List.length (List.filter (isSubscribeBy pid) l).

Definition subscribesBy (pid : nat) (s : State) : nat :=
  subscribesIn pid (calls s).


Definition isUnsubscribe (c : LoggedCall) : bool :=
  match c with
  | (_, ThreadLiveUnsubscribe _ _) => true
  | _ => false
  end.

(** ** The resting state and the thread id as the specification words them *)

(** "Live when the backend mode is not remote and the workspace is
    connected, disconnected when the workspace is absent or not connected,
    polling when the mode is remote and the workspace is connected." *)
Definition specRestingState (backendMode : string)
  (workspace : option WorkspaceInfo) : RemoteThreadConnectionState :=
  match workspace with
  | None => Disconnected
  | Some w =>
      if ws_connected w then
        if String.eqb backendMode "remote" then Polling else Live
      else Disconnected
  end.

(** The id an object carries: its [threadId], else its [thread_id]; [None]
    when it has neither (absent, [undefined] or [null]). *)
Definition rawThreadId (o : Js.Value) : option string :=
  match Js.get o "threadId" with
  | Js.JUndefined | Js.JNull =>
      match Js.get o "thread_id" with
      | Js.JUndefined | Js.JNull => None
      | v => Some (Js.toString v)
      end
  | v => Some (Js.toString v)
  end.

(** An id that is present and not blank, trimmed. *)
Definition usableId (raw : option string) : option string :=
  match raw with
  | Some id => if String.eqb (Js.trim id) "" then None else Some (Js.trim id)
  | None => None
  end.

(** The object found at [params.turn], or an empty one. *)
Definition turnOf (params : list (string * Js.Value)) : Js.Value :=
  match Js.lookupField params "turn" with
  | Js.JUndefined | Js.JNull => Js.JObject []
  | v => v
  end.

(** "For turn/started, turn/completed and error the id nested in
    params.turn is read first, and the top-level id is the fallback; a
    missing or blank id is no id." *)
Definition specExtractThreadId (method : string)
  (params : list (string * Js.Value)) : option string :=
  let nested :=
    if bool_decide (method = "turn/started" \/ method = "turn/completed"
                    \/ method = "error")
    then usableId (rawThreadId (turnOf params)) else None in
  match nested with
  | Some id => Some id
  | None => usableId (rawThreadId (Js.JObject params))
  end.

(** ** Invariants of the reachable states *)

(** A logged call of an attempt carries the ids of that attempt. *)
Definition callOf (a : Attempt) (c : Call) : Prop :=
  match c with
  | ReconnectWorkspace w => ws_id w = at_workspaceId a
  | RefreshThread w t | ThreadLiveSubscribe w t | ThreadLiveUnsubscribe w t =>
      w = at_workspaceId a /\ t = at_threadId a
  end.

Definition ownedCall (l : list Attempt) (c : LoggedCall) : Prop :=
  match fst c with
  | Some p => exists a, l !! p = Some a /\ callOf a (snd c)
  | None => True
  end.

(** How many subscribe calls an attempt has issued, by where it stands. *)
Definition subscribeCount (susp : Suspension) (n : nat) : Prop :=
  match susp with
  | AwaitReconnectWorkspace | AwaitRefreshThread | AwaitDedupeUnsubscribe =>
      n = 0%nat
  | AwaitSubscribe | AwaitStaleUnsubscribe | Settled true => n = 1%nat
  | Settled false => (n <= 1)%nat
  end.

Record Inv (s : State) : Prop := mkInv {
  inv_sequence :
    forall p a, attempts s !! p = Some a ->
      at_sequence a <= reconnectSequence s;
  inv_current :
    forall p a, attempts s !! p = Some a -> isPending a = true ->
      at_sequence a = reconnectSequence s ->
      inFlightReconnect s = Some (mkInFlight (at_targetKey a) (at_sequence a) p);
  inv_key :
    forall p a, attempts s !! p = Some a ->
      at_targetKey a = keyForThread (at_workspaceId a) (at_threadId a);
  inv_ignore :
    forall k v, ignoreDetachedEventsUntil s !! k = Some v -> (0 < v)%N;
  inv_owned : Forall (ownedCall (attempts s)) (calls s);
  inv_subscribes :
    forall p a, attempts s !! p = Some a ->
      subscribeCount (at_suspension a) (subscribesBy p s);
}.

(** The attempt has not called subscribe yet. *)
Definition beforeSubscribe (susp : Suspension) : Prop :=
  susp = AwaitReconnectWorkspace \/ susp = AwaitRefreshThread
  \/ susp = AwaitDedupeUnsubscribe.

(** The calls a stretch of attempt [pid] may add to the log. *)
Definition issuedBy (pid : nat) (a : Attempt) (c : LoggedCall) : Prop :=
  fst c = Some pid /\ callOf a (snd c).

(** What a stretch of the attempt body, run from [s] by attempt [pid]
    standing at [old], leaves alone, and what it may log. *)
Record BodyStep (pid : nat) (a : Attempt) (old : Suspension) (s : State)
  (r : State * Suspension) : Prop := mkBodyStep {
  bs_sequence : reconnectSequence (fst r) = reconnectSequence s;
  bs_inFlight : inFlightReconnect (fst r) = inFlightReconnect s;
  bs_attempts : attempts (fst r) = attempts s;
  bs_ignore :
    (forall k v, ignoreDetachedEventsUntil s !! k = Some v -> (0 < v)%N) ->
    forall k v, ignoreDetachedEventsUntil (fst r) !! k = Some v -> (0 < v)%N;
  bs_calls :
    exists extra,
      calls (fst r) = (calls s ++ extra)%list
      /\ Forall (issuedBy pid a) extra
      /\ forall n, subscribeCount old n ->
           subscribeCount (snd r) (n + subscribesIn pid extra);
}.

(** The attempts of [l] are still in [l'], each with the variables it
    captured; only where they stand may differ. *)
Definition attemptsKept (l l' : list Attempt) : Prop :=
  forall p a, l !! p = Some a ->
    exists susp, l' !! p = Some (withSuspension a susp).

(** [reconnectLive workspaceId threadId] passes the checks of lines
    173-181. *)
Definition passesChecks (workspaceId threadId : string) (s : State) : Prop :=
  backendMode s = "remote" /\ workspaceId <> "" /\ threadId <> ""
  /\ is_Some (activeWorkspace s).

(** ** The setting of the repository's tests

    One connected workspace [ws-1] in remote mode, a visible and focused
    window, as in [useRemoteThreadLiveConnection.test.tsx]. *)

Module Scenario.

Definition workspace : WorkspaceInfo := mkWorkspaceInfo "ws-1" true.

(** No thread is selected: the tests that call [reconnectLive] by hand. *)
Definition idle : Props := mkProps "remote" (Some workspace) None false.

(** [thread-1] is selected. *)
Definition selected : Props :=
  mkProps "remote" (Some workspace) (Some "thread-1") false.

Definition foreground : Env := mkEnv true true 1771459200000.

Definition withResume : option ReconnectOptions :=
  Some (mkReconnectOptions (Some true)).

Definition withoutResume : option ReconnectOptions :=
  Some (mkReconnectOptions (Some false)).

Definition event (method : string) (threadId : string) : AppServerEvent :=
  mkAppServerEvent "ws-1" (Some method) [("threadId", Js.JString threadId)].

End Scenario.

(** ** The selection and the in-flight record *)

(** The key the selection effect computes (lines 270-273): the key of the
    selected workspace and thread in remote mode, [null] otherwise. *)
Definition selectionKey (s : State) : option string :=
  match ws_id <$> activeWorkspace s, activeThreadId s with
  | Some w, Some t =>
      if String.eqb (backendMode s) "remote" && Js.truthy w && Js.truthy t
      then Some (keyForThread w t) else None
  | _, _ => None
  end.

(** The in-flight record names an unresolved attempt with its key and its
    sequence number. *)
Definition inFlightPending (s : State) : Prop :=
  forall f, inFlightReconnect s = Some f ->
    exists a, attempts s !! if_promise f = Some a /\ isPending a = true
              /\ at_targetKey a = if_key f /\ at_sequence a = if_sequence f.

(** Every call of the log that no attempt issued is an unsubscribe. *)
Definition ownCallsAreUnsubscribes (s : State) : Prop :=
  Forall (fun c : LoggedCall => fst c = None -> isUnsubscribe c = true) (calls s).

(** ** One attempt through a run *)

(** The awaits an attempt standing at [susp] has ahead of it at most when
    nothing fails: the session reconnect (line 209), the refresh (line
    216), the dedupe unsubscribe (line 227) and the subscribe call (line
    232). *)
Definition awaitsLeft (susp : Suspension) : nat :=
  match susp with
  | AwaitReconnectWorkspace => 4
  | AwaitRefreshThread => 3
  | AwaitDedupeUnsubscribe => 2
  | AwaitSubscribe => 1
  | AwaitStaleUnsubscribe => 1
  | Settled _ => 0
  end.

(** The operation resolves the call attempt [pid] awaits. *)
Definition isFulfilmentOf (pid : nat) (op : Env * Operation) : bool :=
  match snd op with
  | OpSettle p Fulfilled => bool_decide (p = pid)
  | _ => false
  end.

(** The operation rejects the call attempt [pid] awaits. *)
Definition isRejectionOf (pid : nat) (op : Env * Operation) : bool :=
  match snd op with
  | OpSettle p Rejected => bool_decide (p = pid)
  | _ => false
  end.

Definition fulfilledIn (pid : nat) (ops : list (Env * Operation)) : nat :=
  List.length (List.filter (isFulfilmentOf pid) ops).

Definition rejectedIn (pid : nat) (ops : list (Env * Operation)) : nat :=
  List.length (List.filter (isRejectionOf pid) ops).

(** The attempt is on its way to its subscribe call, waits for it, or has
    resolved true: it has not given up. *)
Definition onCourse (susp : Suspension) : Prop :=
  susp <> Settled false /\ susp <> AwaitStaleUnsubscribe.

(** Between [s] and [x] attempt [pid] has not moved, and the calls logged
    since hold no subscribe call of it. *)
Definition standsStill (pid : nat) (s x : State) : Prop :=
  is_Some (attempts s !! pid)
  /\ attempts x !! pid = attempts s !! pid
  /\ exists extra,
       calls x = (calls s ++ extra)%list /\ subscribesIn pid extra = 0%nat.

(** An attempt suspended at its cleanup unsubscribe (line 235) is stale. *)
Definition cleanupIsStale (s : State) : Prop :=
  forall p a, attempts s !! p = Some a ->
    at_suspension a = AwaitStaleUnsubscribe ->
    at_sequence a < reconnectSequence s.

(** * Properties *)

(** ** What the helpers leave alone *)

Section Frames.

Variable s : State.

Lemma backendMode_setState (next : RemoteThreadConnectionState) :
  backendMode (setState next s) = backendMode s.
Proof. unfold setState; case_bool_decide; reflexivity. Qed.

Lemma activeWorkspace_setState (next : RemoteThreadConnectionState) :
  activeWorkspace (setState next s) = activeWorkspace s.
Proof. unfold setState; case_bool_decide; reflexivity. Qed.

Lemma activeThreadId_setState (next : RemoteThreadConnectionState) :
  activeThreadId (setState next s) = activeThreadId s.
Proof. unfold setState; case_bool_decide; reflexivity. Qed.

Lemma hasReconnectWorkspace_setState (next : RemoteThreadConnectionState) :
  hasReconnectWorkspace (setState next s) = hasReconnectWorkspace s.
Proof. unfold setState; case_bool_decide; reflexivity. Qed.

Lemma activeSubscriptionKey_setState (next : RemoteThreadConnectionState) :
  activeSubscriptionKey (setState next s) = activeSubscriptionKey s.
Proof. unfold setState; case_bool_decide; reflexivity. Qed.

Lemma desiredSubscriptionKey_setState (next : RemoteThreadConnectionState) :
  desiredSubscriptionKey (setState next s) = desiredSubscriptionKey s.
Proof. unfold setState; case_bool_decide; reflexivity. Qed.

Lemma ignoreDetachedEventsUntil_setState (next : RemoteThreadConnectionState) :
  ignoreDetachedEventsUntil (setState next s) = ignoreDetachedEventsUntil s.
Proof. unfold setState; case_bool_decide; reflexivity. Qed.

Lemma inFlightReconnect_setState (next : RemoteThreadConnectionState) :
  inFlightReconnect (setState next s) = inFlightReconnect s.
Proof. unfold setState; case_bool_decide; reflexivity. Qed.

Lemma reconnectSequence_setState (next : RemoteThreadConnectionState) :
  reconnectSequence (setState next s) = reconnectSequence s.
Proof. unfold setState; case_bool_decide; reflexivity. Qed.

Lemma attempts_setState (next : RemoteThreadConnectionState) :
  attempts (setState next s) = attempts s.
Proof. unfold setState; case_bool_decide; reflexivity. Qed.

Lemma calls_setState (next : RemoteThreadConnectionState) :
  calls (setState next s) = calls s.
Proof. unfold setState; case_bool_decide; reflexivity. Qed.

Lemma backendMode_reconcileDisconnectedState :
  backendMode (reconcileDisconnectedState s) = backendMode s.
Proof. unfold reconcileDisconnectedState; repeat case_match; unfold setState; case_bool_decide; reflexivity. Qed.

Lemma activeWorkspace_reconcileDisconnectedState :
  activeWorkspace (reconcileDisconnectedState s) = activeWorkspace s.
Proof. unfold reconcileDisconnectedState; repeat case_match; unfold setState; case_bool_decide; reflexivity. Qed.

Lemma activeThreadId_reconcileDisconnectedState :
  activeThreadId (reconcileDisconnectedState s) = activeThreadId s.
Proof. unfold reconcileDisconnectedState; repeat case_match; unfold setState; case_bool_decide; reflexivity. Qed.

Lemma hasReconnectWorkspace_reconcileDisconnectedState :
  hasReconnectWorkspace (reconcileDisconnectedState s) = hasReconnectWorkspace s.
Proof. unfold reconcileDisconnectedState; repeat case_match; unfold setState; case_bool_decide; reflexivity. Qed.

Lemma activeSubscriptionKey_reconcileDisconnectedState :
  activeSubscriptionKey (reconcileDisconnectedState s) = activeSubscriptionKey s.
Proof. unfold reconcileDisconnectedState; repeat case_match; unfold setState; case_bool_decide; reflexivity. Qed.

Lemma desiredSubscriptionKey_reconcileDisconnectedState :
  desiredSubscriptionKey (reconcileDisconnectedState s) = desiredSubscriptionKey s.
Proof. unfold reconcileDisconnectedState; repeat case_match; unfold setState; case_bool_decide; reflexivity. Qed.

Lemma ignoreDetachedEventsUntil_reconcileDisconnectedState :
  ignoreDetachedEventsUntil (reconcileDisconnectedState s) = ignoreDetachedEventsUntil s.
Proof. unfold reconcileDisconnectedState; repeat case_match; unfold setState; case_bool_decide; reflexivity. Qed.

Lemma inFlightReconnect_reconcileDisconnectedState :
  inFlightReconnect (reconcileDisconnectedState s) = inFlightReconnect s.
Proof. unfold reconcileDisconnectedState; repeat case_match; unfold setState; case_bool_decide; reflexivity. Qed.

Lemma reconnectSequence_reconcileDisconnectedState :
  reconnectSequence (reconcileDisconnectedState s) = reconnectSequence s.
Proof. unfold reconcileDisconnectedState; repeat case_match; unfold setState; case_bool_decide; reflexivity. Qed.

Lemma attempts_reconcileDisconnectedState :
  attempts (reconcileDisconnectedState s) = attempts s.
Proof. unfold reconcileDisconnectedState; repeat case_match; unfold setState; case_bool_decide; reflexivity. Qed.

Lemma calls_reconcileDisconnectedState :
  calls (reconcileDisconnectedState s) = calls s.
Proof. unfold reconcileDisconnectedState; repeat case_match; unfold setState; case_bool_decide; reflexivity. Qed.

Lemma backendMode_unsubscribeByKey (key : string) :
  backendMode (unsubscribeByKey key s) = backendMode s.
Proof. unfold unsubscribeByKey; case_match; reflexivity. Qed.

Lemma activeWorkspace_unsubscribeByKey (key : string) :
  activeWorkspace (unsubscribeByKey key s) = activeWorkspace s.
Proof. unfold unsubscribeByKey; case_match; reflexivity. Qed.

Lemma activeThreadId_unsubscribeByKey (key : string) :
  activeThreadId (unsubscribeByKey key s) = activeThreadId s.
Proof. unfold unsubscribeByKey; case_match; reflexivity. Qed.

Lemma hasReconnectWorkspace_unsubscribeByKey (key : string) :
  hasReconnectWorkspace (unsubscribeByKey key s) = hasReconnectWorkspace s.
Proof. unfold unsubscribeByKey; case_match; reflexivity. Qed.

Lemma connectionState_unsubscribeByKey (key : string) :
  connectionState (unsubscribeByKey key s) = connectionState s.
Proof. unfold unsubscribeByKey; case_match; reflexivity. Qed.

Lemma activeSubscriptionKey_unsubscribeByKey (key : string) :
  activeSubscriptionKey (unsubscribeByKey key s) = activeSubscriptionKey s.
Proof. unfold unsubscribeByKey; case_match; reflexivity. Qed.

Lemma desiredSubscriptionKey_unsubscribeByKey (key : string) :
  desiredSubscriptionKey (unsubscribeByKey key s) = desiredSubscriptionKey s.
Proof. unfold unsubscribeByKey; case_match; reflexivity. Qed.

Lemma ignoreDetachedEventsUntil_unsubscribeByKey (key : string) :
  ignoreDetachedEventsUntil (unsubscribeByKey key s) = ignoreDetachedEventsUntil s.
Proof. unfold unsubscribeByKey; case_match; reflexivity. Qed.

Lemma inFlightReconnect_unsubscribeByKey (key : string) :
  inFlightReconnect (unsubscribeByKey key s) = inFlightReconnect s.
Proof. unfold unsubscribeByKey; case_match; reflexivity. Qed.

Lemma reconnectSequence_unsubscribeByKey (key : string) :
  reconnectSequence (unsubscribeByKey key s) = reconnectSequence s.
Proof. unfold unsubscribeByKey; case_match; reflexivity. Qed.

Lemma attempts_unsubscribeByKey (key : string) :
  attempts (unsubscribeByKey key s) = attempts s.
Proof. unfold unsubscribeByKey; case_match; reflexivity. Qed.

Lemma backendMode_finallyClear (pid : nat) :
  backendMode (finallyClear pid s) = backendMode s.
Proof. unfold finallyClear; repeat case_match; reflexivity. Qed.

Lemma activeWorkspace_finallyClear (pid : nat) :
  activeWorkspace (finallyClear pid s) = activeWorkspace s.
Proof. unfold finallyClear; repeat case_match; reflexivity. Qed.

Lemma activeThreadId_finallyClear (pid : nat) :
  activeThreadId (finallyClear pid s) = activeThreadId s.
Proof. unfold finallyClear; repeat case_match; reflexivity. Qed.

Lemma hasReconnectWorkspace_finallyClear (pid : nat) :
  hasReconnectWorkspace (finallyClear pid s) = hasReconnectWorkspace s.
Proof. unfold finallyClear; repeat case_match; reflexivity. Qed.

Lemma connectionState_finallyClear (pid : nat) :
  connectionState (finallyClear pid s) = connectionState s.
Proof. unfold finallyClear; repeat case_match; reflexivity. Qed.

Lemma activeSubscriptionKey_finallyClear (pid : nat) :
  activeSubscriptionKey (finallyClear pid s) = activeSubscriptionKey s.
Proof. unfold finallyClear; repeat case_match; reflexivity. Qed.

Lemma desiredSubscriptionKey_finallyClear (pid : nat) :
  desiredSubscriptionKey (finallyClear pid s) = desiredSubscriptionKey s.
Proof. unfold finallyClear; repeat case_match; reflexivity. Qed.

Lemma ignoreDetachedEventsUntil_finallyClear (pid : nat) :
  ignoreDetachedEventsUntil (finallyClear pid s) = ignoreDetachedEventsUntil s.
Proof. unfold finallyClear; repeat case_match; reflexivity. Qed.

Lemma reconnectSequence_finallyClear (pid : nat) :
  reconnectSequence (finallyClear pid s) = reconnectSequence s.
Proof. unfold finallyClear; repeat case_match; reflexivity. Qed.

Lemma attempts_finallyClear (pid : nat) :
  attempts (finallyClear pid s) = attempts s.
Proof. unfold finallyClear; repeat case_match; reflexivity. Qed.

Lemma calls_finallyClear (pid : nat) :
  calls (finallyClear pid s) = calls s.
Proof. unfold finallyClear; repeat case_match; reflexivity. Qed.

End Frames.

Create Rewrite HintDb coord.

#[global] Hint Rewrite backendMode_setState activeWorkspace_setState activeThreadId_setState hasReconnectWorkspace_setState : coord.
#[global] Hint Rewrite activeSubscriptionKey_setState desiredSubscriptionKey_setState ignoreDetachedEventsUntil_setState inFlightReconnect_setState : coord.
#[global] Hint Rewrite reconnectSequence_setState attempts_setState calls_setState backendMode_reconcileDisconnectedState : coord.
#[global] Hint Rewrite activeWorkspace_reconcileDisconnectedState activeThreadId_reconcileDisconnectedState hasReconnectWorkspace_reconcileDisconnectedState activeSubscriptionKey_reconcileDisconnectedState : coord.
#[global] Hint Rewrite desiredSubscriptionKey_reconcileDisconnectedState ignoreDetachedEventsUntil_reconcileDisconnectedState inFlightReconnect_reconcileDisconnectedState reconnectSequence_reconcileDisconnectedState : coord.
#[global] Hint Rewrite attempts_reconcileDisconnectedState calls_reconcileDisconnectedState backendMode_unsubscribeByKey activeWorkspace_unsubscribeByKey : coord.
#[global] Hint Rewrite activeThreadId_unsubscribeByKey hasReconnectWorkspace_unsubscribeByKey connectionState_unsubscribeByKey activeSubscriptionKey_unsubscribeByKey : coord.
#[global] Hint Rewrite desiredSubscriptionKey_unsubscribeByKey ignoreDetachedEventsUntil_unsubscribeByKey inFlightReconnect_unsubscribeByKey reconnectSequence_unsubscribeByKey : coord.
#[global] Hint Rewrite attempts_unsubscribeByKey backendMode_finallyClear activeWorkspace_finallyClear activeThreadId_finallyClear : coord.
#[global] Hint Rewrite hasReconnectWorkspace_finallyClear connectionState_finallyClear activeSubscriptionKey_finallyClear desiredSubscriptionKey_finallyClear : coord.
#[global] Hint Rewrite ignoreDetachedEventsUntil_finallyClear reconnectSequence_finallyClear attempts_finallyClear calls_finallyClear : coord.

(** ** Keys *)

Section KeyFacts.

Lemma indexOf_lower (s : string) (c : ascii) : -1 <= Js.indexOf s c.
Proof.
  induction s as [|a r IH]; simpl; [lia|].
  destruct (Ascii.eqb a c); [lia|].
  destruct (Z.ltb_spec (Js.indexOf r c) 0); lia.
Qed.

(** In a string with no [c], followed by [c], the first [c] is right
    after it. *)
Lemma indexOf_app_absent (w r : string) (c : ascii) :
  Js.indexOf w c = -1 ->
  Js.indexOf (w ++ String c r) c = Js.length w.
Proof.
  unfold Js.length.
  induction w as [|a w IH]; simpl; intros H.
  - now rewrite Ascii.eqb_refl.
  - destruct (Ascii.eqb a c); [discriminate|].
    destruct (Z.ltb_spec (Js.indexOf w c) 0) as [Hneg|Hpos].
    + assert (Js.indexOf w c = -1) as Hw by (pose proof (indexOf_lower w c); lia).
      rewrite (IH Hw).
      destruct (Z.ltb_spec (Z.of_nat (String.length w)) 0); lia.
    + lia.
Qed.

Lemma substring_prefix (w r : string) :
  String.substring 0 (String.length w) (w ++ r) = w.
Proof.
  induction w as [|a w IH]; simpl.
  - now destruct r.
  - now rewrite IH.
Qed.

Lemma substring_whole (r : string) :
  String.substring 0 (String.length r) r = r.
Proof. induction r as [|b r IHr]; simpl; [reflexivity | now rewrite IHr]. Qed.

Lemma substring_suffix (w r : string) :
  String.substring (String.length w) (String.length r) (w ++ r) = r.
Proof.
  induction w as [|a w IH]; simpl; [apply substring_whole | exact IH].
Qed.

Lemma length_append (w r : string) :
  String.length (w ++ r) = (String.length w + String.length r)%nat.
Proof. induction w as [|a w IH]; simpl; [reflexivity | now rewrite IH]. Qed.

Lemma append_assoc3 (w r t : string) : (w ++ r) ++ t = w ++ r ++ t.
Proof.
  induction w as [|a w IH]; [reflexivity|].
  change (String a ((w ++ r) ++ t) = String a (w ++ r ++ t)).
  now rewrite IH.
Qed.

Lemma length_keyForThread (w t : string) :
  Js.length (keyForThread w t) = Js.length w + 1 + Js.length t.
Proof.
  unfold Js.length, keyForThread. rewrite length_append.
  change (String.length (":" ++ t)) with (S (String.length t)). lia.
Qed.

End KeyFacts.

(** C7, as stated, fails: a workspace id that holds a colon is cut at its
    own colon. *)
Lemma splitKey_keyForThread_colon_counterexample :
  "a:b" <> "" /\ "c" <> ""
  /\ splitKey (keyForThread "a:b" "c") = Some (mkParsedKey "a" "b:c")
  /\ splitKey (keyForThread "a:b" "c") <> Some (mkParsedKey "a:b" "c").
Proof. repeat split; try discriminate; reflexivity. Qed.

(** C7 (amended): for every non-empty workspace id that holds no colon and
    every non-empty thread id, [splitKey (keyForThread workspaceId threadId)]
    is the pair of the two ids. *)
Theorem splitKey_keyForThread (workspaceId threadId : string) :
  workspaceId <> "" -> threadId <> "" ->
  Js.indexOf workspaceId ":"%char = -1 ->
  splitKey (keyForThread workspaceId threadId)
  = Some (mkParsedKey workspaceId threadId).
Proof.
  intros Hw Ht Hcolon.
  unfold splitKey.
  pose proof (length_keyForThread workspaceId threadId) as Hlen.
  assert (Js.indexOf (keyForThread workspaceId threadId) ":"%char
          = Js.length workspaceId) as Hidx
    by (unfold keyForThread; simpl; now apply indexOf_app_absent).
  rewrite Hidx.
  assert (0 < Js.length workspaceId) as Hwpos
    by (unfold Js.length; destruct workspaceId; [congruence|simpl; lia]).
  assert (0 < Js.length threadId) as Htpos
    by (unfold Js.length; destruct threadId; [congruence|simpl; lia]).
  destruct (Z.leb_spec (Js.length workspaceId) 0); [lia|].
  destruct (Z.geb_spec (Js.length workspaceId)
              (Js.length (keyForThread workspaceId threadId) - 1)); [lia|].
  simpl orb. cbv iota. f_equal.
  unfold Js.sliceFrom, Js.slice. rewrite Hlen.
  unfold Js.length, keyForThread.
  f_equal.
  - replace (Z.to_nat 0) with 0%nat by reflexivity.
    replace (Z.to_nat (Z.of_nat (String.length workspaceId) - 0))
      with (String.length workspaceId) by lia.
    apply substring_prefix.
  - replace (Z.to_nat (Z.of_nat (String.length workspaceId) + 1))
      with (String.length (workspaceId ++ ":")) by (rewrite length_append; simpl; lia).
    replace (Z.to_nat _) with (String.length threadId) by lia.
    replace (workspaceId ++ ":" ++ threadId) with ((workspaceId ++ ":") ++ threadId).
    + apply substring_suffix.
    + apply append_assoc3.
Qed.

Lemma splitKey_keyForThread_witness :
  splitKey (keyForThread "ws-1" "thread-1") = Some (mkParsedKey "ws-1" "thread-1").
Proof.
  apply (splitKey_keyForThread "ws-1" "thread-1");
    [discriminate | discriminate | reflexivity].
Defined.

(** ** The resting state *)

Lemma restingState_spec (mode : string) (workspace : option WorkspaceInfo) :
  restingState mode workspace = specRestingState mode workspace.
Proof.
  unfold restingState, specRestingState, connectedOpt.
  destruct workspace as [[id [|]]|]; simpl; destruct (String.eqb mode "remote");
    reflexivity.
Qed.

Lemma connectionState_setState (next : RemoteThreadConnectionState) (s : State) :
  connectionState (setState next s) = next.
Proof. unfold setState. case_bool_decide; [assumption | reflexivity]. Qed.

Lemma connectionState_reconcile (s : State) :
  connectionState (reconcileDisconnectedState s)
  = restingState (backendMode s) (activeWorkspace s).
Proof.
  unfold reconcileDisconnectedState, restingState.
  destruct (negb (String.eqb (backendMode s) "remote"));
    [|destruct (negb (connectedOpt (activeWorkspace s)))];
    apply connectionState_setState.
Qed.

(** C9: when the hook is created, before any effect runs, the connection
    state is live when the mode is not remote and the workspace is
    connected, disconnected when the workspace is absent or not connected,
    polling when the mode is remote and the workspace is connected. It is
    the function of the mode and the workspace that
    [reconcileDisconnectedState] computes in any state, so that reconciling
    the initial state changes nothing. *)
Theorem initial_state_is_resting (p : Props) (s : State) :
  connectionState (initialState p)
  = specRestingState (p_backendMode p) (p_activeWorkspace p)
  /\ connectionState (reconcileDisconnectedState s)
     = specRestingState (backendMode s) (activeWorkspace s)
  /\ connectionState (reconcileDisconnectedState s)
     = initialConnectionState (backendMode s) (activeWorkspace s)
  /\ reconcileDisconnectedState (initialState p) = initialState p.
Proof.
  assert (connectionState (initialState p)
          = restingState (p_backendMode p) (p_activeWorkspace p)) as Hinit
    by reflexivity.
  split; [rewrite Hinit; apply restingState_spec|].
  split; [rewrite connectionState_reconcile; apply restingState_spec|].
  split; [apply connectionState_reconcile|].
  unfold reconcileDisconnectedState, setState.
  change (backendMode (initialState p)) with (p_backendMode p).
  change (activeWorkspace (initialState p)) with (p_activeWorkspace p).
  rewrite Hinit. unfold restingState.
  destruct (negb (String.eqb (p_backendMode p) "remote"));
    [|destruct (negb (connectedOpt (p_activeWorkspace p)))];
    rewrite bool_decide_eq_true_2; reflexivity.
Qed.

(** ** Thread ids *)

Lemma isTurnScopedMethod_spec (method : string) :
  isTurnScopedMethod method
  = bool_decide (method = "turn/started" \/ method = "turn/completed"
                 \/ method = "error").
Proof.
  unfold isTurnScopedMethod.
  destruct (String.eqb_spec method "turn/started") as [->|H1]; [reflexivity|].
  destruct (String.eqb_spec method "turn/completed") as [->|H2]; [reflexivity|].
  destruct (String.eqb_spec method "error") as [->|H3]; [reflexivity|].
  simpl. symmetry. apply bool_decide_eq_false. tauto.
Qed.

Lemma threadIdField_raw (o : Js.Value) :
  threadIdField o = Js.trim (default "" (rawThreadId o)).
Proof.
  unfold threadIdField, rawThreadId, Js.coalesce.
  destruct (Js.get o "threadId"); try reflexivity;
    destruct (Js.get o "thread_id"); reflexivity.
Qed.

Lemma truthy_length (s : string) : Js.truthy s = (0 <? Js.length s).
Proof. destruct s; reflexivity. Qed.

Lemma usableId_field (o : Js.Value) :
  usableId (rawThreadId o)
  = if Js.truthy (threadIdField o) then Some (threadIdField o) else None.
Proof.
  rewrite threadIdField_raw. unfold usableId, Js.truthy.
  destruct (rawThreadId o) as [id|]; simpl; [|reflexivity].
  destruct (String.eqb (Js.trim id) ""); reflexivity.
Qed.

(** C10: for turn/started, turn/completed and error, [extractThreadId]
    reads the id nested in [params.turn] first ([threadId], else
    [thread_id]) and falls back to the top-level id when the nested one is
    missing or blank after trimming; for every method, an id that is missing
    or blank in both places gives [null]. *)
Theorem extractThreadId_fallback (method : string)
  (params : list (string * Js.Value)) :
  extractThreadId method params = specExtractThreadId method params
  /\ (usableId (rawThreadId (turnOf params)) = None ->
      usableId (rawThreadId (Js.JObject params)) = None ->
      extractThreadId method params = None).
Proof.
  assert (extractThreadId method params = specExtractThreadId method params) as H.
  { unfold extractThreadId, specExtractThreadId, directThreadId.
    rewrite isTurnScopedMethod_spec, !usableId_field, <- truthy_length.
    replace (Js.coalesce (Js.get (Js.JObject params) "turn") (Js.JObject []))
      with (turnOf params)
      by (unfold turnOf; simpl; now destruct (Js.lookupField params "turn")).
    case_bool_decide; [|reflexivity].
    destruct (Js.truthy (threadIdField (turnOf params))); reflexivity. }
  split; [exact H|].
  intros Hturn Hdirect. rewrite H. unfold specExtractThreadId.
  case_bool_decide; rewrite ?Hturn, Hdirect; reflexivity.
Qed.

Lemma extractThreadId_fallback_witness :
  extractThreadId "turn/started"
    [("turn", Js.JObject [("threadId", Js.JString "  ")]);
     ("thread_id", Js.JNull)] = None.
Proof.
  apply (extractThreadId_fallback "turn/started"
           [("turn", Js.JObject [("threadId", Js.JString "  ")]);
            ("thread_id", Js.JNull)]); reflexivity.
Defined.

(** ** The stretches of an attempt *)

Section BodySteps.

Variable env : Env.
Variable pid : nat.
Variable a : Attempt.

Lemma subscribesIn_nil : subscribesIn pid [] = 0%nat.
Proof. reflexivity. Qed.

Lemma subscribesIn_app (l1 l2 : list LoggedCall) :
  subscribesIn pid (l1 ++ l2) = (subscribesIn pid l1 + subscribesIn pid l2)%nat.
Proof. unfold subscribesIn. now rewrite List.filter_app, List.length_app. Qed.

(** No call is logged. *)
Lemma bodyStep_silent (old next : Suspension) (s s' : State) :
  reconnectSequence s' = reconnectSequence s ->
  inFlightReconnect s' = inFlightReconnect s ->
  attempts s' = attempts s ->
  ignoreDetachedEventsUntil s' = ignoreDetachedEventsUntil s ->
  calls s' = calls s ->
  (forall n, subscribeCount old n -> subscribeCount next n) ->
  BodyStep pid a old s (s', next).
Proof.
  intros Hseq Hfl Hat Hig Hcalls Hcount. constructor; simpl; try assumption.
  - now rewrite Hig.
  - exists []. rewrite app_nil_r. repeat split; [assumption | constructor |].
    intros n Hn. rewrite subscribesIn_nil, Nat.add_0_r. now apply Hcount.
Qed.

(** One call is logged. *)
Lemma bodyStep_call (old next : Suspension) (c : Call) (s s' : State) :
  reconnectSequence s' = reconnectSequence s ->
  inFlightReconnect s' = inFlightReconnect s ->
  attempts s' = attempts s ->
  ((forall k v, ignoreDetachedEventsUntil s !! k = Some v -> (0 < v)%N) ->
   forall k v, ignoreDetachedEventsUntil s' !! k = Some v -> (0 < v)%N) ->
  calls s' = (calls s ++ [(Some pid, c)])%list ->
  callOf a c ->
  (forall n, subscribeCount old n ->
     subscribeCount next (n + subscribesIn pid [(Some pid, c)])) ->
  BodyStep pid a old s (s', next).
Proof.
  intros Hseq Hfl Hat Hig Hcalls Hof Hcount. constructor; simpl; try assumption.
  exists [(Some pid, c)]. repeat split; [assumption | | assumption].
  constructor; [split; [reflexivity | assumption] | constructor].
Qed.

Lemma subscribesIn_subscribe (w t : string) :
  subscribesIn pid [(Some pid, ThreadLiveSubscribe w t)] = 1%nat.
Proof. unfold subscribesIn. simpl. now rewrite bool_decide_eq_true_2. Qed.

Lemma subscribeCount_before (old : Suspension) (n : nat) :
  beforeSubscribe old -> subscribeCount old n -> n = 0%nat.
Proof. intros [-> | [-> | ->]]; simpl; auto. Qed.

Lemma bodyStep_callSubscribe (old : Suspension) (s : State) :
  beforeSubscribe old ->
  BodyStep pid a old s (callSubscribe pid a s).
Proof.
  intros Hold. unfold callSubscribe.
  apply bodyStep_call with (c := ThreadLiveSubscribe (at_workspaceId a) (at_threadId a));
    try reflexivity; [auto | split; reflexivity |].
  intros n Hn. rewrite (subscribeCount_before old n Hold Hn), subscribesIn_subscribe.
  reflexivity.
Qed.

Lemma subscribeCount_settled_false (old : Suspension) (n : nat) :
  subscribeCount old n -> subscribeCount (Settled false) n.
Proof. destruct old as [| | | | |[|]]; simpl; lia. Qed.

Lemma bodyStep_afterRefresh (old : Suspension) (s : State) :
  beforeSubscribe old ->
  BodyStep pid a old s (afterRefresh env pid a s).
Proof.
  intros Hold. unfold afterRefresh.
  destruct (negb _).
  - apply bodyStep_silent; try reflexivity. apply subscribeCount_settled_false.
  - case_bool_decide.
    + apply bodyStep_call
        with (c := ThreadLiveUnsubscribe (at_workspaceId a) (at_threadId a));
        try reflexivity; [| split; reflexivity |].
      * simpl. intros Hpos k v. rewrite lookup_insert. case_decide.
        -- intros [= <-]. unfold SELF_DETACH_IGNORE_WINDOW_MS. lia.
        -- apply Hpos.
      * intros n Hn. rewrite (subscribeCount_before old n Hold Hn). reflexivity.
    + now apply bodyStep_callSubscribe.
Qed.

Lemma bodyStep_afterSessionReconnect (old : Suspension) (s : State) :
  beforeSubscribe old ->
  BodyStep pid a old s (afterSessionReconnect env pid a s).
Proof.
  intros Hold. unfold afterSessionReconnect.
  destruct (negb _).
  - apply bodyStep_silent; try reflexivity. apply subscribeCount_settled_false.
  - destruct (negb _).
    + apply bodyStep_call
        with (c := RefreshThread (at_workspaceId a) (at_threadId a));
        try reflexivity; [auto | split; reflexivity |].
      intros n Hn. rewrite (subscribeCount_before old n Hold Hn). reflexivity.
    + now apply bodyStep_afterRefresh.
Qed.

Lemma bodyStep_afterDedupeUnsubscribe (old : Suspension) (s : State) :
  beforeSubscribe old ->
  BodyStep pid a old s (afterDedupeUnsubscribe pid a s).
Proof.
  intros Hold. unfold afterDedupeUnsubscribe.
  destruct (bodyStep_callSubscribe old (setActiveSubscriptionKey None s) Hold)
    as [H1 H2 H3 H4 H5].
  constructor; assumption.
Qed.

Lemma bodyStep_afterSubscribe (s : State) :
  BodyStep pid a AwaitSubscribe s (afterSubscribe pid a s).
Proof.
  unfold afterSubscribe.
  destruct (negb _); [destruct (negb _)|].
  - apply bodyStep_call
      with (c := ThreadLiveUnsubscribe (at_workspaceId a) (at_threadId a));
      try reflexivity; [auto | split; reflexivity |].
    simpl. intros n ->. reflexivity.
  - apply bodyStep_silent; try reflexivity. simpl. lia.
  - apply bodyStep_silent; autorewrite with coord; try reflexivity. auto.
Qed.

Lemma bodyStep_afterStaleUnsubscribe (s : State) :
  BodyStep pid a AwaitStaleUnsubscribe s (afterStaleUnsubscribe s).
Proof.
  unfold afterStaleUnsubscribe. apply bodyStep_silent; try reflexivity.
  simpl. lia.
Qed.

Lemma bodyStep_onRejected (old : Suspension) (s : State) :
  BodyStep pid a old s (onRejected a s).
Proof.
  unfold onRejected. case_bool_decide;
    (apply bodyStep_silent; autorewrite with coord; try reflexivity;
     apply subscribeCount_settled_false).
Qed.

Lemma bodyStep_attemptStart (s : State) :
  BodyStep pid a AwaitReconnectWorkspace s (attemptStart env pid a s).
Proof.
  assert (beforeSubscribe AwaitReconnectWorkspace) as Hold by (left; reflexivity).
  pose proof (bodyStep_afterSessionReconnect AwaitReconnectWorkspace
                (setDesiredSubscriptionKey (Some (at_targetKey a)) s) Hold)
    as [H1 H2 H3 H4 H5].
  unfold attemptStart. simpl activeWorkspace.
  destruct (activeWorkspace s) as [w|]; [|constructor; assumption].
  destruct (negb (ws_connected w) && _ && _) eqn:Hcond;
    [|constructor; assumption].
  apply bodyStep_call with (c := ReconnectWorkspace w); try reflexivity.
  - simpl. auto.
  - simpl. apply andb_true_iff in Hcond as [_ Hid].
    now apply bool_decide_eq_true in Hid.
  - simpl. intros n ->. reflexivity.
Qed.

End BodySteps.

(** ** The invariant holds in every reachable state *)

Lemma subscribesIn_other (pid p : nat) (a : Attempt) (extra : list LoggedCall) :
  Forall (issuedBy pid a) extra -> p <> pid -> subscribesIn p extra = 0%nat.
Proof.
  intros Hall Hne. unfold subscribesIn.
  induction Hall as [|[i c] l [Hi _] _ IH]; [reflexivity|].
  simpl in Hi. subst i. simpl.
  destruct c; try exact IH.
  rewrite bool_decide_eq_false_2; [exact IH | congruence].
Qed.

Lemma subscribesIn_fresh (l : list Attempt) (cs : list LoggedCall) :
  Forall (ownedCall l) cs -> subscribesIn (List.length l) cs = 0%nat.
Proof.
  intros Hall. unfold subscribesIn.
  induction Hall as [|[i c] cs Hown _ IH]; [reflexivity|].
  simpl. destruct i as [p|]; [|exact IH].
  destruct c; try exact IH.
  rewrite bool_decide_eq_false_2; [exact IH|].
  destruct Hown as (x & Hx & _). simpl in Hx.
  apply lookup_lt_Some in Hx. lia.
Qed.

Lemma subscribesIn_handler (p : nat) (extra : list LoggedCall) :
  Forall (fun c => fst c = None) extra -> subscribesIn p extra = 0%nat.
Proof.
  intros Hall. unfold subscribesIn.
  induction Hall as [|[i c] l Hi _ IH]; [reflexivity|].
  simpl in Hi. subst i. exact IH.
Qed.

Lemma callOf_withSuspension (a : Attempt) (next : Suspension) (c : Call) :
  callOf (withSuspension a next) c <-> callOf a c.
Proof. destruct c; reflexivity. Qed.

Lemma ownedCall_insert (l : list Attempt) (pid : nat) (a : Attempt)
  (next : Suspension) (c : LoggedCall) :
  l !! pid = Some a -> ownedCall l c ->
  ownedCall (<[pid := withSuspension a next]> l) c.
Proof.
  intros Ha. unfold ownedCall. destruct (fst c) as [p|]; [|trivial].
  intros (x & Hx & Hof). destruct (decide (p = pid)) as [->|Hne].
  - exists (withSuspension a next). split.
    + apply list_lookup_insert_eq. now apply lookup_lt_Some in Ha.
    + apply callOf_withSuspension. congruence.
  - exists x. split; [|assumption]. now rewrite list_lookup_insert_ne.
Qed.

Lemma ownedCall_app (l : list Attempt) (a : Attempt) (c : LoggedCall) :
  ownedCall l c -> ownedCall (l ++ [a]) c.
Proof.
  unfold ownedCall. destruct (fst c) as [p|]; [|trivial].
  intros (x & Hx & Hof). exists x. split; [|assumption].
  now apply lookup_app_l_Some.
Qed.

(** A handler that leaves the attempts alone, logs calls of its own only,
    and either keeps the sequence and the in-flight record or advances the
    sequence. *)
Lemma Inv_handler (s s' : State) :
  Inv s ->
  attempts s' = attempts s ->
  (reconnectSequence s' = reconnectSequence s
   /\ inFlightReconnect s' = inFlightReconnect s
   \/ reconnectSequence s < reconnectSequence s') ->
  (forall k v, ignoreDetachedEventsUntil s' !! k = Some v -> (0 < v)%N) ->
  (exists extra, calls s' = (calls s ++ extra)%list
                 /\ Forall (fun c => fst c = None) extra) ->
  Inv s'.
Proof.
  intros [Hseq Hcur Hkey Hig Hown Hsub] Hat Hmove Hig' (extra & Hcalls & Hextra).
  constructor.
  - intros p a. rewrite Hat. intros Ha. specialize (Hseq p a Ha).
    destruct Hmove as [[-> _]|Hlt]; lia.
  - intros p a. rewrite Hat. intros Ha Hp Hs.
    destruct Hmove as [[Hs' ->]|Hlt].
    + apply (Hcur p a Ha Hp). congruence.
    + specialize (Hseq p a Ha). lia.
  - intros p a. rewrite Hat. apply Hkey.
  - exact Hig'.
  - rewrite Hat, Hcalls. apply Forall_app. split; [assumption|].
    eapply Forall_impl; [exact Hextra|].
    intros [i c] Hi. simpl in Hi. subst i. exact I.
  - intros p a. rewrite Hat. intros Ha. unfold subscribesBy.
    rewrite Hcalls, subscribesIn_app, (subscribesIn_handler p extra Hextra), Nat.add_0_r.
    apply (Hsub p a Ha).
Qed.

Lemma Inv_initialState (p : Props) : Inv (initialState p).
Proof.
  constructor; simpl; try (intros q a Hq; now rewrite lookup_nil in Hq).
  - intros k v Hk. now rewrite lookup_empty in Hk.
  - constructor.
Qed.

Lemma Inv_park (pid : nat) (a : Attempt) (s : State) (r : State * Suspension) :
  Inv s -> attempts s !! pid = Some a -> isPending a = true ->
  BodyStep pid a (at_suspension a) s r ->
  Inv (park pid a r).
Proof.
  intros [Hseq Hcur Hkey Hig Hown Hsub] Ha Hpend
         [Bseq Bfl Bat Big (extra & Bcalls & Bextra & Bcount)].
  set (a' := withSuspension a (snd r)).
  assert (pid < List.length (attempts s))%nat as Hlt by now apply lookup_lt_Some in Ha.
  assert (attempts (park pid a r) = <[pid := a']> (attempts s)) as Hat.
  { unfold park. destruct (snd r); autorewrite with coord; simpl; now rewrite Bat. }
  assert (reconnectSequence (park pid a r) = reconnectSequence s) as Hsq.
  { unfold park. destruct (snd r); autorewrite with coord; simpl; exact Bseq. }
  assert (calls (park pid a r) = (calls s ++ extra)%list) as Hcl.
  { unfold park. destruct (snd r); autorewrite with coord; simpl; exact Bcalls. }
  assert (ignoreDetachedEventsUntil (park pid a r)
          = ignoreDetachedEventsUntil (fst r)) as Hign.
  { unfold park. destruct (snd r); autorewrite with coord; reflexivity. }
  assert (forall q x, <[pid := a']> (attempts s) !! q = Some x ->
            q = pid /\ x = a' \/ q <> pid /\ attempts s !! q = Some x) as Hlook.
  { intros q x. destruct (decide (q = pid)) as [->|Hne].
    - rewrite list_lookup_insert_eq by assumption. intros [= <-]. now left.
    - rewrite list_lookup_insert_ne by congruence. now right. }
  constructor.
  - intros q x. rewrite Hat, Hsq. intros Hq.
    destruct (Hlook q x Hq) as [[-> ->]|[_ Hold]]; [apply (Hseq pid a Ha)|].
    apply (Hseq q x Hold).
  - intros q x. rewrite Hat, Hsq. intros Hq Hp Hs.
    destruct (Hlook q x Hq) as [[-> ->]|[Hne Hold]].
    + unfold park. unfold isPending in Hp. simpl in Hp.
      destruct (snd r); try discriminate; simpl; rewrite Bfl;
        apply (Hcur pid a Ha Hpend Hs).
    + pose proof (Hcur q x Hold Hp Hs) as Hfl.
      unfold park. destruct (snd r); simpl; try (rewrite Bfl; exact Hfl).
      unfold finallyClear. simpl. rewrite Bfl, Hfl. simpl.
      rewrite bool_decide_eq_false_2 by assumption. simpl. now rewrite Bfl.
  - intros q x. rewrite Hat. intros Hq.
    destruct (Hlook q x Hq) as [[-> ->]|[_ Hold]]; [apply (Hkey pid a Ha)|].
    apply (Hkey q x Hold).
  - rewrite Hign. apply Big. exact Hig.
  - rewrite Hat, Hcl. apply Forall_app. split.
    + eapply Forall_impl; [exact Hown|]. intros c. now apply ownedCall_insert.
    + eapply Forall_impl; [exact Bextra|]. intros [i c] [Hi Hof]. simpl in Hi.
      subst i. unfold ownedCall. simpl. exists a'. split.
      * now apply list_lookup_insert_eq.
      * now apply callOf_withSuspension.
  - intros q x. rewrite Hat. intros Hq. unfold subscribesBy.
    rewrite Hcl, subscribesIn_app.
    destruct (Hlook q x Hq) as [[-> ->]|[Hne Hold]].
    + simpl. apply Bcount. apply (Hsub pid a Ha).
    + rewrite (subscribesIn_other pid q a extra Bextra Hne), Nat.add_0_r.
      apply (Hsub q x Hold).
Qed.

Lemma Inv_resume (env : Env) (pid : nat) (o : Outcome) (s : State) :
  Inv s -> Inv (resume env pid o s).
Proof.
  intros HI. unfold resume.
  destruct (attempts s !! pid) as [a|] eqn:Ha; [|assumption].
  destruct (at_suspension a) eqn:Hsusp; destruct o; try assumption;
    apply (Inv_park pid a s); try assumption; try (unfold isPending; now rewrite Hsusp);
    rewrite Hsusp;
    first [ apply bodyStep_onRejected
          | apply bodyStep_afterSubscribe
          | apply bodyStep_afterStaleUnsubscribe
          | apply bodyStep_afterSessionReconnect
          | apply bodyStep_afterRefresh
          | apply bodyStep_afterDedupeUnsubscribe ];
    unfold beforeSubscribe; auto.
Qed.

(** A new attempt: the sequence advances, so the in-flight record found at
    the start does not matter. *)
Lemma Inv_startAttempt (env : Env) (w t key : string)
  (options : option ReconnectOptions) (s0 s : State) :
  Inv s0 ->
  attempts s = attempts s0 ->
  reconnectSequence s = reconnectSequence s0 ->
  ignoreDetachedEventsUntil s = ignoreDetachedEventsUntil s0 ->
  calls s = calls s0 ->
  key = keyForThread w t ->
  Inv (fst (startAttempt env w t key options s)).
Proof.
  intros [Hseq Hcur Hkey Hig Hown Hsub] Hat Hsq Hign Hcl ->.
  unfold startAttempt.
  set (pid := List.length (attempts s)).
  set (sequence := reconnectSequence s + 1).
  set (s2 := setState _ _).
  set (a0 := mkAttempt w t (keyForThread w t) options sequence AwaitSubscribe).
  destruct (bodyStep_attemptStart env pid a0 s2)
    as [Bseq Bfl Bat Big (extra & Bcalls & Bextra & Bcount)].
  set (r := attemptStart env pid a0 s2) in *.
  set (a' := mkAttempt w t (keyForThread w t) options sequence (snd r)).
  assert (attempts s2 = attempts s) as Hat2
    by (unfold s2; autorewrite with coord; reflexivity).
  assert (reconnectSequence s2 = sequence) as Hsq2
    by (unfold s2; autorewrite with coord; reflexivity).
  assert (calls s2 = calls s) as Hcl2
    by (unfold s2; autorewrite with coord; reflexivity).
  assert (ignoreDetachedEventsUntil s2 = ignoreDetachedEventsUntil s) as Hign2
    by (unfold s2; autorewrite with coord; reflexivity).
  match goal with |- Inv (fst (?x, _)) => set (final := x) end. simpl fst.
  assert (attempts final = (attempts s0 ++ [a'])%list) as HatF.
  { unfold final. destruct (snd r) eqn:Hr; autorewrite with coord; simpl;
      rewrite Bat, Hat2, Hat; unfold a'; rewrite ?Hr; reflexivity. }
  assert (reconnectSequence final = sequence) as HsqF.
  { unfold final. destruct (snd r); autorewrite with coord; simpl;
      now rewrite Bseq. }
  assert (calls final = (calls s0 ++ extra)%list) as HclF.
  { unfold final. destruct (snd r); autorewrite with coord; simpl;
      now rewrite Bcalls, Hcl2, Hcl. }
  assert (ignoreDetachedEventsUntil final = ignoreDetachedEventsUntil (fst r))
    as HignF.
  { unfold final. destruct (snd r); autorewrite with coord; reflexivity. }
  assert (pid = List.length (attempts s0)) as Hpid by (unfold pid; now rewrite Hat).
  assert (forall q x, (attempts s0 ++ [a'])%list !! q = Some x ->
            q = pid /\ x = a' \/ q <> pid /\ attempts s0 !! q = Some x) as Hlook.
  { intros q x Hq. apply lookup_app_Some in Hq as [Hq|[Hge Hq]].
    - right. split; [|assumption]. apply lookup_lt_Some in Hq. lia.
    - left. apply list_lookup_singleton_Some in Hq as [Hz <-].
      split; [lia | reflexivity]. }
  constructor.
  - intros q x. rewrite HatF, HsqF. intros Hq.
    destruct (Hlook q x Hq) as [[-> ->]|[_ Hold]]; [simpl; lia|].
    specialize (Hseq q x Hold). unfold sequence. lia.
  - intros q x. rewrite HatF, HsqF. intros Hq Hp Hs.
    destruct (Hlook q x Hq) as [[-> ->]|[_ Hold]].
    + unfold final. unfold isPending in Hp. simpl in Hp.
      destruct (snd r) eqn:Hr; try discriminate; simpl; rewrite Bseq, Hsq2;
        unfold a'; rewrite ?Hr; reflexivity.
    + specialize (Hseq q x Hold). unfold sequence in Hs. lia.
  - intros q x. rewrite HatF. intros Hq.
    destruct (Hlook q x Hq) as [[-> ->]|[_ Hold]]; [reflexivity|].
    apply (Hkey q x Hold).
  - rewrite HignF. apply Big. rewrite Hign2, Hign. exact Hig.
  - rewrite HatF, HclF. apply Forall_app. split.
    + eapply Forall_impl; [exact Hown|]. intros c. apply ownedCall_app.
    + eapply Forall_impl; [exact Bextra|]. intros [i c] [Hi Hof]. simpl in Hi.
      subst i. unfold ownedCall. simpl. exists a'. split.
      * rewrite Hpid. apply list_lookup_middle. reflexivity.
      * destruct c; exact Hof.
  - intros q x. rewrite HatF. intros Hq. unfold subscribesBy.
    rewrite HclF, subscribesIn_app.
    destruct (Hlook q x Hq) as [[-> ->]|[Hne Hold]].
    + rewrite Hpid, (subscribesIn_fresh _ _ Hown), <- Hpid.
      apply (Bcount 0%nat). reflexivity.
    + rewrite (subscribesIn_other pid q a0 extra Bextra Hne), Nat.add_0_r.
      apply (Hsub q x Hold).
Qed.

Lemma Inv_same (s s' : State) :
  Inv s ->
  attempts s' = attempts s ->
  reconnectSequence s' = reconnectSequence s ->
  inFlightReconnect s' = inFlightReconnect s ->
  ignoreDetachedEventsUntil s' = ignoreDetachedEventsUntil s ->
  calls s' = calls s ->
  Inv s'.
Proof.
  intros HI Hat Hsq Hfl Hig Hcl.
  apply (Inv_handler s s' HI Hat); [now left | rewrite Hig; apply HI|].
  exists []. rewrite app_nil_r. split; [assumption | constructor].
Qed.

Lemma Inv_setState (next : RemoteThreadConnectionState) (s : State) :
  Inv s -> Inv (setState next s).
Proof. intros HI. apply (Inv_same s); autorewrite with coord; auto. Qed.

Lemma Inv_reconcileDisconnectedState (s : State) :
  Inv s -> Inv (reconcileDisconnectedState s).
Proof. intros HI. apply (Inv_same s); autorewrite with coord; auto. Qed.

Lemma Inv_setDesiredSubscriptionKey (k : option string) (s : State) :
  Inv s -> Inv (setDesiredSubscriptionKey k s).
Proof. intros HI. now apply (Inv_same s). Qed.

Lemma Inv_setActiveSubscriptionKey (k : option string) (s : State) :
  Inv s -> Inv (setActiveSubscriptionKey k s).
Proof. intros HI. now apply (Inv_same s). Qed.

Lemma Inv_setProps (p : Props) (s : State) : Inv s -> Inv (setProps p s).
Proof. intros HI. now apply (Inv_same s). Qed.

Lemma Inv_unsubscribeByKey (key : string) (s : State) :
  Inv s -> Inv (unsubscribeByKey key s).
Proof.
  intros HI. apply (Inv_handler s); autorewrite with coord; auto; [apply HI|].
  unfold unsubscribeByKey. destruct (splitKey key) as [parsed|].
  - eexists. split; [reflexivity|]. repeat constructor.
  - exists []. rewrite app_nil_r. split; [reflexivity | constructor].
Qed.

Lemma Inv_forget (key : string) (s : State) :
  Inv s ->
  Inv (setIgnoreDetachedEventsUntil (delete key (ignoreDetachedEventsUntil s)) s).
Proof.
  intros HI. apply (Inv_handler s); auto.
  - simpl. intros k v Hk. apply lookup_delete_Some in Hk as [_ Hk].
    now apply (inv_ignore s HI k v).
  - exists []. rewrite app_nil_r. split; [reflexivity | constructor].
Qed.

Lemma Inv_forget_all (s : State) :
  Inv s -> Inv (setIgnoreDetachedEventsUntil ∅ s).
Proof.
  intros HI. apply (Inv_handler s); auto.
  - simpl. intros k v Hk. now rewrite lookup_empty in Hk.
  - exists []. rewrite app_nil_r. split; [reflexivity | constructor].
Qed.

Lemma Inv_advance (s : State) :
  Inv s -> Inv (setReconnectSequence (reconnectSequence s + 1) s).
Proof.
  intros HI. apply (Inv_handler s); auto.
  - right. simpl. lia.
  - apply HI.
  - exists []. rewrite app_nil_r. split; [reflexivity | constructor].
Qed.

Lemma Inv_reconnectLive (env : Env) (w t : string)
  (options : option ReconnectOptions) (s : State) :
  Inv s -> Inv (fst (reconnectLive env w t options s)).
Proof.
  intros HI. unfold reconnectLive.
  destruct (_ || _ || _ || _); [now apply Inv_reconcileDisconnectedState|].
  simpl inFlightReconnect.
  destruct (inFlightReconnect s) as [f|];
    [case_bool_decide; [case_bool_decide|]|];
    try (now apply (Inv_startAttempt env w t _ options s)).
  now apply Inv_setDesiredSubscriptionKey.
Qed.

Create HintDb coordinv.

#[global] Hint Resolve Inv_setState Inv_reconcileDisconnectedState
  Inv_setDesiredSubscriptionKey Inv_setActiveSubscriptionKey Inv_setProps
  Inv_unsubscribeByKey Inv_forget Inv_forget_all Inv_advance
  Inv_reconnectLive Inv_resume : coordinv.

Lemma Inv_selectionEffect (env : Env) (s : State) :
  Inv s -> Inv (selectionEffect env s).
Proof.
  intros HI. unfold selectionEffect. repeat case_match; auto 10 with coordinv.
Qed.

Lemma Inv_onLiveDetached (env : Env) (w t : string) (s : State) :
  Inv s -> Inv (onLiveDetached env w t s).
Proof.
  intros HI. unfold onLiveDetached. repeat case_match; auto 10 with coordinv.
Qed.

Lemma Inv_onAppServerEvent (env : Env) (event : AppServerEvent) (s : State) :
  Inv s -> Inv (onAppServerEvent env event s).
Proof.
  intros HI. unfold onAppServerEvent.
  repeat case_match; auto 10 using Inv_onLiveDetached with coordinv.
Qed.

Lemma Inv_reconnectActiveThread (env : Env) (s : State) :
  Inv s -> Inv (reconnectActiveThread env s).
Proof.
  intros HI. unfold reconnectActiveThread. repeat case_match; auto with coordinv.
Qed.

Lemma Inv_handleBlur (s : State) : Inv s -> Inv (handleBlur s).
Proof.
  intros HI. unfold handleBlur. repeat case_match; auto 10 with coordinv.
Qed.

Lemma Inv_teardown (s : State) : Inv s -> Inv (teardown s).
Proof.
  intros HI. unfold teardown. repeat case_match; auto 10 with coordinv.
Qed.

Lemma Inv_step (env : Env) (op : Operation) (s : State) :
  Inv s -> Inv (step env op s).
Proof.
  intros HI. destruct op; simpl;
    unfold handleFocus, handleVisibilityChange;
    repeat case_match;
    auto using Inv_selectionEffect, Inv_onAppServerEvent,
      Inv_reconnectActiveThread, Inv_handleBlur, Inv_teardown with coordinv.
Qed.

Lemma reachable_Inv (s : State) : reachable s -> Inv s.
Proof.
  induction 1 as [p|env op s _ IH]; [apply Inv_initialState | now apply Inv_step].
Qed.

Lemma reachable_run (ops : list (Env * Operation)) (s : State) :
  reachable s -> reachable (run ops s).
Proof.
  revert s. induction ops as [|[env op] ops IH]; intros s Hs; [assumption|].
  simpl. apply IH. now constructor.
Qed.

(** ** The sequence counter *)

Lemma reconnectSequence_park (pid : nat) (a : Attempt) (r : State * Suspension) :
  reconnectSequence (park pid a r) = reconnectSequence (fst r).
Proof. unfold park. destruct (snd r); autorewrite with coord; reflexivity. Qed.

Lemma reconnectSequence_resume (env : Env) (pid : nat) (o : Outcome) (s : State) :
  reconnectSequence (resume env pid o s) = reconnectSequence s.
Proof.
  assert (beforeSubscribe AwaitReconnectWorkspace) as Hb by (left; reflexivity).
  unfold resume. destruct (attempts s !! pid) as [a|]; [|reflexivity].
  destruct (at_suspension a), o; try reflexivity;
    rewrite reconnectSequence_park;
    first [ apply (bs_sequence _ _ _ _ _ (bodyStep_onRejected pid a AwaitSubscribe s))
          | apply (bs_sequence _ _ _ _ _ (bodyStep_afterSubscribe pid a s))
          | apply (bs_sequence _ _ _ _ _ (bodyStep_afterStaleUnsubscribe pid a s))
          | apply (bs_sequence _ _ _ _ _ (bodyStep_afterSessionReconnect env pid a _ s Hb))
          | apply (bs_sequence _ _ _ _ _ (bodyStep_afterRefresh env pid a _ s Hb))
          | apply (bs_sequence _ _ _ _ _ (bodyStep_afterDedupeUnsubscribe pid a _ s Hb)) ].
Qed.

Lemma reconnectSequence_startAttempt (env : Env) (w t key : string)
  (options : option ReconnectOptions) (s : State) :
  reconnectSequence (fst (startAttempt env w t key options s))
  = reconnectSequence s + 1.
Proof.
  unfold startAttempt. simpl fst.
  match goal with |- context [attemptStart ?e ?p ?a ?s2] =>
    pose proof (bs_sequence _ _ _ _ _ (bodyStep_attemptStart e p a s2)) as Hseq;
    destruct (snd (attemptStart e p a s2)) end;
    autorewrite with coord; simpl; rewrite Hseq; autorewrite with coord;
    reflexivity.
Qed.

Lemma reconnectSequence_reconnectLive (env : Env) (w t : string)
  (options : option ReconnectOptions) (s : State) :
  reconnectSequence (fst (reconnectLive env w t options s)) = reconnectSequence s
  \/ reconnectSequence (fst (reconnectLive env w t options s))
     = reconnectSequence s + 1.
Proof.
  unfold reconnectLive.
  destruct (_ || _ || _ || _); [left; simpl; now autorewrite with coord|].
  simpl inFlightReconnect.
  destruct (inFlightReconnect s) as [f|];
    [case_bool_decide; [case_bool_decide|]|];
    try (right; now rewrite reconnectSequence_startAttempt).
  now left.
Qed.

(** The sequence after the call is the sequence before it, or one more. *)
Ltac sequence_of_reconnectLive :=
  match goal with
  | |- context [reconnectLive ?e ?w ?t ?o ?s] =>
      destruct (reconnectSequence_reconnectLive e w t o s) as [-> | ->]
  end.

Lemma reconnectSequence_selectionEffect (env : Env) (s : State) :
  reconnectSequence (selectionEffect env s) = reconnectSequence s
  \/ reconnectSequence (selectionEffect env s) = reconnectSequence s + 1.
Proof.
  unfold selectionEffect. repeat case_match; try sequence_of_reconnectLive;
    autorewrite with coord; simpl; autorewrite with coord; auto.
Qed.

Lemma reconnectSequence_onAppServerEvent (env : Env) (event : AppServerEvent)
  (s : State) :
  reconnectSequence (onAppServerEvent env event s) = reconnectSequence s
  \/ reconnectSequence (onAppServerEvent env event s) = reconnectSequence s + 1.
Proof.
  unfold onAppServerEvent, onLiveDetached.
  repeat case_match; try sequence_of_reconnectLive;
    autorewrite with coord; simpl; autorewrite with coord; auto.
Qed.

Lemma reconnectSequence_reconnectActiveThread (env : Env) (s : State) :
  reconnectSequence (reconnectActiveThread env s) = reconnectSequence s
  \/ reconnectSequence (reconnectActiveThread env s) = reconnectSequence s + 1.
Proof.
  unfold reconnectActiveThread.
  repeat case_match; try sequence_of_reconnectLive; auto.
Qed.

Lemma reconnectSequence_handleBlur (s : State) :
  reconnectSequence (handleBlur s) = reconnectSequence s + 1.
Proof.
  unfold handleBlur. repeat case_match; autorewrite with coord; reflexivity.
Qed.

Lemma reconnectSequence_teardown (s : State) :
  reconnectSequence (teardown s) = reconnectSequence s.
Proof.
  unfold teardown. repeat case_match; autorewrite with coord; reflexivity.
Qed.

Lemma reconnectSequence_step (env : Env) (op : Operation) (s : State) :
  reconnectSequence (step env op s) = reconnectSequence s
  \/ reconnectSequence (step env op s) = reconnectSequence s + 1.
Proof.
  destruct op; simpl; unfold handleFocus, handleVisibilityChange.
  - apply reconnectSequence_selectionEffect.
  - case_match; [apply (reconnectSequence_selectionEffect env (setProps p s))|].
    now left.
  - apply reconnectSequence_reconnectLive.
  - apply reconnectSequence_onAppServerEvent.
  - case_match; [now left | apply reconnectSequence_reconnectActiveThread].
  - right. apply reconnectSequence_handleBlur.
  - case_match; [apply reconnectSequence_reconnectActiveThread|].
    right. apply reconnectSequence_handleBlur.
  - left. apply reconnectSequence_resume.
  - left. apply reconnectSequence_teardown.
Qed.

Lemma reconnectSequence_run (ops : list (Env * Operation)) (s : State) :
  reconnectSequence s <= reconnectSequence (run ops s).
Proof.
  revert s. induction ops as [|[env op] ops IH]; intros s; simpl; [lia|].
  specialize (IH (step env op s)).
  destruct (reconnectSequence_step env op s) as [H|H]; lia.
Qed.

(** C8: no operation of a coordinator instance (a reconnect attempt, blur
    or hide, an event, a selection change, a settled call, the teardown)
    lowers the sequence counter: each leaves it as it is or adds one to it,
    so over any run it never goes down, and it is never below its first
    value 0. *)
Theorem reconnectSequence_never_decreases (env : Env) (op : Operation)
  (ops : list (Env * Operation)) (p : Props) (s : State) :
  (reconnectSequence (step env op s) = reconnectSequence s
   \/ reconnectSequence (step env op s) = reconnectSequence s + 1)
  /\ reconnectSequence s <= reconnectSequence (run ops s)
  /\ 0 <= reconnectSequence (run ops (initialState p)).
Proof.
  split; [apply reconnectSequence_step|].
  split; [apply reconnectSequence_run|].
  apply (reconnectSequence_run ops (initialState p)).
Qed.

(** ** Attempts are never dropped nor rewritten *)

Lemma withSuspension_same (a : Attempt) : withSuspension a (at_suspension a) = a.
Proof. now destruct a. Qed.

Lemma attemptsKept_refl (l : list Attempt) : attemptsKept l l.
Proof. intros p a Ha. exists (at_suspension a). now rewrite withSuspension_same. Qed.

Lemma attemptsKept_trans (l1 l2 l3 : list Attempt) :
  attemptsKept l1 l2 -> attemptsKept l2 l3 -> attemptsKept l1 l3.
Proof.
  intros H12 H23 p a Ha. destruct (H12 p a Ha) as (x & Hx).
  destruct (H23 p _ Hx) as (y & Hy). exists y. exact Hy.
Qed.

Lemma attemptsKept_app (l : list Attempt) (a : Attempt) : attemptsKept l (l ++ [a]).
Proof.
  intros p x Hx. exists (at_suspension x). rewrite withSuspension_same.
  now apply lookup_app_l_Some.
Qed.

Lemma attemptsKept_insert (l : list Attempt) (pid : nat) (a : Attempt)
  (next : Suspension) :
  l !! pid = Some a -> attemptsKept l (<[pid := withSuspension a next]> l).
Proof.
  intros Ha p x Hx. destruct (decide (p = pid)) as [->|Hne].
  - exists next. rewrite list_lookup_insert_eq by now apply lookup_lt_Some in Ha.
    congruence.
  - exists (at_suspension x). rewrite withSuspension_same.
    now rewrite list_lookup_insert_ne.
Qed.

Lemma attempts_park (pid : nat) (a : Attempt) (r : State * Suspension) :
  attempts (park pid a r) = <[pid := withSuspension a (snd r)]> (attempts (fst r)).
Proof. unfold park. destruct (snd r); autorewrite with coord; reflexivity. Qed.

(** What [resume] does to the attempt it runs. *)
Lemma resume_unfold (env : Env) (pid : nat) (o : Outcome) (s : State) (a : Attempt) :
  attempts s !! pid = Some a ->
  resume env pid o s =
    match at_suspension a, o with
    | AwaitReconnectWorkspace, Fulfilled =>
        park pid a (afterSessionReconnect env pid a s)
    | AwaitRefreshThread, Fulfilled => park pid a (afterRefresh env pid a s)
    | AwaitDedupeUnsubscribe, _ => park pid a (afterDedupeUnsubscribe pid a s)
    | AwaitSubscribe, Fulfilled => park pid a (afterSubscribe pid a s)
    | AwaitStaleUnsubscribe, _ => park pid a (afterStaleUnsubscribe s)
    | (AwaitReconnectWorkspace | AwaitRefreshThread | AwaitSubscribe), Rejected =>
        park pid a (onRejected a s)
    | Settled _, _ => s
    end.
Proof. intros Ha. unfold resume. now rewrite Ha. Qed.

Lemma attemptsKept_resume (env : Env) (pid : nat) (o : Outcome) (s : State) :
  attemptsKept (attempts s) (attempts (resume env pid o s)).
Proof.
  assert (beforeSubscribe AwaitReconnectWorkspace) as Hb by (left; reflexivity).
  unfold resume. destruct (attempts s !! pid) as [a|] eqn:Ha;
    [|apply attemptsKept_refl].
  destruct (at_suspension a), o; try apply attemptsKept_refl;
    rewrite attempts_park;
    first [ rewrite (bs_attempts _ _ _ _ _ (bodyStep_onRejected pid a AwaitSubscribe s))
          | rewrite (bs_attempts _ _ _ _ _ (bodyStep_afterSubscribe pid a s))
          | rewrite (bs_attempts _ _ _ _ _ (bodyStep_afterStaleUnsubscribe pid a s))
          | rewrite (bs_attempts _ _ _ _ _ (bodyStep_afterSessionReconnect env pid a _ s Hb))
          | rewrite (bs_attempts _ _ _ _ _ (bodyStep_afterRefresh env pid a _ s Hb))
          | rewrite (bs_attempts _ _ _ _ _ (bodyStep_afterDedupeUnsubscribe pid a _ s Hb)) ];
    now apply attemptsKept_insert.
Qed.

Lemma attempts_startAttempt (env : Env) (w t key : string)
  (options : option ReconnectOptions) (s : State) :
  exists susp,
    attempts (fst (startAttempt env w t key options s))
    = (attempts s
       ++ [mkAttempt w t key options (reconnectSequence s + 1) susp])%list.
Proof.
  unfold startAttempt. simpl fst.
  match goal with |- context [attemptStart ?e ?p ?a ?s2] =>
    pose proof (bs_attempts _ _ _ _ _ (bodyStep_attemptStart e p a s2)) as Hat;
    exists (snd (attemptStart e p a s2));
    destruct (snd (attemptStart e p a s2)) end;
    autorewrite with coord; simpl; rewrite Hat; autorewrite with coord;
    reflexivity.
Qed.

Lemma attempts_reconnectLive (env : Env) (w t : string)
  (options : option ReconnectOptions) (s : State) :
  attempts (fst (reconnectLive env w t options s)) = attempts s
  \/ exists a, attempts (fst (reconnectLive env w t options s))
               = (attempts s ++ [a])%list.
Proof.
  unfold reconnectLive.
  destruct (_ || _ || _ || _); [left; simpl; now autorewrite with coord|].
  simpl inFlightReconnect.
  destruct (inFlightReconnect s) as [f|];
    [case_bool_decide; [case_bool_decide|]|]; try (now left); right;
    match goal with |- context [startAttempt ?e ?w ?t ?k ?o ?s'] =>
      destruct (attempts_startAttempt e w t k o s') as (susp & ->) end;
    eexists; reflexivity.
Qed.

Lemma attemptsKept_via_reconnectLive (env : Env) (w t : string)
  (options : option ReconnectOptions) (s s' : State) :
  attempts s' = attempts s ->
  attemptsKept (attempts s) (attempts (fst (reconnectLive env w t options s'))).
Proof.
  intros <-. destruct (attempts_reconnectLive env w t options s') as [->|(a & ->)];
    [apply attemptsKept_refl | apply attemptsKept_app].
Qed.

Lemma attemptsKept_eq (s s' : State) :
  attempts s' = attempts s -> attemptsKept (attempts s) (attempts s').
Proof. intros ->. apply attemptsKept_refl. Qed.

Ltac attempts_kept :=
  first [ apply attemptsKept_via_reconnectLive | apply attemptsKept_eq ];
  autorewrite with coord; simpl; autorewrite with coord; reflexivity.

Lemma attemptsKept_step (env : Env) (op : Operation) (s : State) :
  attemptsKept (attempts s) (attempts (step env op s)).
Proof.
  destruct op; simpl;
    try apply attemptsKept_resume;
    unfold selectionEffect, onAppServerEvent, onLiveDetached, handleFocus,
      handleVisibilityChange, reconnectActiveThread, handleBlur, teardown;
    repeat case_match; attempts_kept.
Qed.

Lemma attemptsKept_run (ops : list (Env * Operation)) (s : State) :
  attemptsKept (attempts s) (attempts (run ops s)).
Proof.
  revert s. induction ops as [|[env op] ops IH]; intros s; simpl;
    [apply attemptsKept_refl|].
  eapply attemptsKept_trans; [apply attemptsKept_step | apply IH].
Qed.

(** ** The initial checks of [reconnectLive] *)

Lemma passesChecks_guard (w t : string) (s : State) :
  passesChecks w t s ->
  negb (String.eqb (backendMode s) "remote") || negb (Js.truthy w)
  || negb (Js.truthy t) || negb (bool_decide (is_Some (activeWorkspace s)))
  = false.
Proof.
  intros (Hmode & Hw & Ht & Hws). rewrite Hmode. unfold Js.truthy.
  destruct (String.eqb_spec w "") as [?|_]; [contradiction|].
  destruct (String.eqb_spec t "") as [?|_]; [contradiction|].
  now rewrite bool_decide_eq_true_2.
Qed.

Lemma subscribeCount_le (susp : Suspension) (n : nat) :
  subscribeCount susp n -> (n <= 1)%nat.
Proof. destruct susp as [| | | | |[|]]; simpl; lia. Qed.

(** ** Stale attempts *)

Section StaleAttempt.

Variable env : Env.
Variable s : State.
Variable pid : nat.
Variable a : Attempt.
Hypothesis Ha : attempts s !! pid = Some a.
Hypothesis Hstale : at_sequence a <> reconnectSequence s.

Let workspaceId := at_workspaceId a.
Let threadId := at_threadId a.

Lemma lookup_park (r : State * Suspension) :
  attempts (fst r) = attempts s ->
  attempts (park pid a r) !! pid = Some (withSuspension a (snd r)).
Proof.
  intros Hat. rewrite attempts_park, Hat.
  apply list_lookup_insert_eq. now apply lookup_lt_Some in Ha.
Qed.

(** A stale attempt whose session reconnect or refresh settles stops
    there: it resolves false, calls nothing and leaves the active key. *)
Lemma stale_before_subscribe (o : Outcome) :
  at_suspension a = AwaitReconnectWorkspace
  \/ at_suspension a = AwaitRefreshThread ->
  attempts (resume env pid o s) !! pid = Some (withSuspension a (Settled false))
  /\ calls (resume env pid o s) = calls s
  /\ activeSubscriptionKey (resume env pid o s) = activeSubscriptionKey s.
Proof.
  intros Hsusp. rewrite (resume_unfold env pid o s a Ha).
  assert (negb (bool_decide (at_sequence a = reconnectSequence s)) = true) as Hneg
    by now rewrite bool_decide_eq_false_2.
  assert (bool_decide (at_sequence a = reconnectSequence s) = false) as Hdec
    by now rewrite bool_decide_eq_false_2.
  destruct Hsusp as [-> | ->]; destruct o;
    unfold afterSessionReconnect, afterRefresh, onRejected;
    rewrite ?Hneg, ?Hdec;
    (split; [now apply lookup_park|]);
    unfold park; simpl; now autorewrite with coord.
Qed.

(** A stale attempt whose subscribe call resolves does not become
    active; it resolves false, at once when its key is the desired one,
    after a cleanup unsubscribe when it is not. *)
Lemma stale_after_subscribe :
  at_suspension a = AwaitSubscribe ->
  activeSubscriptionKey (resume env pid Fulfilled s) = activeSubscriptionKey s
  /\ (desiredSubscriptionKey s = Some (at_targetKey a) ->
      attempts (resume env pid Fulfilled s) !! pid
      = Some (withSuspension a (Settled false))
      /\ calls (resume env pid Fulfilled s) = calls s)
  /\ (desiredSubscriptionKey s <> Some (at_targetKey a) ->
      attempts (resume env pid Fulfilled s) !! pid
      = Some (withSuspension a AwaitStaleUnsubscribe)
      /\ calls (resume env pid Fulfilled s)
         = (calls s ++ [(Some pid, ThreadLiveUnsubscribe workspaceId threadId)])%list).
Proof.
  intros Hsusp. rewrite (resume_unfold env pid Fulfilled s a Ha), Hsusp.
  unfold afterSubscribe. rewrite bool_decide_eq_false_2 by assumption.
  simpl negb. cbv iota.
  split; [|split].
  - case_bool_decide; unfold park; simpl; now autorewrite with coord.
  - intros Hd. rewrite bool_decide_eq_true_2 by assumption. simpl negb.
    cbv iota. split; [now apply lookup_park|].
    unfold park; simpl; now autorewrite with coord.
  - intros Hd. rewrite bool_decide_eq_false_2 by assumption. simpl negb.
    cbv iota. split; [now apply lookup_park|]. reflexivity.
Qed.

(** The cleanup unsubscribe settles: the attempt resolves false. *)
Lemma stale_cleanup_done (o : Outcome) :
  at_suspension a = AwaitStaleUnsubscribe ->
  attempts (resume env pid o s) !! pid = Some (withSuspension a (Settled false))
  /\ calls (resume env pid o s) = calls s
  /\ activeSubscriptionKey (resume env pid o s) = activeSubscriptionKey s.
Proof.
  intros Hsusp. rewrite (resume_unfold env pid o s a Ha), Hsusp.
  assert (park pid a (afterStaleUnsubscribe s)
          = finallyClear pid
              (setAttempts (<[pid := withSuspension a (Settled false)]> (attempts s)) s))
    as -> by reflexivity.
  destruct o; autorewrite with coord; simpl;
    (split; [apply list_lookup_insert_eq; now apply lookup_lt_Some in Ha|]);
    split; reflexivity.
Qed.

End StaleAttempt.

(** ** Starting an attempt *)

Lemma restingState_remote (w : WorkspaceInfo) :
  restingState "remote" (Some w)
  = if ws_connected w then Polling else Disconnected.
Proof. unfold restingState. simpl. now destruct (ws_connected w). Qed.

(** The first stretch of an attempt whose sequence number is current ends
    at an [await], after one call. *)
Lemma attemptStart_current (env : Env) (pid : nat) (a : Attempt) (s : State) :
  at_sequence a = reconnectSequence s ->
  (forall b, snd (attemptStart env pid a s) <> Settled b)
  /\ (exists c, calls (fst (attemptStart env pid a s))
                = (calls s ++ [(Some pid, c)])%list)
  /\ connectionState (fst (attemptStart env pid a s)) = connectionState s
  /\ activeSubscriptionKey (fst (attemptStart env pid a s))
     = activeSubscriptionKey s
  /\ desiredSubscriptionKey (fst (attemptStart env pid a s))
     = Some (at_targetKey a).
Proof.
  intros Hseq.
  unfold attemptStart, afterSessionReconnect, afterRefresh, callSubscribe.
  simpl reconnectSequence. rewrite (bool_decide_eq_true_2 _ Hseq). simpl negb.
  repeat case_match; simpl; repeat split; try discriminate; eexists; reflexivity.
Qed.

(** What starting an attempt does, from a state [s0] that differs from [s]
    in the desired key and the in-flight record at most. *)
Lemma startAttempt_effect (env : Env) (w t : string)
  (options : option ReconnectOptions) (s s0 : State) :
  let key := keyForThread w t in
  let pid := List.length (attempts s) in
  let r0 := startAttempt env w t key options s0 in
  attempts s0 = attempts s -> reconnectSequence s0 = reconnectSequence s ->
  calls s0 = calls s -> activeWorkspace s0 = activeWorkspace s ->
  activeSubscriptionKey s0 = activeSubscriptionKey s ->
  snd r0 = AttemptPromise pid
  /\ reconnectSequence (fst r0) = reconnectSequence s + 1
  /\ inFlightReconnect (fst r0)
     = Some (mkInFlight key (reconnectSequence s + 1) pid)
  /\ desiredSubscriptionKey (fst r0) = Some key
  /\ connectionState (fst r0)
     = (if connectedOpt (activeWorkspace s) then Polling else Disconnected)
  /\ activeSubscriptionKey (fst r0) = activeSubscriptionKey s
  /\ (exists susp,
        (forall b, susp <> Settled b)
        /\ attempts (fst r0)
           = (attempts s
              ++ [mkAttempt w t key options (reconnectSequence s + 1) susp])%list)
  /\ (exists c, calls (fst r0) = (calls s ++ [(Some pid, c)])%list).
Proof.
  intros key pid r0 Hat Hsq Hcl Hws Hact. unfold r0, startAttempt.
  rewrite Hat, Hsq. fold pid.
  set (a0 := mkAttempt w t key options (reconnectSequence s + 1) AwaitSubscribe).
  match goal with |- context [attemptStart env pid a0 ?x] => set (s2 := x) end.
  assert (at_sequence a0 = reconnectSequence s2) as Hcur
    by (unfold s2; now autorewrite with coord).
  destruct (attemptStart_current env pid a0 s2 Hcur)
    as (Hpend & (c & Hcalls) & Hconn & Hactive & Hdes).
  destruct (bodyStep_attemptStart env pid a0 s2) as [Bseq Bfl Bat _ _].
  set (r1 := attemptStart env pid a0 s2) in *.
  assert (connectionState s2
          = (if connectedOpt (activeWorkspace s) then Polling else Disconnected))
    as Hs2 by (unfold s2; rewrite connectionState_setState; simpl; now rewrite Hws).
  destruct (snd r1) eqn:Hr1; try (now destruct (Hpend result));
    simpl; rewrite ?Bseq, ?Bat, ?Hconn, ?Hactive, ?Hdes, ?Hcalls;
    (split; [reflexivity|]);
    (split; [unfold s2; now autorewrite with coord|]);
    (split; [f_equal; f_equal; unfold s2; now autorewrite with coord|]);
    (split; [reflexivity|]);
    (split; [exact Hs2|]);
    (split; [unfold s2; autorewrite with coord; exact Hact|]);
    (split;
     [eexists; split; [|unfold s2; autorewrite with coord; simpl;
                        rewrite Hat; reflexivity]; discriminate
     |exists c; unfold s2; autorewrite with coord; simpl; now rewrite Hcl]).
Qed.

(** A passing call starts an attempt unless it finds one to share. *)
Lemma reconnectLive_passing (env : Env) (w t : string)
  (options : option ReconnectOptions) (s : State) :
  passesChecks w t s ->
  (exists f, inFlightReconnect s = Some f /\ if_key f = keyForThread w t
             /\ if_sequence f = reconnectSequence s
             /\ reconnectLive env w t options s
                = (setDesiredSubscriptionKey (Some (keyForThread w t)) s,
                   AttemptPromise (if_promise f)))
  \/ ((forall f, inFlightReconnect s = Some f -> if_key f = keyForThread w t ->
         if_sequence f <> reconnectSequence s)
      /\ exists s0,
           reconnectLive env w t options s
           = startAttempt env w t (keyForThread w t) options s0
           /\ attempts s0 = attempts s
           /\ reconnectSequence s0 = reconnectSequence s
           /\ calls s0 = calls s /\ activeWorkspace s0 = activeWorkspace s
           /\ activeSubscriptionKey s0 = activeSubscriptionKey s
           /\ (s0 = setDesiredSubscriptionKey (Some (keyForThread w t)) s
               \/ s0 = setInFlightReconnect None
                         (setDesiredSubscriptionKey (Some (keyForThread w t)) s))).
Proof.
  intros Hchecks. unfold reconnectLive.
  rewrite (passesChecks_guard w t s Hchecks). simpl inFlightReconnect.
  destruct (inFlightReconnect s) as [f|] eqn:Hfl.
  - destruct (decide (if_key f = keyForThread w t)) as [Hk|Hk].
    + rewrite (bool_decide_eq_true_2 _ Hk).
      destruct (decide (if_sequence f = reconnectSequence s)) as [Hq|Hq].
      * left. exists f. rewrite bool_decide_eq_true_2 by exact Hq. repeat split; auto.
      * right. rewrite bool_decide_eq_false_2 by exact Hq.
        split; [intros f0 [= <-] _; exact Hq|].
        eexists; split; [reflexivity | repeat split]. now right.
    + right. rewrite (bool_decide_eq_false_2 _ Hk).
      split; [intros f0 [= <-] Hk'; contradiction|].
      eexists; split; [reflexivity | repeat split]. now left.
  - right. split; [discriminate|].
    eexists; split; [reflexivity | repeat split]. now left.
Qed.

(** A call that fails the checks of lines 173-181 only reconciles. *)
Lemma reconnectLive_failing (env : Env) (w t : string)
  (options : option ReconnectOptions) (s : State) :
  ~ passesChecks w t s ->
  reconnectLive env w t options s = (reconcileDisconnectedState s, ResolvedFalse).
Proof.
  intros Hp. unfold reconnectLive.
  match goal with |- (if ?g then _ else _) = _ =>
    destruct g eqn:Hg; [reflexivity|] end.
  exfalso. apply Hp. unfold passesChecks.
  apply orb_false_iff in Hg as [Hg Hg4].
  apply orb_false_iff in Hg as [Hg Hg3].
  apply orb_false_iff in Hg as [Hg1 Hg2].
  apply negb_false_iff in Hg1, Hg2, Hg3, Hg4.
  apply String.eqb_eq in Hg1. apply bool_decide_eq_true in Hg4.
  repeat split; auto; intros ->; discriminate.
Qed.

(** The first stretch of a current attempt that is to refresh the
    thread: it calls the session reconnect when the workspace of the
    attempt is not connected, and the refresh otherwise. *)
Lemma attemptStart_resuming (env : Env) (pid : nat) (a : Attempt) (s : State)
  (ws : WorkspaceInfo) :
  activeWorkspace s = Some ws -> at_sequence a = reconnectSequence s ->
  runResumeOf (at_options a) <> Some false ->
  let reconnects :=
    negb (ws_connected ws) && hasReconnectWorkspace s
    && bool_decide (ws_id ws = at_workspaceId a) in
  attemptStart env pid a s
  = (issue (Some pid)
       (if reconnects then ReconnectWorkspace ws
        else RefreshThread (at_workspaceId a) (at_threadId a))
       (setDesiredSubscriptionKey (Some (at_targetKey a)) s),
     if reconnects then AwaitReconnectWorkspace else AwaitRefreshThread).
Proof.
  intros Hws Hseq Hres reconnects. unfold attemptStart. simpl activeWorkspace.
  rewrite Hws. simpl hasReconnectWorkspace. fold reconnects.
  destruct reconnects; [reflexivity|].
  unfold afterSessionReconnect. simpl reconnectSequence.
  rewrite (bool_decide_eq_true_2 _ Hseq), (bool_decide_eq_false_2 _ Hres).
  reflexivity.
Qed.

(** So a new attempt that is to refresh the thread logs that one call
    and is suspended on it. *)
Lemma startAttempt_resuming (env : Env) (w t : string)
  (options : option ReconnectOptions) (s0 : State) (ws : WorkspaceInfo) :
  activeWorkspace s0 = Some ws -> runResumeOf options <> Some false ->
  let pid := List.length (attempts s0) in
  let key := keyForThread w t in
  let reconnects :=
    negb (ws_connected ws) && hasReconnectWorkspace s0
    && bool_decide (ws_id ws = w) in
  let s1 := fst (startAttempt env w t key options s0) in
  attempts s1
  = (attempts s0
     ++ [mkAttempt w t key options (reconnectSequence s0 + 1)
           (if reconnects then AwaitReconnectWorkspace
            else AwaitRefreshThread)])%list
  /\ calls s1
     = (calls s0
        ++ [(Some pid,
             if reconnects then ReconnectWorkspace ws else RefreshThread w t)])%list
  /\ ignoreDetachedEventsUntil s1 = ignoreDetachedEventsUntil s0.
Proof.
  intros Hws Hres pid key reconnects s1. unfold s1, startAttempt.
  fold pid.
  match goal with |- context [attemptStart env pid ?a0 ?x] =>
    set (a := a0); set (s2 := x) end.
  assert (activeWorkspace s2 = Some ws) as Hws2
    by (unfold s2; now autorewrite with coord).
  assert (at_sequence a = reconnectSequence s2) as Hcur
    by (unfold s2; now autorewrite with coord).
  assert (hasReconnectWorkspace s2 = hasReconnectWorkspace s0) as Hhas
    by (unfold s2; now autorewrite with coord).
  rewrite (attemptStart_resuming env pid a s2 ws Hws2 Hcur Hres).
  simpl at_workspaceId. simpl at_threadId. simpl at_targetKey.
  rewrite Hhas. fold reconnects.
  destruct reconnects; simpl; unfold s2; autorewrite with coord; simpl;
    autorewrite with coord; repeat split.
Qed.

(** ** Coalescing *)

(** *** What the other operations leave of an attempt *)

Lemma standsStill_refl (pid : nat) (s : State) :
  is_Some (attempts s !! pid) -> standsStill pid s s.
Proof.
  intros H. split; [exact H|]. split; [reflexivity|].
  exists []. now rewrite app_nil_r.
Qed.

Lemma standsStill_more (pid : nat) (s x x' : State) (extra : list LoggedCall) :
  (forall a, attempts x !! pid = Some a -> attempts x' !! pid = Some a) ->
  calls x' = (calls x ++ extra)%list -> subscribesIn pid extra = 0%nat ->
  standsStill pid s x -> standsStill pid s x'.
Proof.
  intros Hat Hcl Hz ([a Ha] & Hsame & extra0 & Hc0 & Hz0).
  split; [now exists a|]. split.
  - rewrite Ha. apply Hat. now rewrite Hsame.
  - exists (extra0 ++ extra)%list. split.
    + now rewrite Hcl, Hc0, app_assoc.
    + now rewrite subscribesIn_app, Hz0, Hz.
Qed.

Lemma standsStill_same (pid : nat) (s x x' : State) :
  attempts x' = attempts x -> calls x' = calls x ->
  standsStill pid s x -> standsStill pid s x'.
Proof.
  intros Hat Hcl. apply (standsStill_more pid s x x' []).
  - now rewrite Hat.
  - now rewrite app_nil_r.
  - reflexivity.
Qed.

Lemma standsStill_count (pid : nat) (s x : State) :
  standsStill pid s x -> subscribesBy pid x = subscribesBy pid s.
Proof.
  intros (_ & _ & extra & Hc & Hz). unfold subscribesBy.
  rewrite Hc, subscribesIn_app, Hz. lia.
Qed.

Section StillFrames.

Variable pid : nat.
Variable s : State.

Lemma standsStill_setState (c : RemoteThreadConnectionState) (x : State) :
  standsStill pid s x -> standsStill pid s (setState c x).
Proof. apply standsStill_same; now autorewrite with coord. Qed.

Lemma standsStill_reconcileDisconnectedState (x : State) :
  standsStill pid s x -> standsStill pid s (reconcileDisconnectedState x).
Proof. apply standsStill_same; now autorewrite with coord. Qed.

Lemma standsStill_setDesiredSubscriptionKey (k : option string) (x : State) :
  standsStill pid s x -> standsStill pid s (setDesiredSubscriptionKey k x).
Proof. now apply standsStill_same. Qed.

Lemma standsStill_setActiveSubscriptionKey (k : option string) (x : State) :
  standsStill pid s x -> standsStill pid s (setActiveSubscriptionKey k x).
Proof. now apply standsStill_same. Qed.

Lemma standsStill_setIgnoreDetachedEventsUntil (m : gmap string N) (x : State) :
  standsStill pid s x -> standsStill pid s (setIgnoreDetachedEventsUntil m x).
Proof. now apply standsStill_same. Qed.

Lemma standsStill_setInFlightReconnect (f : option InFlight) (x : State) :
  standsStill pid s x -> standsStill pid s (setInFlightReconnect f x).
Proof. now apply standsStill_same. Qed.

Lemma standsStill_setReconnectSequence (n : Z) (x : State) :
  standsStill pid s x -> standsStill pid s (setReconnectSequence n x).
Proof. now apply standsStill_same. Qed.

Lemma standsStill_setProps (p : Props) (x : State) :
  standsStill pid s x -> standsStill pid s (setProps p x).
Proof. now apply standsStill_same. Qed.

Lemma standsStill_unsubscribeByKey (key : string) (x : State) :
  standsStill pid s x -> standsStill pid s (unsubscribeByKey key x).
Proof.
  intros Hx. unfold unsubscribeByKey.
  destruct (splitKey key) as [parsed|]; [|exact Hx].
  apply (standsStill_more pid s x _
           [(None, ThreadLiveUnsubscribe (pk_workspaceId parsed)
                     (pk_threadId parsed))]); auto.
Qed.

(** The calls of a new attempt carry its own promise, which is not
    [pid]. *)
Lemma standsStill_startAttempt (env : Env) (w t key : string)
  (options : option ReconnectOptions) (x : State) :
  standsStill pid s x ->
  standsStill pid s (fst (startAttempt env w t key options x)).
Proof.
  intros Hx. pose proof Hx as ([b Hb] & Hsame & _).
  assert (pid < List.length (attempts x))%nat as Hlt
    by (rewrite <- Hsame in Hb; now apply lookup_lt_Some in Hb).
  unfold startAttempt. simpl fst.
  set (q := List.length (attempts x)) in *.
  match goal with |- context [attemptStart env q ?a0 ?x2] =>
    set (a := a0); set (s2 := x2) end.
  destruct (bodyStep_attemptStart env q a s2)
    as [_ _ Bat _ (extra & Hcalls & Hextra & _)].
  apply (standsStill_more pid s x _ extra); [| | |exact Hx].
  - intros c Hc.
    destruct (snd (attemptStart env q a s2)); autorewrite with coord; simpl;
      rewrite Bat; unfold s2; autorewrite with coord; simpl;
      now apply lookup_app_l_Some.
  - destruct (snd (attemptStart env q a s2)); autorewrite with coord; simpl;
      rewrite Hcalls; unfold s2; now autorewrite with coord.
  - apply (subscribesIn_other q pid a extra Hextra). lia.
Qed.

Lemma standsStill_reconnectLive (env : Env) (w t : string)
  (options : option ReconnectOptions) (x : State) :
  standsStill pid s x ->
  standsStill pid s (fst (reconnectLive env w t options x)).
Proof.
  intros Hx. unfold reconnectLive.
  destruct (_ || _ || _ || _);
    [now apply standsStill_reconcileDisconnectedState|].
  simpl inFlightReconnect.
  destruct (inFlightReconnect x) as [f|];
    [destruct (bool_decide (if_key f = _));
     [destruct (bool_decide (if_sequence f = _))|]|];
    try (apply standsStill_startAttempt);
    repeat first [ apply standsStill_setInFlightReconnect
                 | apply standsStill_setDesiredSubscriptionKey ];
    exact Hx.
Qed.

(** So do the calls of another attempt. *)
Lemma standsStill_resume_other (env : Env) (q : nat) (o : Outcome) (x : State) :
  q <> pid -> standsStill pid s x -> standsStill pid s (resume env q o x).
Proof.
  intros Hne Hx.
  assert (beforeSubscribe AwaitReconnectWorkspace) as Hb by (left; reflexivity).
  unfold resume. destruct (attempts x !! q) as [b|] eqn:Hq; [|exact Hx].
  assert (forall old r, BodyStep q b old x r -> standsStill pid s (park q b r))
    as Hpark.
  { intros old r [_ _ Bat _ (extra & Hcalls & Hextra & _)].
    apply (standsStill_more pid s x _ extra); [| | |exact Hx].
    - intros c Hc. rewrite attempts_park, Bat.
      now rewrite list_lookup_insert_ne.
    - unfold park. destruct (snd r); autorewrite with coord; exact Hcalls.
    - apply (subscribesIn_other q pid b extra Hextra). congruence. }
  destruct (at_suspension b), o; try exact Hx;
    first [ apply (Hpark _ _ (bodyStep_onRejected q b AwaitSubscribe x))
          | apply (Hpark _ _ (bodyStep_afterSubscribe q b x))
          | apply (Hpark _ _ (bodyStep_afterStaleUnsubscribe q b x))
          | apply (Hpark _ _ (bodyStep_afterSessionReconnect env q b _ x Hb))
          | apply (Hpark _ _ (bodyStep_afterRefresh env q b _ x Hb))
          | apply (Hpark _ _ (bodyStep_afterDedupeUnsubscribe q b _ x Hb)) ].
Qed.

End StillFrames.

Create HintDb still.

#[global] Hint Resolve standsStill_setState
  standsStill_reconcileDisconnectedState standsStill_setDesiredSubscriptionKey
  standsStill_setActiveSubscriptionKey standsStill_setIgnoreDetachedEventsUntil
  standsStill_setInFlightReconnect standsStill_setReconnectSequence
  standsStill_setProps standsStill_unsubscribeByKey standsStill_reconnectLive
  : still.

Lemma standsStill_selectionEffect (pid : nat) (s x : State) (env : Env) :
  standsStill pid s x -> standsStill pid s (selectionEffect env x).
Proof.
  intros Hx. unfold selectionEffect. repeat case_match; auto 10 with still.
Qed.

Lemma standsStill_onAppServerEvent (pid : nat) (s x : State) (env : Env)
  (event : AppServerEvent) :
  standsStill pid s x -> standsStill pid s (onAppServerEvent env event x).
Proof.
  intros Hx. unfold onAppServerEvent, onLiveDetached.
  repeat case_match; auto 10 with still.
Qed.

Lemma standsStill_reconnectActiveThread (pid : nat) (s x : State) (env : Env) :
  standsStill pid s x -> standsStill pid s (reconnectActiveThread env x).
Proof.
  intros Hx. unfold reconnectActiveThread. repeat case_match; auto with still.
Qed.

Lemma standsStill_handleBlur (pid : nat) (s x : State) :
  standsStill pid s x -> standsStill pid s (handleBlur x).
Proof.
  intros Hx. unfold handleBlur. repeat case_match; auto 10 with still.
Qed.

Lemma standsStill_teardown (pid : nat) (s x : State) :
  standsStill pid s x -> standsStill pid s (teardown x).
Proof.
  intros Hx. unfold teardown. repeat case_match; auto 10 with still.
Qed.

(** A settled attempt is not resumed. *)
Lemma resume_settled (env : Env) (pid : nat) (o : Outcome) (x : State)
  (b : Attempt) :
  attempts x !! pid = Some b -> isPending b = false -> resume env pid o x = x.
Proof.
  intros Hb Hp. rewrite (resume_unfold env pid o x b Hb).
  unfold isPending in Hp. destruct (at_suspension b); try discriminate.
  now destruct o.
Qed.

(** An operation that does not resume attempt [pid] leaves it where it
    stands and logs no subscribe call of it. *)
Lemma standsStill_step (env : Env) (op : Operation) (pid : nat) (s : State)
  (b : Attempt) :
  attempts s !! pid = Some b ->
  isPending b = false \/ (forall o, op <> OpSettle pid o) ->
  standsStill pid s (step env op s).
Proof.
  intros Hb Hop.
  assert (standsStill pid s s) as Hs by (apply standsStill_refl; eauto).
  destruct op as [|p|w t options|event| | | |q o|]; simpl;
    unfold handleFocus, handleVisibilityChange.
  - now apply standsStill_selectionEffect.
  - case_match; [apply standsStill_selectionEffect|];
      now apply standsStill_setProps.
  - now apply standsStill_reconnectLive.
  - now apply standsStill_onAppServerEvent.
  - case_match; [assumption | now apply standsStill_reconnectActiveThread].
  - now apply standsStill_handleBlur.
  - case_match;
      [now apply standsStill_reconnectActiveThread
      | now apply standsStill_handleBlur].
  - destruct (decide (q = pid)) as [->|Hne].
    + destruct Hop as [Hp|Hno]; [|now destruct (Hno o)].
      now rewrite (resume_settled env pid o s b Hb Hp).
    + now apply standsStill_resume_other.
  - now apply standsStill_teardown.
Qed.

(** Once an attempt has settled, nothing moves it and it calls nothing. *)
Lemma settled_run (pid : nat) (b : Attempt) (ops : list (Env * Operation))
  (x : State) :
  attempts x !! pid = Some b -> isPending b = false ->
  attempts (run ops x) !! pid = Some b
  /\ subscribesBy pid (run ops x) = subscribesBy pid x.
Proof.
  intros Hb Hp. revert x Hb.
  induction ops as [|[env op] rest IH]; intros x Hb; [now split|].
  simpl run.
  pose proof (standsStill_step env op pid x b Hb (or_introl Hp)) as Hstill.
  pose proof (standsStill_count pid x _ Hstill) as Hcount.
  destruct Hstill as (_ & Hsame & _). rewrite Hb in Hsame.
  destruct (IH _ Hsame) as [H1 H2]. split; [exact H1 | congruence].
Qed.

(** *** The log only grows *)

Lemma subscribesBy_resume (env : Env) (pid : nat) (o : Outcome) (x : State) :
  (subscribesBy pid x <= subscribesBy pid (resume env pid o x))%nat.
Proof.
  assert (beforeSubscribe AwaitReconnectWorkspace) as Hb by (left; reflexivity).
  unfold resume. destruct (attempts x !! pid) as [b|] eqn:Hq; [|lia].
  assert (forall old r, BodyStep pid b old x r ->
            (subscribesBy pid x <= subscribesBy pid (park pid b r))%nat)
    as Hpark.
  { intros old r [_ _ _ _ (extra & Hcalls & _ & _)].
    assert (calls (park pid b r) = (calls x ++ extra)%list) as Hcl
      by (unfold park; destruct (snd r); autorewrite with coord; exact Hcalls).
    unfold subscribesBy. rewrite Hcl, subscribesIn_app. lia. }
  destruct (at_suspension b), o; try lia;
    first [ apply (Hpark _ _ (bodyStep_onRejected pid b AwaitSubscribe x))
          | apply (Hpark _ _ (bodyStep_afterSubscribe pid b x))
          | apply (Hpark _ _ (bodyStep_afterStaleUnsubscribe pid b x))
          | apply (Hpark _ _ (bodyStep_afterSessionReconnect env pid b _ x Hb))
          | apply (Hpark _ _ (bodyStep_afterRefresh env pid b _ x Hb))
          | apply (Hpark _ _ (bodyStep_afterDedupeUnsubscribe pid b _ x Hb)) ].
Qed.

Lemma subscribesBy_step (env : Env) (op : Operation) (pid : nat) (x : State) :
  is_Some (attempts x !! pid) ->
  (subscribesBy pid x <= subscribesBy pid (step env op x))%nat.
Proof.
  intros [b Hb].
  assert ((exists o, op = OpSettle pid o) \/ forall o, op <> OpSettle pid o)
    as [[o ->]|Hno].
  { destruct op as [| | | | | | |q o|]; try (right; intros; discriminate).
    destruct (decide (q = pid)) as [->|Hne]; [left; eauto|].
    right. intros o' [= ? _]. contradiction. }
  - apply subscribesBy_resume.
  - rewrite (standsStill_count pid x (step env op x)); [lia|].
    apply (standsStill_step env op pid x b Hb). now right.
Qed.

Lemma subscribesBy_run (ops : list (Env * Operation)) (pid : nat) (x : State) :
  is_Some (attempts x !! pid) ->
  (subscribesBy pid x <= subscribesBy pid (run ops x))%nat.
Proof.
  revert x. induction ops as [|[env op] rest IH]; intros x Hx; simpl; [lia|].
  pose proof (subscribesBy_step env op pid x Hx) as Hstep.
  assert (is_Some (attempts (step env op x) !! pid)) as Hx'.
  { destruct Hx as [b Hb].
    destruct (attemptsKept_step env op x pid b Hb) as (susp & Hs). eauto. }
  specialize (IH _ Hx'). lia.
Qed.

(** *** The cleanup unsubscribe belongs to stale attempts *)

Lemma cleanupIsStale_same (x x' : State) :
  attempts x' = attempts x -> reconnectSequence x <= reconnectSequence x' ->
  cleanupIsStale x -> cleanupIsStale x'.
Proof.
  intros Hat Hle H p a. rewrite Hat. intros Ha Hs. specialize (H p a Ha Hs). lia.
Qed.

Lemma cleanupIsStale_initialState (p : Props) : cleanupIsStale (initialState p).
Proof. intros q a Hq. simpl in Hq. now rewrite lookup_nil in Hq. Qed.

Lemma cleanupIsStale_setState (c : RemoteThreadConnectionState) (x : State) :
  cleanupIsStale x -> cleanupIsStale (setState c x).
Proof. apply cleanupIsStale_same; autorewrite with coord; [reflexivity | lia]. Qed.

Lemma cleanupIsStale_reconcileDisconnectedState (x : State) :
  cleanupIsStale x -> cleanupIsStale (reconcileDisconnectedState x).
Proof. apply cleanupIsStale_same; autorewrite with coord; [reflexivity | lia]. Qed.

Lemma cleanupIsStale_setDesiredSubscriptionKey (k : option string) (x : State) :
  cleanupIsStale x -> cleanupIsStale (setDesiredSubscriptionKey k x).
Proof. apply cleanupIsStale_same; [reflexivity | simpl; lia]. Qed.

Lemma cleanupIsStale_setActiveSubscriptionKey (k : option string) (x : State) :
  cleanupIsStale x -> cleanupIsStale (setActiveSubscriptionKey k x).
Proof. apply cleanupIsStale_same; [reflexivity | simpl; lia]. Qed.

Lemma cleanupIsStale_setIgnoreDetachedEventsUntil (m : gmap string N) (x : State) :
  cleanupIsStale x -> cleanupIsStale (setIgnoreDetachedEventsUntil m x).
Proof. apply cleanupIsStale_same; [reflexivity | simpl; lia]. Qed.

Lemma cleanupIsStale_setInFlightReconnect (f : option InFlight) (x : State) :
  cleanupIsStale x -> cleanupIsStale (setInFlightReconnect f x).
Proof. apply cleanupIsStale_same; [reflexivity | simpl; lia]. Qed.

Lemma cleanupIsStale_setProps (p : Props) (x : State) :
  cleanupIsStale x -> cleanupIsStale (setProps p x).
Proof. apply cleanupIsStale_same; [reflexivity | simpl; lia]. Qed.

Lemma cleanupIsStale_advance (x : State) :
  cleanupIsStale x ->
  cleanupIsStale (setReconnectSequence (reconnectSequence x + 1) x).
Proof. apply cleanupIsStale_same; [reflexivity | simpl; lia]. Qed.

Lemma cleanupIsStale_unsubscribeByKey (key : string) (x : State) :
  cleanupIsStale x -> cleanupIsStale (unsubscribeByKey key x).
Proof. apply cleanupIsStale_same; autorewrite with coord; [reflexivity | lia]. Qed.

(** The first stretch of an attempt never ends at the cleanup
    unsubscribe. *)
Lemma attemptStart_not_cleanup (env : Env) (pid : nat) (a : Attempt) (s : State) :
  snd (attemptStart env pid a s) <> AwaitStaleUnsubscribe.
Proof.
  unfold attemptStart, afterSessionReconnect, afterRefresh, callSubscribe.
  repeat case_match; simpl; discriminate.
Qed.

Lemma cleanupIsStale_startAttempt (env : Env) (w t key : string)
  (options : option ReconnectOptions) (x : State) :
  cleanupIsStale x ->
  cleanupIsStale (fst (startAttempt env w t key options x)).
Proof.
  intros H p b.
  rewrite reconnectSequence_startAttempt.
  unfold startAttempt. simpl fst.
  match goal with |- context [attemptStart ?e ?q ?a ?s2] =>
    pose proof (bs_attempts _ _ _ _ _ (bodyStep_attemptStart e q a s2)) as Hat;
    pose proof (attemptStart_not_cleanup e q a s2) as Hnot;
    destruct (snd (attemptStart e q a s2)) end;
    autorewrite with coord; simpl; rewrite Hat; autorewrite with coord; simpl;
    intros Hp Hs;
    (apply lookup_app_Some in Hp as [Hp|[_ Hp]];
     [specialize (H p b Hp Hs); lia
     |apply list_lookup_singleton_Some in Hp as [_ <-]; simpl in Hs;
      first [discriminate | contradiction]]).
Qed.

Lemma cleanupIsStale_reconnectLive (env : Env) (w t : string)
  (options : option ReconnectOptions) (x : State) :
  cleanupIsStale x -> cleanupIsStale (fst (reconnectLive env w t options x)).
Proof.
  intros Hx. unfold reconnectLive.
  destruct (_ || _ || _ || _);
    [now apply cleanupIsStale_reconcileDisconnectedState|].
  simpl inFlightReconnect.
  destruct (inFlightReconnect x) as [f|];
    [destruct (bool_decide (if_key f = _));
     [destruct (bool_decide (if_sequence f = _))|]|];
    try (apply cleanupIsStale_startAttempt);
    repeat first [ apply cleanupIsStale_setInFlightReconnect
                 | apply cleanupIsStale_setDesiredSubscriptionKey ];
    exact Hx.
Qed.

(** An attempt reaches the cleanup unsubscribe only from the stale branch
    of lines 233-238. *)
Lemma resume_to_cleanup (env : Env) (pid : nat) (o : Outcome) (x : State)
  (b : Attempt) :
  attempts x !! pid = Some b ->
  exists susp,
    attempts (resume env pid o x) = <[pid := withSuspension b susp]> (attempts x)
    /\ (susp = AwaitStaleUnsubscribe ->
        at_suspension b = AwaitStaleUnsubscribe
        \/ at_sequence b <> reconnectSequence x).
Proof.
  intros Hb.
  assert (beforeSubscribe AwaitReconnectWorkspace) as Hbs by (left; reflexivity).
  rewrite (resume_unfold env pid o x b Hb).
  assert (forall old r, BodyStep pid b old x r ->
            attempts (park pid b r)
            = <[pid := withSuspension b (snd r)]> (attempts x)) as Hpark.
  { intros old r [_ _ Bat _ _]. now rewrite attempts_park, Bat. }
  destruct (at_suspension b) eqn:Hsusp; destruct o.
  all: try (exists (at_suspension b); rewrite Hsusp; split;
            [rewrite <- Hsusp, withSuspension_same; symmetry;
             now apply list_insert_id
            |discriminate]).
  all: try (eexists; split;
            [first [ apply (Hpark _ _ (bodyStep_onRejected pid b AwaitSubscribe x))
                   | apply (Hpark _ _ (bodyStep_afterStaleUnsubscribe pid b x))
                   | apply (Hpark _ _ (bodyStep_afterSessionReconnect env pid b _ x Hbs))
                   | apply (Hpark _ _ (bodyStep_afterRefresh env pid b _ x Hbs))
                   | apply (Hpark _ _ (bodyStep_afterDedupeUnsubscribe pid b _ x Hbs)) ]
            |unfold onRejected, afterStaleUnsubscribe, afterSessionReconnect,
               afterRefresh, afterDedupeUnsubscribe, callSubscribe;
             repeat case_match; simpl; first [discriminate | now left]]).
  eexists. split; [apply (Hpark _ _ (bodyStep_afterSubscribe pid b x))|].
  unfold afterSubscribe.
  destruct (bool_decide (at_sequence b = reconnectSequence x)) eqn:Hcur;
    simpl negb; cbv iota.
  - simpl. discriminate.
  - intros _. right. now apply bool_decide_eq_false in Hcur.
Qed.

Lemma cleanupIsStale_resume (env : Env) (pid : nat) (o : Outcome) (x : State) :
  Inv x -> cleanupIsStale x -> cleanupIsStale (resume env pid o x).
Proof.
  intros HI H.
  destruct (attempts x !! pid) as [b|] eqn:Hb;
    [|unfold resume; now rewrite Hb].
  destruct (resume_to_cleanup env pid o x b Hb) as (susp & Hat & Hwhy).
  intros p c. rewrite Hat, reconnectSequence_resume.
  destruct (decide (p = pid)) as [->|Hne].
  - rewrite list_lookup_insert_eq by now apply lookup_lt_Some in Hb.
    intros [= <-] Hs. simpl in Hs. simpl at_sequence.
    destruct (Hwhy Hs) as [Hold|Hstale]; [now apply (H pid b)|].
    pose proof (inv_sequence x HI pid b Hb). lia.
  - rewrite list_lookup_insert_ne by congruence. apply H.
Qed.

Create HintDb cleanup.

#[global] Hint Resolve cleanupIsStale_setState
  cleanupIsStale_reconcileDisconnectedState
  cleanupIsStale_setDesiredSubscriptionKey
  cleanupIsStale_setActiveSubscriptionKey
  cleanupIsStale_setIgnoreDetachedEventsUntil
  cleanupIsStale_setInFlightReconnect cleanupIsStale_setProps
  cleanupIsStale_advance cleanupIsStale_unsubscribeByKey
  cleanupIsStale_reconnectLive : cleanup.

Lemma cleanupIsStale_step (env : Env) (op : Operation) (x : State) :
  Inv x -> cleanupIsStale x -> cleanupIsStale (step env op x).
Proof.
  intros HI Hx. destruct op; simpl; try (now apply cleanupIsStale_resume);
    unfold selectionEffect, onAppServerEvent, onLiveDetached, handleFocus,
      handleVisibilityChange, reconnectActiveThread, handleBlur, teardown;
    repeat case_match; auto 10 with cleanup.
Qed.

Lemma reachable_cleanupIsStale (x : State) : reachable x -> cleanupIsStale x.
Proof.
  induction 1 as [p|env op x Hx IH]; [apply cleanupIsStale_initialState|].
  apply cleanupIsStale_step; [now apply reachable_Inv | exact IH].
Qed.

(** *** An attempt none of whose calls fails *)

Lemma fulfilledIn_cons (pid : nat) (op : Env * Operation)
  (ops : list (Env * Operation)) :
  fulfilledIn pid (op :: ops)
  = ((if isFulfilmentOf pid op then 1 else 0) + fulfilledIn pid ops)%nat.
Proof. unfold fulfilledIn. simpl. now destruct (isFulfilmentOf pid op). Qed.

Lemma rejectedIn_cons (pid : nat) (op : Env * Operation)
  (ops : list (Env * Operation)) :
  rejectedIn pid (op :: ops)
  = ((if isRejectionOf pid op then 1 else 0) + rejectedIn pid ops)%nat.
Proof. unfold rejectedIn. simpl. now destruct (isRejectionOf pid op). Qed.

(** Which operations resume attempt [pid]. *)
Lemma settle_cases (pid : nat) (env : Env) (op : Operation) :
  (op = OpSettle pid Fulfilled /\ isFulfilmentOf pid (env, op) = true
   /\ isRejectionOf pid (env, op) = false)
  \/ (op = OpSettle pid Rejected /\ isFulfilmentOf pid (env, op) = false
      /\ isRejectionOf pid (env, op) = true)
  \/ ((forall o, op <> OpSettle pid o) /\ isFulfilmentOf pid (env, op) = false
      /\ isRejectionOf pid (env, op) = false).
Proof.
  unfold isFulfilmentOf, isRejectionOf.
  destruct op as [| | | | | | |q o|]; simpl;
    try (right; right; repeat split; intros; discriminate).
  destruct (decide (q = pid)) as [->|Hne].
  - rewrite bool_decide_eq_true_2 by reflexivity.
    destruct o; [left | right; left]; repeat split.
  - rewrite bool_decide_eq_false_2 by assumption.
    right; right. destruct o; repeat split; intros o' [= ? _]; contradiction.
Qed.

(** While its sequence number is current, an attempt whose awaited call
    resolves goes one step on towards its end, and ends resolved true. *)
Lemma resume_on_course (env : Env) (pid : nat) (x : State) (b : Attempt) :
  attempts x !! pid = Some b -> at_sequence b = reconnectSequence x ->
  onCourse (at_suspension b) ->
  exists susp,
    attempts (resume env pid Fulfilled x) !! pid = Some (withSuspension b susp)
    /\ onCourse susp
    /\ (awaitsLeft susp <= awaitsLeft (at_suspension b) - 1)%nat.
Proof.
  intros Hb Hseq [Hnf Hnc].
  assert (beforeSubscribe AwaitReconnectWorkspace) as Hbs by (left; reflexivity).
  rewrite (resume_unfold env pid Fulfilled x b Hb).
  destruct (at_suspension b) as [| | | | |[|]] eqn:Hsusp; try congruence.
  - eexists. split;
      [apply (lookup_park x pid b Hb),
         (bs_attempts _ _ _ _ _ (bodyStep_afterSessionReconnect env pid b _ x Hbs))|].
    unfold afterSessionReconnect, afterRefresh, callSubscribe.
    rewrite (bool_decide_eq_true_2 _ Hseq). simpl negb. cbv iota.
    repeat case_match; simpl; (split; [split; discriminate | lia]).
  - eexists. split;
      [apply (lookup_park x pid b Hb),
         (bs_attempts _ _ _ _ _ (bodyStep_afterRefresh env pid b _ x Hbs))|].
    unfold afterRefresh, callSubscribe.
    rewrite (bool_decide_eq_true_2 _ Hseq). simpl negb. cbv iota.
    repeat case_match; simpl; (split; [split; discriminate | lia]).
  - eexists. split;
      [apply (lookup_park x pid b Hb),
         (bs_attempts _ _ _ _ _ (bodyStep_afterDedupeUnsubscribe pid b _ x Hbs))|].
    unfold afterDedupeUnsubscribe, callSubscribe. simpl.
    split; [split; discriminate | lia].
  - eexists. split;
      [apply (lookup_park x pid b Hb),
         (bs_attempts _ _ _ _ _ (bodyStep_afterSubscribe pid b x))|].
    unfold afterSubscribe.
    rewrite (bool_decide_eq_true_2 _ Hseq). simpl negb. cbv iota. simpl.
    split; [split; discriminate | lia].
  - exists (Settled true). rewrite <- Hsusp, withSuspension_same.
    split; [exact Hb|]. rewrite Hsusp. split; [split; discriminate | simpl; lia].
Qed.

(** Over a run in which no call of the attempt is rejected and the
    sequence is not advanced, the attempt stays on course and each resolved
    call takes one await off what it has left. *)
Lemma on_course_run (pid : nat) (ops : list (Env * Operation)) :
  forall (x : State) (b : Attempt),
    reachable x -> attempts x !! pid = Some b -> onCourse (at_suspension b) ->
    rejectedIn pid ops = 0%nat ->
    reconnectSequence (run ops x) = at_sequence b ->
    exists susp,
      attempts (run ops x) !! pid = Some (withSuspension b susp)
      /\ onCourse susp
      /\ (awaitsLeft susp
          <= awaitsLeft (at_suspension b) - fulfilledIn pid ops)%nat.
Proof.
  induction ops as [|[env op] rest IH]; intros x b Hreach Hb Hon Hrej Hseq.
  - exists (at_suspension b). rewrite withSuspension_same.
    split; [exact Hb|]. split; [exact Hon|]. unfold fulfilledIn. simpl. lia.
  - simpl run in *.
    assert (at_sequence b = reconnectSequence x) as Hcur.
    { pose proof (inv_sequence x (reachable_Inv x Hreach) pid b Hb).
      pose proof (reconnectSequence_run rest (step env op x)).
      destruct (reconnectSequence_step env op x); lia. }
    assert (reachable (step env op x)) as Hreach' by now constructor.
    rewrite fulfilledIn_cons. rewrite rejectedIn_cons in Hrej.
    destruct (settle_cases pid env op)
      as [(-> & -> & Hr)|[(_ & _ & Hr)|(Hno & -> & Hr)]];
      rewrite Hr in Hrej; try discriminate; simpl in Hrej.
    + destruct (resume_on_course env pid x b Hb Hcur Hon)
        as (susp1 & H1 & Hon1 & Hle1).
      destruct (IH _ (withSuspension b susp1) Hreach' H1 Hon1 Hrej Hseq)
        as (susp & H2 & Hon2 & Hle2).
      exists susp. split; [exact H2|]. split; [exact Hon2|].
      simpl in Hle2. lia.
    + destruct (standsStill_step env op pid x b Hb (or_intror Hno))
        as (_ & Hsame & _).
      rewrite Hb in Hsame.
      destruct (IH _ b Hreach' Hsame Hon Hrej Hseq) as (susp & H2 & Hon2 & Hle2).
      exists susp. split; [exact H2|]. split; [exact Hon2|]. simpl. lia.
Qed.

(** An attempt that has used up its awaits and is on course has resolved
    true. *)
Lemma onCourse_done (susp : Suspension) :
  onCourse susp -> awaitsLeft susp = 0%nat -> susp = Settled true.
Proof.
  intros [Hnf _]. destruct susp as [| | | | |[|]]; simpl; try discriminate;
    [reflexivity | contradiction].
Qed.

(** *** An attempt given up before its subscribe call *)

Lemma resume_rejected_early (env : Env) (pid : nat) (x : State) (b : Attempt) :
  attempts x !! pid = Some b ->
  at_suspension b = AwaitReconnectWorkspace
  \/ at_suspension b = AwaitRefreshThread ->
  attempts (resume env pid Rejected x) !! pid
  = Some (withSuspension b (Settled false))
  /\ calls (resume env pid Rejected x) = calls x.
Proof.
  intros Hb Hsusp. rewrite (resume_unfold env pid Rejected x b Hb).
  assert (attempts (park pid b (onRejected b x)) !! pid
          = Some (withSuspension b (Settled false))
          /\ calls (park pid b (onRejected b x)) = calls x) as Hpark.
  { unfold onRejected. case_bool_decide.
    - split;
        [apply (lookup_park x pid b Hb (reconcileDisconnectedState x, Settled false));
         simpl; now autorewrite with coord|].
      unfold park. simpl snd. simpl fst. cbv iota. autorewrite with coord.
      simpl. now autorewrite with coord.
    - split; [now apply (lookup_park x pid b Hb (x, Settled false))|].
      unfold park. simpl snd. simpl fst. cbv iota. autorewrite with coord.
      simpl. now autorewrite with coord. }
  destruct Hsusp as [-> | ->]; exact Hpark.
Qed.

(** *** The shared attempt *)

(** C1 (amended): while an attempt for (w, t) is unresolved and the sequence
    has not advanced since it started, a call [reconnectLive w t o2] that
    passes the initial checks resolves with the promise of that attempt; it
    starts no attempt and calls no collaborator, it only sets the desired
    key. Whatever happens next, that one attempt issues at most one
    subscribe call, for (w, t), and the count follows where the attempt
    stands. When none of its awaited calls is rejected and the sequence
    does not advance, the attempt never gives up, each of its calls that
    resolves takes it at least one await further, and once as many have
    resolved as it had awaits left it has resolved true with exactly one
    subscribe call issued. When its session reconnect or its
    refresh is rejected, or settles after the sequence has advanced, it
    resolves false and no subscribe call of it is ever issued. Once its
    subscribe call is issued, the count stays at one. *)
Theorem reconnectLive_coalesces (env : Env) (options : option ReconnectOptions)
  (s : State) (pid : nat) (a : Attempt) (ops : list (Env * Operation)) :
  let shared := setDesiredSubscriptionKey (Some (at_targetKey a)) s in
  let later := run ops shared in
  reachable s ->
  attempts s !! pid = Some a -> isPending a = true ->
  at_sequence a = reconnectSequence s ->
  passesChecks (at_workspaceId a) (at_threadId a) s ->
  reconnectLive env (at_workspaceId a) (at_threadId a) options s
  = (shared, AttemptPromise pid)
  /\ (subscribesBy pid later <= 1)%nat
  /\ (exists susp,
        attempts later !! pid = Some (withSuspension a susp)
        /\ subscribeCount susp (subscribesBy pid later))
  /\ (forall w t,
        (Some pid, ThreadLiveSubscribe w t) ∈ calls later ->
        w = at_workspaceId a /\ t = at_threadId a)
  /\ (rejectedIn pid ops = 0%nat ->
      reconnectSequence later = reconnectSequence s ->
      (exists susp,
         attempts later !! pid = Some (withSuspension a susp) /\ onCourse susp
         /\ (awaitsLeft susp
             <= awaitsLeft (at_suspension a) - fulfilledIn pid ops)%nat)
      /\ ((awaitsLeft (at_suspension a) <= fulfilledIn pid ops)%nat ->
          attempts later !! pid = Some (withSuspension a (Settled true))
          /\ subscribesBy pid later = 1%nat))
  /\ (forall (env' : Env) (o : Outcome) (ops' : list (Env * Operation))
        (susp : Suspension),
        attempts later !! pid = Some (withSuspension a susp) ->
        susp = AwaitReconnectWorkspace \/ susp = AwaitRefreshThread ->
        o = Rejected \/ reconnectSequence later <> at_sequence a ->
        attempts (run ops' (resume env' pid o later)) !! pid
        = Some (withSuspension a (Settled false))
        /\ subscribesBy pid (run ops' (resume env' pid o later)) = 0%nat)
  /\ (forall ops' : list (Env * Operation),
        (1 <= subscribesBy pid later)%nat ->
        subscribesBy pid (run ops' later) = 1%nat).
Proof.
  intros shared later Hreach Ha Hpend Hseq Hchecks.
  pose proof (reachable_Inv s Hreach) as HI.
  assert (reconnectLive env (at_workspaceId a) (at_threadId a) options s
          = (shared, AttemptPromise pid)) as Hcall.
  { unfold reconnectLive. rewrite (passesChecks_guard _ _ s Hchecks).
    simpl inFlightReconnect.
    rewrite (inv_current s HI pid a Ha Hpend Hseq). simpl.
    rewrite <- (inv_key s HI pid a Ha), Hseq.
    now rewrite !bool_decide_eq_true_2. }
  split; [exact Hcall|].
  assert (reachable shared) as Hreach1.
  { replace shared
      with (step env (OpReconnectLive (at_workspaceId a) (at_threadId a) options) s)
      by (simpl; now rewrite Hcall).
    now constructor. }
  assert (reachable later) as Hreach' by now apply reachable_run.
  pose proof (reachable_Inv _ Hreach') as HI'.
  assert (attempts shared !! pid = Some a) as Ha1 by exact Ha.
  destruct (attemptsKept_run ops shared pid a Ha1) as (susp & Ha').
  fold later in Ha'.
  pose proof (inv_subscribes _ HI' pid _ Ha') as Hcount. simpl in Hcount.
  split; [now apply (subscribeCount_le susp)|].
  split; [exists susp; split; assumption|].
  split.
  { intros w t Hin.
    pose proof (inv_owned _ HI') as Hown.
    rewrite Forall_forall in Hown. specialize (Hown _ Hin).
    destruct Hown as (x & Hx & Hof). simpl in Hx, Hof.
    rewrite Ha' in Hx. injection Hx as <-. exact Hof. }
  split.
  { intros Hrej Hsame.
    assert (onCourse (at_suspension a)) as Hon.
    { split.
      - intros Hs. unfold isPending in Hpend. now rewrite Hs in Hpend.
      - intros Hs.
        pose proof (reachable_cleanupIsStale s Hreach pid a Ha Hs). lia. }
    assert (reconnectSequence (run ops shared) = at_sequence a) as Hend
      by (fold later; congruence).
    destruct (on_course_run pid ops shared a Hreach1 Ha1 Hon Hrej Hend)
      as (susp' & Hat & Hon' & Hle).
    fold later in Hat.
    split; [exists susp'; split; [exact Hat | split; [exact Hon' | exact Hle]]|].
    intros Henough.
    assert (susp' = Settled true) as -> by (apply onCourse_done; [assumption | lia]).
    split; [exact Hat|].
    pose proof (inv_subscribes _ HI' pid _ Hat) as Hone. exact Hone. }
  split.
  { intros env' o ops' susp0 Hat Hearly Hwhy.
    pose proof (inv_subscribes _ HI' pid _ Hat) as Hzero. simpl in Hzero.
    assert (subscribesBy pid later = 0%nat) as Hnone
      by (destruct Hearly as [-> | ->]; exact Hzero).
    assert (attempts (resume env' pid o later) !! pid
            = Some (withSuspension a (Settled false))
            /\ calls (resume env' pid o later) = calls later) as [Hgone Hcalls].
    { destruct (decide (reconnectSequence later = at_sequence a)) as [Hcur|Hstale].
      - destruct Hwhy as [-> | Hne]; [|contradiction].
        apply (resume_rejected_early env' pid later _ Hat). exact Hearly.
      - destruct (stale_before_subscribe env' later pid _ Hat
                    (fun H => Hstale (eq_sym H)) o Hearly) as (H1 & H2 & _).
        split; assumption. }
    destruct (settled_run pid _ ops' _ Hgone eq_refl) as [Hstay Hsame].
    split; [exact Hstay|].
    rewrite Hsame. unfold subscribesBy in *. now rewrite Hcalls. }
  intros ops' Hissued.
  assert (is_Some (attempts later !! pid)) as Hsome by eauto.
  pose proof (subscribesBy_run ops' pid later Hsome) as Hmono.
  assert (reachable (run ops' later)) as Hreach'' by now apply reachable_run.
  destruct (attemptsKept_run ops' later pid _ Ha') as (susp'' & Ha'').
  pose proof (inv_subscribes _ (reachable_Inv _ Hreach'') pid _ Ha'') as Hc.
  apply subscribeCount_le in Hc. lia.
Qed.

(** C1, as stated, fails: two coalesced calls do not always end in exactly
    one subscribe call. Both calls below resolve with the promise of
    attempt 0 and the sequence does not move between them; the attempt is
    then aborted before its subscribe step, once because the refresh
    fails, once because the window blurs before the refresh resolves. In
    both runs no subscribe call is ever issued. *)
Lemma coalesced_calls_without_subscribe_counterexample :
  let s0 := initialState Scenario.idle in
  let call1 := reconnectLive Scenario.foreground "ws-1" "thread-1"
                 Scenario.withResume s0 in
  let call2 := reconnectLive Scenario.foreground "ws-1" "thread-1"
                 Scenario.withResume (fst call1) in
  let failed := resume Scenario.foreground 0 Rejected (fst call2) in
  let blurred :=
    resume Scenario.foreground 0 Fulfilled (handleBlur (fst call2)) in
  snd call1 = AttemptPromise 0 /\ snd call2 = AttemptPromise 0
  /\ at_suspension <$> attempts (fst call2) !! 0%nat = Some AwaitRefreshThread
  /\ reconnectSequence (fst call2) = reconnectSequence (fst call1)
  /\ at_suspension <$> attempts failed = [Settled false]
  /\ calls failed = [(Some 0%nat, RefreshThread "ws-1" "thread-1")]
  /\ at_suspension <$> attempts blurred = [Settled false]
  /\ calls blurred = [(Some 0%nat, RefreshThread "ws-1" "thread-1")].
Proof. vm_compute. repeat split; reflexivity. Qed.

Lemma reconnectLive_coalesces_witness :
  let e := Scenario.foreground in
  let s := fst (reconnectLive e "ws-1" "thread-1" Scenario.withResume
                  (initialState Scenario.idle)) in
  let a := mkAttempt "ws-1" "thread-1" "ws-1:thread-1" Scenario.withResume
             1 AwaitRefreshThread in
  let ops := [(e, OpSettle 0 Fulfilled); (e, OpSettle 0 Fulfilled);
              (e, OpSettle 0 Fulfilled)] in
  let later := run ops (setDesiredSubscriptionKey (Some (at_targetKey a)) s) in
  reachable s
  /\ reconnectLive e "ws-1" "thread-1" Scenario.withResume s
     = (setDesiredSubscriptionKey (Some (at_targetKey a)) s, AttemptPromise 0)
  /\ attempts later !! 0%nat = Some (withSuspension a (Settled true))
  /\ subscribesBy 0 later = 1%nat.
Proof.
  intros e s a ops later.
  assert (reachable s) as Hreach
    by apply (reachable_step e (OpReconnectLive "ws-1" "thread-1" Scenario.withResume)
                _ (reachable_init Scenario.idle)).
  split; [exact Hreach|].
  assert (attempts s !! 0%nat = Some a) as Ha by (vm_compute; reflexivity).
  assert (isPending a = true) as Hpend by reflexivity.
  assert (at_sequence a = reconnectSequence s) as Hseq by (vm_compute; reflexivity).
  assert (passesChecks (at_workspaceId a) (at_threadId a) s) as Hchecks
    by (repeat split; try discriminate; vm_compute; now eexists).
  assert (rejectedIn 0 ops = 0%nat) as Hrej by reflexivity.
  assert (reconnectSequence later = reconnectSequence s) as Hsame
    by (vm_compute; reflexivity).
  assert (awaitsLeft (at_suspension a) <= fulfilledIn 0 ops)%nat as Henough
    by (vm_compute; lia).
  pose proof (reconnectLive_coalesces e Scenario.withResume s 0 a ops Hreach Ha
                Hpend Hseq Hchecks) as (Hcall & _ & _ & _ & Hgood & _).
  split; [exact Hcall|].
  exact (proj2 (Hgood Hrej Hsame) Henough).
Defined.

(** ** Blur while a subscribe call is pending *)

Lemma desiredSubscriptionKey_handleBlur (s : State) :
  desiredSubscriptionKey (handleBlur s) = None.
Proof.
  unfold handleBlur. repeat case_match; autorewrite with coord; reflexivity.
Qed.

(** C2, as stated, fails: the window blurs while the subscribe call of
    attempt 0 for [ws-1:thread-1] is pending, then gains focus again before
    that call resolves, which asks for the same key again (attempt 1). When
    the first subscribe call resolves, attempt 0 resolves false and issues
    no unsubscribe: no unsubscribe call is in the log. *)
Lemma blur_then_focus_no_unsubscribe_counterexample :
  let e := Scenario.foreground in
  let s1 := run [(e, OpMount); (e, OpSettle 0 Fulfilled)]
              (initialState Scenario.selected) in
  let s2 := run [(e, OpBlur); (e, OpFocus)] s1 in
  let s3 := step e (OpSettle 0 Fulfilled) s2 in
  at_suspension <$> attempts s1 = [AwaitSubscribe]
  /\ at_suspension <$> attempts s2 = [AwaitSubscribe; AwaitRefreshThread]
  /\ at_suspension <$> attempts s3 = [Settled false; AwaitRefreshThread]
  /\ calls s3 = [(Some 0%nat, RefreshThread "ws-1" "thread-1");
                 (Some 0%nat, ThreadLiveSubscribe "ws-1" "thread-1");
                 (Some 1%nat, RefreshThread "ws-1" "thread-1")]
  /\ List.filter isUnsubscribe (calls s3) = [].
Proof. vm_compute. repeat split; reflexivity. Qed.

(** C2 (amended): when a blur (or a change to hidden) occurs while the
    subscribe call of an attempt for key K is pending, then, whatever
    happens in between, once that call resolves the attempt does not touch
    the active key and resolves false: at once and with no unsubscribe
    when K is the desired key again at that time, after issuing an
    unsubscribe for K when it is not. Right after the blur the desired key
    is empty, so without a new request for K the unsubscribe is issued. *)
Theorem blur_cancels_pending_subscribe (env env' : Env) (o : Outcome)
  (s : State) (pid : nat) (a : Attempt) (ops : list (Env * Operation)) :
  let s1 := run ops (handleBlur s) in
  let s2 := resume env pid Fulfilled s1 in
  let s3 := resume env' pid o s2 in
  reachable s ->
  attempts s !! pid = Some a -> at_suspension a = AwaitSubscribe ->
  attempts s1 !! pid = Some a ->
  desiredSubscriptionKey (handleBlur s) = None
  /\ activeSubscriptionKey s2 = activeSubscriptionKey s1
  /\ (desiredSubscriptionKey s1 = Some (at_targetKey a) ->
      attempts s2 !! pid = Some (withSuspension a (Settled false))
      /\ calls s2 = calls s1)
  /\ (desiredSubscriptionKey s1 <> Some (at_targetKey a) ->
      attempts s2 !! pid = Some (withSuspension a AwaitStaleUnsubscribe)
      /\ calls s2
         = (calls s1
            ++ [(Some pid,
                 ThreadLiveUnsubscribe (at_workspaceId a) (at_threadId a))])%list
      /\ attempts s3 !! pid = Some (withSuspension a (Settled false))
      /\ calls s3 = calls s2
      /\ activeSubscriptionKey s3 = activeSubscriptionKey s1).
Proof.
  intros s1 s2 s3 Hreach Ha Hsusp Ha1.
  assert (at_sequence a <> reconnectSequence s1) as Hstale.
  { pose proof (inv_sequence s (reachable_Inv s Hreach) pid a Ha) as Hle.
    pose proof (reconnectSequence_run ops (handleBlur s)) as Hrun.
    rewrite reconnectSequence_handleBlur in Hrun. fold s1 in Hrun. lia. }
  destruct (stale_after_subscribe env s1 pid a Ha1 Hstale Hsusp)
    as (Hactive & Hsame & Hother).
  split; [apply desiredSubscriptionKey_handleBlur|].
  split; [exact Hactive|].
  split; [exact Hsame|].
  intros Hd. destruct (Hother Hd) as (Ha2 & Hcalls2).
  destruct (stale_cleanup_done env' s2 pid _ Ha2 o eq_refl)
    as (Ha3 & Hcalls3 & Hactive3).
  repeat split; try assumption. unfold s3. now rewrite Hactive3.
Qed.

Lemma blur_cancels_pending_subscribe_witness :
  let e := Scenario.foreground in
  let s := fst (reconnectLive e "ws-1" "thread-1" Scenario.withoutResume
                  (initialState Scenario.idle)) in
  let s2 := resume e 0 Fulfilled (handleBlur s) in
  reachable s
  /\ calls s2 = [(Some 0%nat, ThreadLiveSubscribe "ws-1" "thread-1");
                 (Some 0%nat, ThreadLiveUnsubscribe "ws-1" "thread-1")].
Proof.
  set (a := mkAttempt "ws-1" "thread-1" "ws-1:thread-1" Scenario.withoutResume
              1 AwaitSubscribe).
  intros e s s2.
  assert (reachable s) as Hreach
    by apply (reachable_step e
                (OpReconnectLive "ws-1" "thread-1" Scenario.withoutResume)
                _ (reachable_init Scenario.idle)).
  split; [exact Hreach|].
  pose proof (blur_cancels_pending_subscribe e e Fulfilled s 0 a [] Hreach
                eq_refl eq_refl eq_refl) as (_ & _ & _ & Hother).
  assert (desiredSubscriptionKey (run [] (handleBlur s)) <> Some (at_targetKey a))
    as Hd by discriminate.
  exact (proj1 (proj2 (Hother Hd))).
Defined.

(** ** A request for another key *)

Lemma desiredSubscriptionKey_afterSessionReconnect (env : Env) (pid : nat)
  (a : Attempt) (s : State) :
  desiredSubscriptionKey (fst (afterSessionReconnect env pid a s))
  = desiredSubscriptionKey s.
Proof.
  unfold afterSessionReconnect, afterRefresh, callSubscribe.
  repeat case_match; reflexivity.
Qed.

Lemma desiredSubscriptionKey_startAttempt (env : Env) (w t key : string)
  (options : option ReconnectOptions) (s : State) :
  desiredSubscriptionKey (fst (startAttempt env w t key options s)) = Some key.
Proof.
  unfold startAttempt. simpl fst.
  match goal with |- context [attemptStart ?e ?p ?a ?s2] =>
    assert (desiredSubscriptionKey (fst (attemptStart e p a s2)) = Some key) as Hd
      by (unfold attemptStart; repeat case_match;
          rewrite ?desiredSubscriptionKey_afterSessionReconnect; reflexivity);
    destruct (snd (attemptStart e p a s2)) end;
    autorewrite with coord; simpl; exact Hd.
Qed.

Lemma desiredSubscriptionKey_reconnectLive (env : Env) (w t : string)
  (options : option ReconnectOptions) (s : State) :
  passesChecks w t s ->
  desiredSubscriptionKey (fst (reconnectLive env w t options s))
  = Some (keyForThread w t).
Proof.
  intros Hchecks. unfold reconnectLive. rewrite (passesChecks_guard w t s Hchecks).
  simpl inFlightReconnect.
  destruct (inFlightReconnect s) as [f|];
    [case_bool_decide; [case_bool_decide|]|];
    rewrite ?desiredSubscriptionKey_startAttempt; reflexivity.
Qed.

(** A passing request for another key leaves every pending attempt stale. *)
Lemma reconnectLive_other_key_stale (env : Env) (w t : string)
  (options : option ReconnectOptions) (s : State) (pid : nat) (a : Attempt) :
  Inv s -> attempts s !! pid = Some a -> isPending a = true ->
  keyForThread w t <> at_targetKey a -> passesChecks w t s ->
  at_sequence a < reconnectSequence (fst (reconnectLive env w t options s)).
Proof.
  intros HI Ha Hpend Hkey Hchecks.
  pose proof (inv_sequence s HI pid a Ha) as Hle.
  destruct (decide (at_sequence a = reconnectSequence s)) as [Hcur|Hold].
  - pose proof (inv_current s HI pid a Ha Hpend Hcur) as Hfl.
    unfold reconnectLive. rewrite (passesChecks_guard w t s Hchecks).
    simpl inFlightReconnect. rewrite Hfl. simpl if_key.
    rewrite bool_decide_eq_false_2 by congruence.
    rewrite reconnectSequence_startAttempt. simpl. lia.
  - destruct (reconnectSequence_reconnectLive env w t options s) as [-> | ->]; lia.
Qed.

Lemma resume_after_dedupe (env : Env) (o : Outcome) (s : State) (pid : nat)
  (a : Attempt) :
  attempts s !! pid = Some a -> at_suspension a = AwaitDedupeUnsubscribe ->
  attempts (resume env pid o s) !! pid = Some (withSuspension a AwaitSubscribe)
  /\ calls (resume env pid o s)
     = (calls s
        ++ [(Some pid, ThreadLiveSubscribe (at_workspaceId a) (at_threadId a))])%list.
Proof.
  intros Ha Hsusp. rewrite (resume_unfold env pid o s a Ha), Hsusp.
  destruct o; (split; [now apply (lookup_park s)|]); reflexivity.
Qed.


(** C4, as stated, fails: attempt 0, for [ws-1:thread-1], awaits its
    refresh when [reconnectLive] is called for [ws-1:thread-2]. When the
    refresh resolves, attempt 0 resolves false at the staleness check that
    follows it: it never calls subscribe and never gets to the check of the
    desired key after the subscribe. *)
Lemma other_key_stops_attempt_early_counterexample :
  let e := Scenario.foreground in
  let s1 := step e OpMount (initialState Scenario.selected) in
  let s2 := step e (OpReconnectLive "ws-1" "thread-2" Scenario.withResume) s1 in
  let s3 := step e (OpSettle 0 Fulfilled) s2 in
  at_suspension <$> attempts s1 = [AwaitRefreshThread]
  /\ at_suspension <$> attempts s2 = [AwaitRefreshThread; AwaitRefreshThread]
  /\ at_suspension <$> attempts s3 = [Settled false; AwaitRefreshThread]
  /\ subscribesBy 0 s3 = 0%nat
  /\ calls s3 = [(Some 0%nat, RefreshThread "ws-1" "thread-1");
                 (Some 1%nat, RefreshThread "ws-1" "thread-2")].
Proof. vm_compute. repeat split; reflexivity. Qed.

(** C4 (amended): a [reconnectLive] call for another key B that passes the
    initial checks does not touch a pending attempt for key A: A stays
    suspended where it was. It sets the desired key to B and leaves A with
    a sequence number below the current one, so A gives up at the first
    staleness check it meets: if its session reconnect or refresh was
    pending, A resolves false when that settles, without subscribing; if
    its dedupe unsubscribe was pending, A goes on to subscribe; if its
    subscribe call was pending, A resolves false once that resolves,
    leaving the active key alone, after an unsubscribe for A exactly when
    the desired key is not A at that time. *)
Theorem other_key_request_makes_attempt_stale (env env' : Env) (o : Outcome)
  (options : option ReconnectOptions) (wB tB : string) (s : State)
  (pid : nat) (a : Attempt) (ops : list (Env * Operation)) :
  let s1 := fst (reconnectLive env wB tB options s) in
  let s2 := run ops s1 in
  let settled := resume env' pid o s2 in
  let subscribed := resume env' pid Fulfilled s2 in
  reachable s ->
  attempts s !! pid = Some a -> isPending a = true ->
  keyForThread wB tB <> at_targetKey a -> passesChecks wB tB s ->
  attempts s2 !! pid = Some a ->
  attempts s1 !! pid = Some a
  /\ desiredSubscriptionKey s1 = Some (keyForThread wB tB)
  /\ at_sequence a < reconnectSequence s2
  /\ (at_suspension a = AwaitReconnectWorkspace
      \/ at_suspension a = AwaitRefreshThread ->
      attempts settled !! pid = Some (withSuspension a (Settled false))
      /\ calls settled = calls s2
      /\ activeSubscriptionKey settled = activeSubscriptionKey s2)
  /\ (at_suspension a = AwaitDedupeUnsubscribe ->
      attempts settled !! pid = Some (withSuspension a AwaitSubscribe)
      /\ calls settled
         = (calls s2
            ++ [(Some pid,
                 ThreadLiveSubscribe (at_workspaceId a) (at_threadId a))])%list)
  /\ (at_suspension a = AwaitSubscribe ->
      activeSubscriptionKey subscribed = activeSubscriptionKey s2
      /\ (desiredSubscriptionKey s2 = Some (at_targetKey a) ->
          attempts subscribed !! pid = Some (withSuspension a (Settled false))
          /\ calls subscribed = calls s2)
      /\ (desiredSubscriptionKey s2 <> Some (at_targetKey a) ->
          attempts subscribed !! pid
          = Some (withSuspension a AwaitStaleUnsubscribe)
          /\ calls subscribed
             = (calls s2
                ++ [(Some pid,
                     ThreadLiveUnsubscribe (at_workspaceId a) (at_threadId a))])%list)).
Proof.
  intros s1 s2 settled subscribed Hreach Ha Hpend Hkey Hchecks Ha2.
  pose proof (reachable_Inv s Hreach) as HI.
  assert (at_sequence a < reconnectSequence s2) as Hlt.
  { pose proof (reconnectLive_other_key_stale env wB tB options s pid a
                  HI Ha Hpend Hkey Hchecks) as H1.
    pose proof (reconnectSequence_run ops s1) as H2. fold s1 in H1. fold s2 in H2.
    lia. }
  assert (at_sequence a <> reconnectSequence s2) as Hstale by lia.
  split.
  { unfold s1.
    destruct (attempts_reconnectLive env wB tB options s) as [->|(x & ->)];
      [assumption | now apply lookup_app_l_Some]. }
  split; [now apply desiredSubscriptionKey_reconnectLive|].
  split; [exact Hlt|].
  split; [now apply stale_before_subscribe|].
  split; [now apply resume_after_dedupe|].
  now apply stale_after_subscribe.
Qed.


Lemma other_key_request_makes_attempt_stale_witness :
  let e := Scenario.foreground in
  let s := step e OpMount (initialState Scenario.selected) in
  let a := mkAttempt "ws-1" "thread-1" "ws-1:thread-1" Scenario.withResume
             1 AwaitRefreshThread in
  let s1 := fst (reconnectLive e "ws-1" "thread-2" Scenario.withResume s) in
  reachable s
  /\ attempts (resume e 0 Fulfilled (run [] s1)) !! 0%nat
     = Some (withSuspension a (Settled false)).
Proof.
  intros e s a s1.
  assert (reachable s) as Hreach
    by apply (reachable_step e OpMount _ (reachable_init Scenario.selected)).
  split; [exact Hreach|].
  assert (attempts s !! 0%nat = Some a) as Ha by (vm_compute; reflexivity).
  assert (isPending a = true) as Hpend by reflexivity.
  assert (keyForThread "ws-1" "thread-2" <> at_targetKey a) as Hkey
    by (vm_compute; discriminate).
  assert (passesChecks "ws-1" "thread-2" s) as Hchecks
    by (repeat split; try (vm_compute; discriminate); vm_compute; now eexists).
  assert (attempts (run [] s1) !! 0%nat = Some a) as Ha2
    by (vm_compute; reflexivity).
  pose proof (other_key_request_makes_attempt_stale e e Fulfilled
                Scenario.withResume "ws-1" "thread-2" s 0 a [] Hreach
                Ha Hpend Hkey Hchecks Ha2)
    as (_ & _ & _ & Hearly & _).
  exact (proj1 (Hearly (or_intror eq_refl))).
Defined.

(** ** Detach notifications *)

Lemma setIgnoreDetachedEventsUntil_same (s : State) :
  setIgnoreDetachedEventsUntil (ignoreDetachedEventsUntil s) s = s.
Proof. now destruct s. Qed.

Lemma truthy_true (x : string) : x <> "" -> Js.truthy x = true.
Proof.
  intros Hx. unfold Js.truthy. now destruct (String.eqb_spec x "").
Qed.

(** The handler gets to the detach branch: the event is for the selected
    workspace and thread. *)
Lemma onAppServerEvent_detached (env : Env) (event : AppServerEvent)
  (s : State) (w : WorkspaceInfo) (t : string) :
  activeWorkspace s = Some w -> ws_id w <> "" ->
  activeThreadId s = Some t -> t <> "" ->
  ev_workspace_id event = ws_id w ->
  ev_method event = Some "thread/live_detached" ->
  extractThreadId "thread/live_detached" (ev_params event) = Some t ->
  onAppServerEvent env event s = onLiveDetached env (ws_id w) t s.
Proof.
  intros Hw Hwid Ht Htid Hev Hm Hx. unfold onAppServerEvent.
  rewrite Hm, Hw, Ht. simpl. rewrite (truthy_true _ Hwid), (truthy_true _ Htid).
  rewrite Hev, String.eqb_refl. simpl. rewrite Hx.
  now rewrite bool_decide_eq_true_2.
Qed.

(** What an unsuppressed detach leaves behind before it asks for a
    reconnect: the entry for the key is gone, the active key is cleared and
    the connection state is the resting state. *)
Lemma detached_state (key : string) (s : State) :
  let detached :=
    reconcileDisconnectedState
      (setActiveSubscriptionKey None
         (setIgnoreDetachedEventsUntil
            (delete key (ignoreDetachedEventsUntil s)) s)) in
  ignoreDetachedEventsUntil detached = delete key (ignoreDetachedEventsUntil s)
  /\ activeSubscriptionKey detached = None
  /\ connectionState detached = restingState (backendMode s) (activeWorkspace s)
  /\ attempts detached = attempts s /\ calls detached = calls s
  /\ reconnectSequence detached = reconnectSequence s
  /\ desiredSubscriptionKey detached = desiredSubscriptionKey s
  /\ inFlightReconnect detached = inFlightReconnect s
  /\ backendMode detached = backendMode s
  /\ activeWorkspace detached = activeWorkspace s
  /\ hasReconnectWorkspace detached = hasReconnectWorkspace s.
Proof.
  intros detached. unfold detached. rewrite connectionState_reconcile.
  autorewrite with coord. repeat split.
Qed.

(** C3: a [thread/live_detached] event for the selected key K. When the
    map holds an entry for K that is not in the past, the entry is deleted
    and nothing else changes: no state change, no call, no attempt. When
    the entry is absent or in the past, the event is not suppressed: an
    expired entry is dropped, the active key is cleared, the connection
    state becomes the resting state, and [reconnectLive] is called with
    [runResume: true] exactly when the document is visible and the window
    focused. Without that call (or outside remote mode, where the call
    gives up at once) no attempt is started, nothing is called, and the
    sequence, the desired key and the in-flight record stay as they were.
    With it, in remote mode, K becomes the desired key; the call joins an
    in-flight attempt for K whose sequence is current, and otherwise starts
    a new attempt with [runResume: true], which advances the sequence,
    becomes the in-flight record, and is suspended on its first call: the
    session reconnect when the workspace is not connected, the refresh
    otherwise. *)
Theorem live_detached_suppression (env : Env) (event : AppServerEvent)
  (s : State) (w : WorkspaceInfo) (t : string) :
  let key := keyForThread (ws_id w) t in
  let forgotten :=
    setIgnoreDetachedEventsUntil (delete key (ignoreDetachedEventsUntil s)) s in
  let detached :=
    reconcileDisconnectedState (setActiveSubscriptionKey None forgotten) in
  let resuming := Some (mkReconnectOptions (Some true)) in
  let after := onAppServerEvent env event s in
  let pid := List.length (attempts s) in
  let reconnects := negb (ws_connected w) && hasReconnectWorkspace s in
  reachable s ->
  activeWorkspace s = Some w -> ws_id w <> "" ->
  activeThreadId s = Some t -> t <> "" ->
  ev_workspace_id event = ws_id w ->
  ev_method event = Some "thread/live_detached" ->
  extractThreadId "thread/live_detached" (ev_params event) = Some t ->
  (forall v, ignoreDetachedEventsUntil s !! key = Some v -> (now env <= v)%N ->
     after = forgotten)
  /\ (ignoreDetachedEventsUntil s !! key = None
      \/ (exists v, ignoreDetachedEventsUntil s !! key = Some v
                    /\ (v < now env)%N) ->
      after
      = (if visible env && focused env
         then fst (reconnectLive env (ws_id w) t resuming detached)
         else detached)
      /\ ignoreDetachedEventsUntil after
         = delete key (ignoreDetachedEventsUntil s)
      /\ activeSubscriptionKey after = None
      /\ connectionState after
         = restingState (backendMode s) (activeWorkspace s)
      /\ (visible env && focused env = false \/ backendMode s <> "remote" ->
          attempts after = attempts s /\ calls after = calls s
          /\ reconnectSequence after = reconnectSequence s
          /\ desiredSubscriptionKey after = desiredSubscriptionKey s
          /\ inFlightReconnect after = inFlightReconnect s)
      /\ (visible env && focused env = true -> backendMode s = "remote" ->
          desiredSubscriptionKey after = Some key
          /\ (forall f, inFlightReconnect s = Some f -> if_key f = key ->
                if_sequence f = reconnectSequence s ->
                attempts after = attempts s /\ calls after = calls s
                /\ reconnectSequence after = reconnectSequence s
                /\ inFlightReconnect after = inFlightReconnect s)
          /\ ((forall f, inFlightReconnect s = Some f -> if_key f = key ->
                 if_sequence f <> reconnectSequence s) ->
              attempts after
              = (attempts s
                 ++ [mkAttempt (ws_id w) t key resuming (reconnectSequence s + 1)
                       (if reconnects then AwaitReconnectWorkspace
                        else AwaitRefreshThread)])%list
              /\ calls after
                 = (calls s
                    ++ [(Some pid,
                         if reconnects then ReconnectWorkspace w
                         else RefreshThread (ws_id w) t)])%list
              /\ reconnectSequence after = reconnectSequence s + 1
              /\ inFlightReconnect after
                 = Some (mkInFlight key (reconnectSequence s + 1) pid)))).
Proof.
  intros key forgotten detached resuming after pid reconnects
         Hreach Hw Hwid Ht Htid Hev Hm Hx.
  unfold after.
  rewrite (onAppServerEvent_detached env event s w t Hw Hwid Ht Htid Hev Hm Hx).
  pose proof (reachable_Inv s Hreach) as HI.
  split.
  - unfold onLiveDetached. fold key.
    intros v Hv Hnow. rewrite Hv. simpl default.
    pose proof (inv_ignore s HI key v Hv) as Hpos.
    destruct (N.ltb_spec 0 v); [|lia].
    destruct (N.leb_spec (now env) v); [|lia]. reflexivity.
  - intros Hentry.
    assert (onLiveDetached env (ws_id w) t s
            = (if visible env && focused env
               then fst (reconnectLive env (ws_id w) t resuming detached)
               else detached)) as ->.
    { unfold onLiveDetached. fold key.
      destruct Hentry as [Hnone|(v & Hv & Hpast)].
      - rewrite Hnone. simpl default. simpl.
        unfold detached, forgotten. rewrite (delete_id _ _ Hnone).
        now rewrite setIgnoreDetachedEventsUntil_same.
      - rewrite Hv. simpl default.
        pose proof (inv_ignore s HI key v Hv) as Hpos.
        destruct (N.ltb_spec 0 v); [|lia].
        destruct (N.leb_spec (now env) v); [lia|]. reflexivity. }
    split; [reflexivity|].
    destruct (detached_state key s)
      as (Dign & Dact & Dconn & Datt & Dcalls & Dseq & Ddes & Dfl & Dmode
          & Dws & Dhas).
    fold forgotten in Dign, Dact, Dconn, Datt, Dcalls, Dseq, Ddes, Dfl, Dmode,
      Dws, Dhas.
    fold detached in Dign, Dact, Dconn, Datt, Dcalls, Dseq, Ddes, Dfl, Dmode,
      Dws, Dhas.
    destruct (visible env && focused env) eqn:Hfront.
    2:{ split; [assumption|]. split; [assumption|]. split; [assumption|].
        split; [intros _; repeat split; assumption | intros [=]]. }
    destruct (decide (backendMode s = "remote")) as [Hmode|Hmode].
    2:{ assert (~ passesChecks (ws_id w) t detached) as Hfail
          by (intros (Hm' & _); rewrite Dmode in Hm'; contradiction).
        rewrite (reconnectLive_failing env (ws_id w) t resuming detached Hfail).
        simpl fst. rewrite connectionState_reconcile, Dmode, Dws.
        autorewrite with coord.
        split; [assumption|]. split; [assumption|]. split; [reflexivity|].
        split; [intros _; repeat split; assumption|].
        intros _ Hm'. contradiction. }
    assert (passesChecks (ws_id w) t detached) as Hchecks.
    { unfold passesChecks. rewrite Dmode, Dws, Hw. repeat split; eauto. }
    assert (restingState (backendMode s) (activeWorkspace s)
            = if ws_connected w then Polling else Disconnected) as Hrest
      by (rewrite Hmode, Hw; apply restingState_remote).
    destruct (reconnectLive_passing env (ws_id w) t resuming detached Hchecks)
      as [(f & Hfl & Hk & Hq & ->)
         |(Hfresh & s0 & -> & H1 & H2 & H3 & H4 & H5 & Hs0)].
    + simpl fst. simpl ignoreDetachedEventsUntil. simpl activeSubscriptionKey.
      simpl connectionState. simpl attempts. simpl calls.
      simpl reconnectSequence. simpl desiredSubscriptionKey.
      simpl inFlightReconnect.
      rewrite Dfl in Hfl. rewrite Dseq in Hq.
      split; [assumption|]. split; [assumption|]. split; [assumption|].
      split; [intros [[=]|Hno]; contradiction|].
      intros _ _. split; [reflexivity|]. split.
      * intros _ _ _ _. repeat split; assumption.
      * intros Hnone. now destruct (Hnone f Hfl Hk).
    + destruct (startAttempt_effect env (ws_id w) t resuming detached s0
                  H1 H2 H3 H4 H5)
        as (_ & Eseq & Efl & Edes & Econn & Eact & _ & _).
      assert (activeWorkspace s0 = Some w) as Hws0 by congruence.
      assert (runResumeOf resuming <> Some false) as Hres by discriminate.
      destruct (startAttempt_resuming env (ws_id w) t resuming s0 w Hws0 Hres)
        as (Eatt & Ecalls & Eign).
      assert (hasReconnectWorkspace s0 = hasReconnectWorkspace s) as Hhas0
        by (destruct Hs0 as [-> | ->]; simpl; exact Dhas).
      assert (ignoreDetachedEventsUntil s0
              = delete key (ignoreDetachedEventsUntil s)) as Hign0
        by (destruct Hs0 as [-> | ->]; simpl; exact Dign).
      rewrite Hhas0, (bool_decide_eq_true_2 _ (eq_refl (ws_id w))),
        andb_true_r in Eatt, Ecalls.
      fold reconnects in Eatt, Ecalls.
      rewrite H1, H2, Datt, Dseq in Eatt. rewrite H1, H3, Datt, Dcalls in Ecalls.
      rewrite Dseq in Eseq, Efl. rewrite Datt in Efl.
      fold key in Eatt, Efl, Edes. fold pid in Ecalls, Efl.
      split; [now rewrite Eign|].
      split; [now rewrite Eact|].
      split; [rewrite Hrest, Econn, Dws, Hw; reflexivity|].
      split; [intros [[=]|Hno]; contradiction|].
      intros _ _. split; [exact Edes|]. split.
      * intros f Hf Hk Hq. exfalso. rewrite <- Dfl in Hf. rewrite <- Dseq in Hq.
        now apply (Hfresh f Hf Hk).
      * intros _. repeat split; assumption.
Qed.

Lemma live_detached_suppression_witness :
  let e := Scenario.foreground in
  let event := Scenario.event "thread/live_detached" "thread-1" in
  let attached := run [(e, OpMount); (e, OpSettle 0 Fulfilled);
                       (e, OpSettle 0 Fulfilled)]
                    (initialState Scenario.selected) in
  let s := run [(e, OpReconnectLive "ws-1" "thread-1" Scenario.withoutResume)]
             attached in
  (reachable s
   /\ ignoreDetachedEventsUntil s !! "ws-1:thread-1" = Some 1771459210000%N
   /\ onAppServerEvent e event s
      = setIgnoreDetachedEventsUntil
          (delete (keyForThread (ws_id Scenario.workspace) "thread-1")
             (ignoreDetachedEventsUntil s)) s)
  /\ (reachable attached
      /\ ignoreDetachedEventsUntil attached !! "ws-1:thread-1" = None
      /\ activeSubscriptionKey attached = Some "ws-1:thread-1"
      /\ activeSubscriptionKey (onAppServerEvent e event attached) = None
      /\ reconnectSequence (onAppServerEvent e event attached)
         = reconnectSequence attached + 1).
Proof.
  intros e event attached s.
  assert (reachable attached) as Hreach0 by apply reachable_run, reachable_init.
  assert (reachable s) as Hreach by apply reachable_run, Hreach0.
  assert (extractThreadId "thread/live_detached" (ev_params event)
          = Some "thread-1") as Hx by (vm_compute; reflexivity).
  assert (ws_id Scenario.workspace <> "") as Hwid by (vm_compute; discriminate).
  assert ("thread-1" <> "") as Htid by discriminate.
  split.
  - assert (ignoreDetachedEventsUntil s !! "ws-1:thread-1"
            = Some 1771459210000%N) as Hentry by (vm_compute; reflexivity).
    split; [exact Hreach|]. split; [exact Hentry|].
    assert (activeWorkspace s = Some Scenario.workspace) as Hw
      by (vm_compute; reflexivity).
    assert (activeThreadId s = Some "thread-1") as Ht
      by (vm_compute; reflexivity).
    pose proof (live_detached_suppression e event s Scenario.workspace
                  "thread-1" Hreach Hw Hwid Ht Htid eq_refl eq_refl Hx)
      as [Hkeep _].
    apply (Hkeep 1771459210000%N).
    + vm_compute; reflexivity.
    + vm_compute; discriminate.
  - assert (ignoreDetachedEventsUntil attached
              !! keyForThread (ws_id Scenario.workspace) "thread-1" = None)
      as Hnone by (vm_compute; reflexivity).
    assert (activeSubscriptionKey attached = Some "ws-1:thread-1") as Hactive
      by (vm_compute; reflexivity).
    split; [exact Hreach0|]. split; [exact Hnone|]. split; [exact Hactive|].
    assert (activeWorkspace attached = Some Scenario.workspace) as Hw
      by (vm_compute; reflexivity).
    assert (activeThreadId attached = Some "thread-1") as Ht
      by (vm_compute; reflexivity).
    assert (backendMode attached = "remote") as Hmode
      by (vm_compute; reflexivity).
    assert (inFlightReconnect attached = None) as Hfl
      by (vm_compute; reflexivity).
    pose proof (live_detached_suppression e event attached Scenario.workspace
                  "thread-1" Hreach0 Hw Hwid Ht Htid eq_refl eq_refl Hx)
      as [_ Hloud].
    destruct (Hloud (or_introl Hnone)) as (_ & _ & Hact & _ & _ & Hfront).
    split; [exact Hact|].
    destruct (Hfront eq_refl Hmode) as (_ & _ & Hnew).
    assert (forall f, inFlightReconnect attached = Some f ->
              if_key f = keyForThread (ws_id Scenario.workspace) "thread-1" ->
              if_sequence f <> reconnectSequence attached) as Hfresh
      by (intros f Hf; rewrite Hfl in Hf; discriminate).
    destruct (Hnew Hfresh) as (_ & _ & Hseq & _). exact Hseq.
Defined.

(** ** The refresh step *)





(** ** Blur *)

(** C6, as stated, fails: a heartbeat makes the state live while the first
    attempt still awaits its refresh, so that no key is active yet; the
    blur that follows leaves the state live, although the resting state
    of a connected workspace in remote mode is polling. *)
Lemma blur_without_active_key_counterexample :
  let e := Scenario.foreground in
  let s := run [(e, OpMount);
                (e, OpAppServerEvent
                      (Scenario.event "thread/live_heartbeat" "thread-1"))]
             (initialState Scenario.selected) in
  activeSubscriptionKey s = None
  /\ connectionState s = Live
  /\ connectionState (step e OpBlur s) = Live
  /\ restingState (backendMode s) (activeWorkspace s) = Polling
  /\ connectionState (reconcileDisconnectedState (step e OpBlur s)) = Polling.
Proof. vm_compute. repeat split; reflexivity. Qed.

(** C6 (amended): every blur, and every visibility change to hidden, adds
    one to the sequence and clears the desired key. When a key is active it
    is cleared, an unsubscribe is issued for the ids it parses to, and the
    connection state is reconciled to the resting state. When no key is
    active the handler stops there: the connection state and the call log
    are left as they were. *)
Theorem handleBlur_effect (s : State) (f : bool) (n : N) :
  step (mkEnv true f n) OpBlur s = handleBlur s
  /\ step (mkEnv false f n) OpBlur s = handleBlur s
  /\ step (mkEnv false f n) OpVisibilityChange s = handleBlur s
  /\ reconnectSequence (handleBlur s) = reconnectSequence s + 1
  /\ desiredSubscriptionKey (handleBlur s) = None
  /\ match activeSubscriptionKey s with
     | Some key =>
         if Js.truthy key then
           activeSubscriptionKey (handleBlur s) = None
           /\ calls (handleBlur s)
              = (calls s
                 ++ match splitKey key with
                    | Some parsed =>
                        [(None, ThreadLiveUnsubscribe (pk_workspaceId parsed)
                                  (pk_threadId parsed))]
                    | None => []
                    end)%list
           /\ connectionState (handleBlur s)
              = restingState (backendMode s) (activeWorkspace s)
         else
           activeSubscriptionKey (handleBlur s) = Some key
           /\ calls (handleBlur s) = calls s
           /\ connectionState (handleBlur s) = connectionState s
     | None =>
         activeSubscriptionKey (handleBlur s) = None
         /\ calls (handleBlur s) = calls s
         /\ connectionState (handleBlur s) = connectionState s
     end.
Proof.
  repeat (split; [reflexivity|]).
  split; [apply reconnectSequence_handleBlur|].
  split; [apply desiredSubscriptionKey_handleBlur|].
  unfold handleBlur. simpl activeSubscriptionKey.
  destruct (activeSubscriptionKey s) as [key|] eqn:Hact;
    [|repeat split; exact Hact].
  destruct (Js.truthy key); simpl negb; cbv iota;
    [|repeat split; exact Hact].
  rewrite connectionState_reconcile. autorewrite with coord. simpl.
  split; [reflexivity|]. split; [|reflexivity].
  unfold unsubscribeByKey. destruct (splitKey key); simpl;
    [reflexivity | now rewrite app_nil_r].
Qed.

(** * Further properties of the hook *)

(** ** Parsing a key *)

(** A string is cut in two at its first [c]. *)
Lemma indexOf_cut (s : string) (c : ascii) :
  0 <= Js.indexOf s c ->
  exists w r, s = w ++ String c r /\ Js.indexOf w c = -1
              /\ Js.indexOf s c = Js.length w.
Proof.
  unfold Js.length.
  induction s as [|a s IH]; simpl; [lia|].
  destruct (Ascii.eqb_spec a c) as [->|Hne].
  - intros _. exists "", s. repeat split.
  - destruct (Z.ltb_spec (Js.indexOf s c) 0) as [Hneg|Hpos]; [lia|].
    intros _. destruct (IH Hpos) as (w & r & -> & Hw & Hlen).
    exists (String a w), r. split; [reflexivity|]. split.
    + simpl. destruct (Ascii.eqb_spec a c); [contradiction|]. now rewrite Hw.
    + simpl String.length. lia.
Qed.

(** X1: what [splitKey] returns formats back to the key it was given; both
    parts are non-empty and the workspace part holds no colon. *)
Theorem splitKey_sound (key : string) (parsed : ParsedKey) :
  splitKey key = Some parsed ->
  keyForThread (pk_workspaceId parsed) (pk_threadId parsed) = key
  /\ pk_workspaceId parsed <> ""
  /\ pk_threadId parsed <> ""
  /\ Js.indexOf (pk_workspaceId parsed) ":"%char = -1.
Proof.
  unfold splitKey.
  destruct (Z.leb_spec (Js.indexOf key ":"%char) 0) as [|Hpos]; [discriminate|].
  destruct (Z.geb_spec (Js.indexOf key ":"%char) (Js.length key - 1)) as [|Hlast];
    [discriminate|].
  simpl. intros [= <-]. simpl.
  destruct (indexOf_cut key ":"%char ltac:(lia)) as (w & r & -> & Hw & Hidx).
  rewrite Hidx in *.
  assert (Js.length (w ++ String ":"%char r) = Js.length w + 1 + Js.length r) as Hlen
    by apply (length_keyForThread w r).
  assert (Js.slice (w ++ String ":"%char r) 0 (Js.length w) = w) as ->.
  { unfold Js.slice, Js.length.
    replace (Z.to_nat 0) with 0%nat by reflexivity.
    replace (Z.to_nat (Z.of_nat (String.length w) - 0)) with (String.length w) by lia.
    apply substring_prefix. }
  assert (Js.sliceFrom (w ++ String ":"%char r) (Js.length w + 1) = r) as ->.
  { unfold Js.sliceFrom, Js.slice. rewrite Hlen. unfold Js.length.
    replace (Z.to_nat (Z.of_nat (String.length w) + 1))
      with (String.length (w ++ ":")) by (rewrite length_append; simpl; lia).
    replace (Z.to_nat _) with (String.length r) by lia.
    replace (w ++ String ":"%char r) with ((w ++ ":") ++ r)
      by apply append_assoc3.
    apply substring_suffix. }
  split; [reflexivity|]. split; [|split; [|exact Hw]].
  - intros ->. unfold Js.length in Hpos. simpl in Hpos. lia.
  - intros ->. unfold Js.length in Hlen, Hlast. simpl in Hlen. lia.
Qed.

Lemma splitKey_sound_witness :
  keyForThread "ws-1" "a:b" = "ws-1:a:b".
Proof.
  apply (splitKey_sound "ws-1:a:b" (mkParsedKey "ws-1" "a:b")). reflexivity.
Defined.

(** X2: [splitKey] returns [null] on a key with no colon, on a key made
    with an empty workspace id, and on a key made of a colon-free workspace
    id and an empty thread id; [unsubscribeByKey] then calls nothing. *)
Theorem splitKey_rejects_empty_parts (key w t : string) (s : State) :
  (Js.indexOf key ":"%char = -1 ->
   splitKey key = None /\ unsubscribeByKey key s = s)
  /\ splitKey (keyForThread "" t) = None
  /\ unsubscribeByKey (keyForThread "" t) s = s
  /\ (Js.indexOf w ":"%char = -1 ->
      splitKey (keyForThread w "") = None
      /\ unsubscribeByKey (keyForThread w "") s = s).
Proof.
  assert (forall k, splitKey k = None -> unsubscribeByKey k s = s) as Hunsub
    by (intros k Hk; unfold unsubscribeByKey; now rewrite Hk).
  assert (splitKey (keyForThread "" t) = None) as Hempty by reflexivity.
  split; [|split; [exact Hempty | split; [now apply Hunsub|]]].
  - intros Hno. assert (splitKey key = None) as Hk
      by (unfold splitKey; now rewrite Hno).
    split; [exact Hk | now apply Hunsub].
  - intros Hno. assert (splitKey (keyForThread w "") = None) as Hk.
    { unfold splitKey.
      pose proof (length_keyForThread w "") as Hlen.
      assert (Js.indexOf (keyForThread w "") ":"%char = Js.length w) as ->
        by (unfold keyForThread; simpl; now apply indexOf_app_absent).
      rewrite Hlen. change (Js.length "") with 0.
      destruct (Z.geb_spec (Js.length w) (Js.length w + 1 + 0 - 1)); [|lia].
      now rewrite orb_true_r. }
    split; [exact Hk | now apply Hunsub].
Qed.

Lemma splitKey_rejects_empty_parts_witness :
  splitKey "thread-1" = None /\ splitKey (keyForThread "ws-1" "") = None.
Proof.
  pose proof (splitKey_rejects_empty_parts "thread-1" "ws-1" ""
                (initialState Scenario.idle)) as (Hkey & _ & _ & Hw).
  split; [exact (proj1 (Hkey eq_refl)) | exact (proj1 (Hw eq_refl))].
Defined.

(** ** Thread ids are trimmed *)

Lemma trimEnd_twice (s : string) : Js.trimEnd (Js.trimEnd s) = Js.trimEnd s.
Proof.
  induction s as [|c r IH]; [reflexivity|].
  simpl. destruct (Js.trimEnd r) as [|d r'] eqn:Hr.
  - destruct (Js.isWhiteSpace c) eqn:Hc; [reflexivity|]. simpl. now rewrite Hc.
  - change (Js.trimEnd (String c (String d r')))
      with (match Js.trimEnd (String d r') with
            | "" => if Js.isWhiteSpace c then "" else String c ""
            | x => String c x
            end).
    now rewrite IH.
Qed.

(** The string is empty or starts with a character that is not white
    space. *)
Lemma trimStart_fixed (s : string) : Js.trimStart (Js.trimStart s) = Js.trimStart s.
Proof.
  induction s as [|c r IH]; [reflexivity|].
  simpl. destruct (Js.isWhiteSpace c) eqn:Hc; [exact IH|].
  simpl. now rewrite Hc.
Qed.

Lemma trimStart_trimEnd (s : string) :
  Js.trimStart s = s -> Js.trimStart (Js.trimEnd s) = Js.trimEnd s.
Proof.
  destruct s as [|c r]; [reflexivity|].
  simpl. destruct (Js.isWhiteSpace c) eqn:Hc.
  - intros Heq. exfalso.
    assert (forall x, (String.length (Js.trimStart x) <= String.length x)%nat) as Hle.
    { induction x as [|d x IHx]; simpl; [lia|].
      destruct (Js.isWhiteSpace d); simpl; lia. }
    specialize (Hle r). rewrite Heq in Hle. simpl in Hle. lia.
  - intros _. destruct (Js.trimEnd r); simpl; now rewrite Hc.
Qed.

Lemma trim_twice (s : string) : Js.trim (Js.trim s) = Js.trim s.
Proof.
  unfold Js.trim.
  rewrite (trimStart_trimEnd (Js.trimStart s) (trimStart_fixed s)).
  apply trimEnd_twice.
Qed.

(** X3: an id returned by [extractThreadId] is never empty and carries no
    white space at either end: trimming it again changes nothing. *)
Theorem extractThreadId_trimmed (method : string)
  (params : list (string * Js.Value)) (id : string) :
  extractThreadId method params = Some id -> id <> "" /\ Js.trim id = id.
Proof.
  assert (forall o, threadIdField o = id -> Js.trim id = id) as Htrim
    by (intros o <-; unfold threadIdField; apply trim_twice).
  assert (directThreadId params = Some id -> id <> "" /\ Js.trim id = id) as Hdirect.
  { unfold directThreadId. rewrite <- truthy_length.
    destruct (Js.truthy _) eqn:Htruthy; [|discriminate].
    intros [= Hid]. split; [|now apply (Htrim (Js.JObject params))].
    intros ->. now rewrite Hid in Htruthy. }
  unfold extractThreadId. destruct (isTurnScopedMethod method); [|exact Hdirect].
  set (turn := Js.coalesce _ _).
  destruct (Js.truthy (threadIdField turn)) eqn:Htruthy; [|exact Hdirect].
  intros [= Hid]. split; [|now apply (Htrim turn Hid)].
  intros ->. now rewrite Hid in Htruthy.
Qed.

Lemma extractThreadId_trimmed_witness :
  "thread-1" <> "" /\ Js.trim "thread-1" = "thread-1".
Proof.
  apply (extractThreadId_trimmed "turn/started"
           [("turn", Js.JObject [("thread_id", Js.JString "  thread-1 ")])]).
  reflexivity.
Defined.

(** X4: every method whose id is read from [params.turn] is a thread
    activity method. *)
Theorem turn_scoped_is_activity (method : string) :
  isTurnScopedMethod method = true -> isThreadActivityMethod method = true.
Proof.
  unfold isTurnScopedMethod, isThreadActivityMethod.
  destruct (String.eqb_spec method "turn/started") as [->|_]; [reflexivity|].
  destruct (String.eqb_spec method "turn/completed") as [->|_]; [reflexivity|].
  destruct (String.eqb_spec method "error") as [->|_]; [reflexivity|].
  discriminate.
Qed.

Lemma turn_scoped_is_activity_witness :
  isThreadActivityMethod "turn/completed" = true.
Proof. apply (turn_scoped_is_activity "turn/completed"). reflexivity. Defined.

(** ** Calls of [reconnectLive] *)

(** X5: [reconnectLive] in a mode that is not remote, with an empty id or
    with no active workspace resolves false at once. It reconciles the
    connection state and does nothing else: no attempt, no call, the
    sequence, the desired key, the active key and the in-flight record stay
    as they were. *)
Theorem reconnectLive_rejects (env : Env) (w t : string)
  (options : option ReconnectOptions) (s : State) :
  backendMode s <> "remote" \/ w = "" \/ t = "" \/ activeWorkspace s = None ->
  reconnectLive env w t options s = (reconcileDisconnectedState s, ResolvedFalse)
  /\ connectionState (fst (reconnectLive env w t options s))
     = restingState (backendMode s) (activeWorkspace s)
  /\ attempts (fst (reconnectLive env w t options s)) = attempts s
  /\ calls (fst (reconnectLive env w t options s)) = calls s
  /\ reconnectSequence (fst (reconnectLive env w t options s))
     = reconnectSequence s
  /\ desiredSubscriptionKey (fst (reconnectLive env w t options s))
     = desiredSubscriptionKey s
  /\ activeSubscriptionKey (fst (reconnectLive env w t options s))
     = activeSubscriptionKey s
  /\ inFlightReconnect (fst (reconnectLive env w t options s))
     = inFlightReconnect s.
Proof.
  intros Hbad.
  assert (reconnectLive env w t options s
          = (reconcileDisconnectedState s, ResolvedFalse)) as ->.
  { unfold reconnectLive.
    assert (negb (String.eqb (backendMode s) "remote") || negb (Js.truthy w)
            || negb (Js.truthy t)
            || negb (bool_decide (is_Some (activeWorkspace s))) = true) as ->;
      [|reflexivity].
    destruct Hbad as [Hmode|[->|[->|Hws]]].
    - destruct (String.eqb_spec (backendMode s) "remote"); [contradiction|].
      reflexivity.
    - simpl. now rewrite orb_true_r.
    - simpl. now rewrite !orb_true_r.
    - rewrite Hws. rewrite bool_decide_eq_false_2 by (intros [x Hx]; discriminate).
      simpl. now rewrite !orb_true_r. }
  simpl fst. rewrite connectionState_reconcile. autorewrite with coord.
  repeat split.
Qed.

Lemma reconnectLive_rejects_witness :
  reconnectLive Scenario.foreground "ws-1" "" Scenario.withResume
    (initialState Scenario.selected)
  = (reconcileDisconnectedState (initialState Scenario.selected), ResolvedFalse).
Proof.
  apply (reconnectLive_rejects Scenario.foreground "ws-1" "" Scenario.withResume
           (initialState Scenario.selected)).
  right. right. left. reflexivity.
Defined.

(** X6: a call of [reconnectLive] that passes the initial checks and finds
    no in-flight attempt for its key with the current sequence (none at
    all, one for another key, or one for its key that a later sequence has
    invalidated) starts a new attempt: the sequence grows by one, the
    attempt is recorded as in flight with that sequence, the desired key is
    the target key, the connection state is polling or disconnected as the
    workspace is connected or not, and the attempt has issued exactly one
    collaborator call and is suspended on it; it never resolves within the
    call. *)
Theorem reconnectLive_starts_attempt (env : Env) (w t : string)
  (options : option ReconnectOptions) (s : State) :
  let key := keyForThread w t in
  let pid := List.length (attempts s) in
  let r := reconnectLive env w t options s in
  passesChecks w t s ->
  (forall f, inFlightReconnect s = Some f -> if_key f = key ->
     if_sequence f <> reconnectSequence s) ->
  snd r = AttemptPromise pid
  /\ reconnectSequence (fst r) = reconnectSequence s + 1
  /\ inFlightReconnect (fst r)
     = Some (mkInFlight key (reconnectSequence s + 1) pid)
  /\ desiredSubscriptionKey (fst r) = Some key
  /\ connectionState (fst r)
     = (if connectedOpt (activeWorkspace s) then Polling else Disconnected)
  /\ activeSubscriptionKey (fst r) = activeSubscriptionKey s
  /\ (exists susp,
        (forall b, susp <> Settled b)
        /\ attempts (fst r)
           = (attempts s
              ++ [mkAttempt w t key options (reconnectSequence s + 1) susp])%list)
  /\ (exists c, calls (fst r) = (calls s ++ [(Some pid, c)])%list).
Proof.
  intros key pid r Hchecks Hfresh. unfold r.
  destruct (reconnectLive_passing env w t options s Hchecks)
    as [(f & Hfl & Hk & Hq & _)|(_ & s0 & -> & H1 & H2 & H3 & H4 & H5 & _)].
  - now destruct (Hfresh f Hfl Hk).
  - now apply startAttempt_effect.
Qed.

Lemma reconnectLive_starts_attempt_witness :
  let s := handleBlur
             (fst (reconnectLive Scenario.foreground "ws-1" "thread-1"
                     Scenario.withoutResume (initialState Scenario.idle))) in
  inFlightReconnect s = Some (mkInFlight "ws-1:thread-1" 1 0)
  /\ reconnectSequence s = 2
  /\ snd (reconnectLive Scenario.foreground "ws-1" "thread-1"
            Scenario.withoutResume s) = AttemptPromise (List.length (attempts s)).
Proof.
  intros s.
  assert (inFlightReconnect s = Some (mkInFlight "ws-1:thread-1" 1 0)) as Hfl
    by (vm_compute; reflexivity).
  assert (reconnectSequence s = 2) as Hseq by (vm_compute; reflexivity).
  split; [exact Hfl|]. split; [exact Hseq|].
  assert (passesChecks "ws-1" "thread-1" s) as Hchecks
    by (repeat split; try discriminate; vm_compute; now eexists).
  refine (proj1 (reconnectLive_starts_attempt Scenario.foreground "ws-1"
                   "thread-1" Scenario.withoutResume s Hchecks _)).
  intros f Hf _. rewrite Hfl in Hf. injection Hf as <-. rewrite Hseq. discriminate.
Defined.

(** ** How an attempt ends *)

Section ParkFrames.

Variable pid : nat.
Variable a : Attempt.
Variable r : State * Suspension.

Lemma connectionState_park :
  connectionState (park pid a r) = connectionState (fst r).
Proof. unfold park. destruct (snd r); autorewrite with coord; reflexivity. Qed.

Lemma activeSubscriptionKey_park :
  activeSubscriptionKey (park pid a r) = activeSubscriptionKey (fst r).
Proof. unfold park. destruct (snd r); autorewrite with coord; reflexivity. Qed.

Lemma desiredSubscriptionKey_park :
  desiredSubscriptionKey (park pid a r) = desiredSubscriptionKey (fst r).
Proof. unfold park. destruct (snd r); autorewrite with coord; reflexivity. Qed.

Lemma ignoreDetachedEventsUntil_park :
  ignoreDetachedEventsUntil (park pid a r) = ignoreDetachedEventsUntil (fst r).
Proof. unfold park. destruct (snd r); autorewrite with coord; reflexivity. Qed.

Lemma calls_park : calls (park pid a r) = calls (fst r).
Proof. unfold park. destruct (snd r); autorewrite with coord; reflexivity. Qed.

End ParkFrames.

#[global] Hint Rewrite connectionState_park activeSubscriptionKey_park
  desiredSubscriptionKey_park ignoreDetachedEventsUntil_park calls_park
  reconnectSequence_park : coord.

(** X7: when the subscribe call of an attempt resolves while the
    attempt's sequence number is still the current one, the attempt
    resolves true: its key becomes the active key, the connection state is
    polling, the in-flight record is cleared, and no further call is
    issued. *)
Theorem subscribe_resolved_current (env : Env) (s : State) (pid : nat)
  (a : Attempt) :
  reachable s ->
  attempts s !! pid = Some a -> at_suspension a = AwaitSubscribe ->
  at_sequence a = reconnectSequence s ->
  attempts (resume env pid Fulfilled s) !! pid
  = Some (withSuspension a (Settled true))
  /\ activeSubscriptionKey (resume env pid Fulfilled s) = Some (at_targetKey a)
  /\ connectionState (resume env pid Fulfilled s) = Polling
  /\ inFlightReconnect (resume env pid Fulfilled s) = None
  /\ calls (resume env pid Fulfilled s) = calls s
  /\ reconnectSequence (resume env pid Fulfilled s) = reconnectSequence s
  /\ desiredSubscriptionKey (resume env pid Fulfilled s)
     = desiredSubscriptionKey s.
Proof.
  intros Hreach Ha Hsusp Hseq.
  pose proof (reachable_Inv s Hreach) as HI.
  assert (isPending a = true) as Hpend by (unfold isPending; now rewrite Hsusp).
  pose proof (inv_current s HI pid a Ha Hpend Hseq) as Hfl.
  rewrite (resume_unfold env pid Fulfilled s a Ha), Hsusp.
  unfold afterSubscribe. rewrite (bool_decide_eq_true_2 _ Hseq).
  simpl negb. cbv iota.
  split; [apply (lookup_park s); [assumption | simpl; now autorewrite with coord]|].
  autorewrite with coord. simpl fst. rewrite connectionState_setState.
  autorewrite with coord. simpl.
  repeat split.
  unfold park, finallyClear. simpl. autorewrite with coord. simpl.
  rewrite Hfl. simpl. now rewrite bool_decide_eq_true_2.
Qed.

Lemma subscribe_resolved_current_witness :
  let e := Scenario.foreground in
  let s := fst (reconnectLive e "ws-1" "thread-1" Scenario.withoutResume
                  (initialState Scenario.idle)) in
  let a := mkAttempt "ws-1" "thread-1" "ws-1:thread-1" Scenario.withoutResume
             1 AwaitSubscribe in
  reachable s
  /\ activeSubscriptionKey (resume e 0 Fulfilled s) = Some (at_targetKey a).
Proof.
  intros e s a.
  assert (reachable s) as Hreach
    by apply (reachable_step e
                (OpReconnectLive "ws-1" "thread-1" Scenario.withoutResume)
                _ (reachable_init Scenario.idle)).
  split; [exact Hreach|].
  assert (attempts s !! 0%nat = Some a) as Ha by (vm_compute; reflexivity).
  assert (at_sequence a = reconnectSequence s) as Hseq by (vm_compute; reflexivity).
  exact (proj1 (proj2 (subscribe_resolved_current e s 0 a Hreach Ha eq_refl Hseq))).
Defined.

(** X8: when the session reconnect, the refresh or the subscribe call of
    an attempt fails, the attempt resolves false without any further call
    and without touching the active or the desired key; the connection
    state is reconciled to the resting state when the attempt's sequence
    number is still current, and left alone when it is not. A failed
    unsubscribe (before a re-subscribe, or in the cleanup of a stale
    attempt) is swallowed: the attempt goes on as after a successful
    one. *)
Theorem collaborator_failure (env : Env) (s : State) (pid : nat) (a : Attempt) :
  attempts s !! pid = Some a ->
  (at_suspension a = AwaitReconnectWorkspace
   \/ at_suspension a = AwaitRefreshThread
   \/ at_suspension a = AwaitSubscribe ->
   attempts (resume env pid Rejected s) !! pid
   = Some (withSuspension a (Settled false))
   /\ calls (resume env pid Rejected s) = calls s
   /\ activeSubscriptionKey (resume env pid Rejected s) = activeSubscriptionKey s
   /\ desiredSubscriptionKey (resume env pid Rejected s)
      = desiredSubscriptionKey s
   /\ connectionState (resume env pid Rejected s)
      = (if bool_decide (at_sequence a = reconnectSequence s)
         then restingState (backendMode s) (activeWorkspace s)
         else connectionState s))
  /\ (at_suspension a = AwaitDedupeUnsubscribe
      \/ at_suspension a = AwaitStaleUnsubscribe ->
      resume env pid Rejected s = resume env pid Fulfilled s).
Proof.
  intros Ha. split.
  - intros Hsusp.
    assert (resume env pid Rejected s = park pid a (onRejected a s)) as ->
      by (rewrite (resume_unfold env pid Rejected s a Ha);
          destruct Hsusp as [-> | [-> | ->]]; reflexivity).
    unfold onRejected.
    case_bool_decide;
      (split; [apply (lookup_park s); [assumption | simpl; now autorewrite with coord]|]);
      autorewrite with coord; simpl fst; rewrite ?connectionState_reconcile;
      autorewrite with coord; repeat split.
  - intros Hsusp. rewrite !(resume_unfold env pid _ s a Ha).
    destruct Hsusp as [-> | ->]; reflexivity.
Qed.

Lemma collaborator_failure_witness :
  let e := Scenario.foreground in
  let s := fst (reconnectLive e "ws-1" "thread-1" Scenario.withoutResume
                  (initialState Scenario.idle)) in
  let a := mkAttempt "ws-1" "thread-1" "ws-1:thread-1" Scenario.withoutResume
             1 AwaitSubscribe in
  attempts s !! 0%nat = Some a
  /\ attempts (resume e 0 Rejected s) !! 0%nat
     = Some (withSuspension a (Settled false)).
Proof.
  intros e s a.
  assert (attempts s !! 0%nat = Some a) as Ha by (vm_compute; reflexivity).
  split; [exact Ha|].
  exact (proj1 (proj1 (collaborator_failure e s 0 a Ha)
                  (or_intror (or_intror eq_refl)))).
Defined.

(** X9: in every reachable state at most one unresolved attempt carries
    the current sequence number, and it is the one recorded as in flight;
    every other unresolved attempt is stale. *)
Theorem one_current_attempt (s : State) (p q : nat) (a b : Attempt) :
  reachable s ->
  attempts s !! p = Some a -> isPending a = true ->
  at_sequence a = reconnectSequence s ->
  attempts s !! q = Some b -> isPending b = true ->
  (at_sequence b = reconnectSequence s -> p = q)
  /\ (p <> q -> at_sequence b < reconnectSequence s)
  /\ inFlightReconnect s
     = Some (mkInFlight (at_targetKey a) (reconnectSequence s) p).
Proof.
  intros Hreach Ha Hpa Hsa Hb Hpb.
  pose proof (reachable_Inv s Hreach) as HI.
  pose proof (inv_current s HI p a Ha Hpa Hsa) as Hfa.
  assert (at_sequence b = reconnectSequence s -> p = q) as Hsame.
  { intros Hsb. pose proof (inv_current s HI q b Hb Hpb Hsb) as Hfb.
    rewrite Hfa in Hfb. now injection Hfb. }
  split; [exact Hsame|]. split; [|now rewrite Hfa, Hsa].
  intros Hne. pose proof (inv_sequence s HI q b Hb) as Hle.
  destruct (decide (at_sequence b = reconnectSequence s)) as [Heq|Hneq]; [|lia].
  now destruct (Hne (Hsame Heq)).
Qed.

Lemma one_current_attempt_witness :
  let e := Scenario.foreground in
  let s := run [(e, OpMount);
                (e, OpReconnectLive "ws-1" "thread-2" Scenario.withResume)]
             (initialState Scenario.selected) in
  let a := mkAttempt "ws-1" "thread-2" "ws-1:thread-2" Scenario.withResume
             2 AwaitRefreshThread in
  let b := mkAttempt "ws-1" "thread-1" "ws-1:thread-1" Scenario.withResume
             1 AwaitRefreshThread in
  reachable s /\ at_sequence b < reconnectSequence s.
Proof.
  intros e s a b.
  assert (reachable s) as Hreach by apply reachable_run, reachable_init.
  split; [exact Hreach|].
  assert (attempts s !! 1%nat = Some a) as Ha by (vm_compute; reflexivity).
  assert (attempts s !! 0%nat = Some b) as Hb by (vm_compute; reflexivity).
  assert (at_sequence a = reconnectSequence s) as Hseq by (vm_compute; reflexivity).
  refine (proj1 (proj2 (one_current_attempt s 1 0 a b Hreach Ha eq_refl Hseq Hb
                          eq_refl)) _).
  discriminate.
Defined.

(** X10: every collaborator call issued by an attempt is for the workspace
    and the thread the attempt was started for, and the key of an attempt
    is the key of those two ids. *)
Theorem attempt_calls_carry_its_ids (s : State) (p : nat) (c : Call) :
  reachable s -> (Some p, c) ∈ calls s ->
  exists a, attempts s !! p = Some a /\ callOf a c
            /\ at_targetKey a = keyForThread (at_workspaceId a) (at_threadId a).
Proof.
  intros Hreach Hin. pose proof (reachable_Inv s Hreach) as HI.
  pose proof (inv_owned s HI) as Hown. rewrite Forall_forall in Hown.
  destruct (Hown _ Hin) as (a & Ha & Hof). exists a.
  split; [exact Ha|]. split; [exact Hof|]. now apply (inv_key s HI p a).
Qed.

Lemma attempt_calls_carry_its_ids_witness :
  let s := fst (reconnectLive Scenario.foreground "ws-1" "thread-1"
                  Scenario.withoutResume (initialState Scenario.idle)) in
  reachable s
  /\ exists a, attempts s !! 0%nat = Some a
               /\ callOf a (ThreadLiveSubscribe "ws-1" "thread-1")
               /\ at_targetKey a
                  = keyForThread (at_workspaceId a) (at_threadId a).
Proof.
  intros s.
  assert (reachable s) as Hreach
    by apply (reachable_step Scenario.foreground
                (OpReconnectLive "ws-1" "thread-1" Scenario.withoutResume)
                _ (reachable_init Scenario.idle)).
  split; [exact Hreach|].
  apply (attempt_calls_carry_its_ids s 0 (ThreadLiveSubscribe "ws-1" "thread-1")
           Hreach).
  vm_compute. apply list_elem_of_here.
Defined.

(** X11: an attempt whose sequence number is no longer current never
    changes the connection state, the desired key, the sequence or the map
    of ignored detach events, and never makes a key active, however its
    pending call settles; the only write it may do to the active key is the
    clearing that follows its dedupe unsubscribe. *)
Theorem stale_attempt_is_harmless (env : Env) (o : Outcome) (s : State)
  (pid : nat) (a : Attempt) :
  attempts s !! pid = Some a -> at_sequence a <> reconnectSequence s ->
  connectionState (resume env pid o s) = connectionState s
  /\ desiredSubscriptionKey (resume env pid o s) = desiredSubscriptionKey s
  /\ reconnectSequence (resume env pid o s) = reconnectSequence s
  /\ ignoreDetachedEventsUntil (resume env pid o s) = ignoreDetachedEventsUntil s
  /\ (activeSubscriptionKey (resume env pid o s) = activeSubscriptionKey s
      \/ at_suspension a = AwaitDedupeUnsubscribe
         /\ activeSubscriptionKey (resume env pid o s) = None).
Proof.
  intros Ha Hstale. rewrite (resume_unfold env pid o s a Ha).
  assert (bool_decide (at_sequence a = reconnectSequence s) = false) as Hdec
    by now rewrite bool_decide_eq_false_2.
  destruct (at_suspension a) eqn:Hsusp; destruct o;
    unfold afterSessionReconnect, afterRefresh, afterDedupeUnsubscribe,
      afterSubscribe, afterStaleUnsubscribe, onRejected, callSubscribe;
    rewrite ?Hdec; simpl negb; cbv iota;
    try (destruct (negb (bool_decide (desiredSubscriptionKey s
                                      = Some (at_targetKey a)))));
    autorewrite with coord; simpl; repeat split; auto.
Qed.

Lemma stale_attempt_is_harmless_witness :
  let e := Scenario.foreground in
  let s := handleBlur
             (fst (reconnectLive e "ws-1" "thread-1" Scenario.withoutResume
                     (initialState Scenario.idle))) in
  let a := mkAttempt "ws-1" "thread-1" "ws-1:thread-1" Scenario.withoutResume
             1 AwaitSubscribe in
  attempts s !! 0%nat = Some a
  /\ connectionState (resume e 0 Fulfilled s) = connectionState s.
Proof.
  intros e s a.
  assert (attempts s !! 0%nat = Some a) as Ha by (vm_compute; reflexivity).
  assert (at_sequence a <> reconnectSequence s) as Hstale
    by (vm_compute; discriminate).
  split; [exact Ha|].
  exact (proj1 (stale_attempt_is_harmless e Fulfilled s 0 a Ha Hstale)).
Defined.

(** ** The event router *)

(** X12: the router drops an event that has no method, and every event
    while no workspace or no thread is selected or when the event is for
    another workspace: the state is left exactly as it was. *)
Theorem event_not_for_selection_ignored (env : Env) (event : AppServerEvent)
  (s : State) :
  ev_method event = None \/ ev_method event = Some ""
  \/ activeWorkspace s = None \/ activeThreadId s = None
  \/ ws_id <$> activeWorkspace s = Some ""
  \/ activeThreadId s = Some ""
  \/ ws_id <$> activeWorkspace s <> Some (ev_workspace_id event) ->
  onAppServerEvent env event s = s.
Proof.
  unfold onAppServerEvent.
  destruct (ev_method event) as [m|]; [|reflexivity].
  destruct (Js.truthy m) eqn:Hm; [|reflexivity]. simpl negb. cbv iota.
  destruct (activeWorkspace s) as [w|]; simpl; [|reflexivity].
  destruct (activeThreadId s) as [t|]; [|reflexivity].
  destruct (Js.truthy (ws_id w)) eqn:Hw; [|reflexivity].
  destruct (Js.truthy t) eqn:Ht; [|reflexivity]. simpl.
  destruct (String.eqb_spec (ev_workspace_id event) (ws_id w)) as [Heq|Hne];
    [|reflexivity].
  intros [H|[H|[H|[H|[H|[H|H]]]]]]; try discriminate.
  - injection H as ->. discriminate.
  - injection H as H. rewrite H in Hw. discriminate.
  - injection H as ->. discriminate.
  - rewrite Heq in H. contradiction.
Qed.

Lemma event_not_for_selection_ignored_witness :
  let s := initialState Scenario.selected in
  onAppServerEvent Scenario.foreground
    (mkAppServerEvent "ws-2" (Some "thread/live_heartbeat")
       [("threadId", Js.JString "thread-1")]) s = s.
Proof.
  intros s.
  apply (event_not_for_selection_ignored Scenario.foreground
           (mkAppServerEvent "ws-2" (Some "thread/live_heartbeat")
              [("threadId", Js.JString "thread-1")]) s).
  do 6 right. discriminate.
Defined.

(** X13: an event whose extracted thread id is not the selected thread
    leaves the state as it was, whatever its method, except
    [codex/connected] received while the document is visible, which does
    not look at the thread id. *)
Theorem event_for_other_thread_ignored (env : Env) (event : AppServerEvent)
  (s : State) (method : string) :
  ev_method event = Some method ->
  method <> "codex/connected" \/ visible env = false ->
  extractThreadId method (ev_params event) <> activeThreadId s ->
  onAppServerEvent env event s = s.
Proof.
  intros Hm Hconn Hother. unfold onAppServerEvent. rewrite Hm.
  destruct (negb (Js.truthy method)); [reflexivity|].
  destruct (activeWorkspace s) as [w|]; simpl; [|reflexivity].
  destruct (activeThreadId s) as [t|]; [|reflexivity].
  destruct (negb (Js.truthy (ws_id w)) || negb (Js.truthy t)); [reflexivity|].
  destruct (negb (String.eqb (ev_workspace_id event) (ws_id w))); [reflexivity|].
  assert (String.eqb method "codex/connected" && visible env = false) as ->.
  { destruct Hconn as [Hne| ->]; [|apply andb_false_r].
    now destruct (String.eqb_spec method "codex/connected"). }
  rewrite bool_decide_eq_false_2 by exact Hother.
  repeat case_match; try reflexivity; discriminate.
Qed.

Lemma event_for_other_thread_ignored_witness :
  let s := initialState Scenario.selected in
  onAppServerEvent Scenario.foreground
    (Scenario.event "thread/live_detached" "thread-2") s = s.
Proof.
  intros s.
  apply (event_for_other_thread_ignored Scenario.foreground
           (Scenario.event "thread/live_detached" "thread-2") s
           "thread/live_detached" eq_refl); [left|]; discriminate.
Defined.

(** The event is for the selected workspace and thread. *)
Lemma onAppServerEvent_selected (env : Env) (event : AppServerEvent)
  (s : State) (w : WorkspaceInfo) (t method : string) :
  activeWorkspace s = Some w -> ws_id w <> "" ->
  activeThreadId s = Some t -> t <> "" ->
  ev_workspace_id event = ws_id w ->
  ev_method event = Some method -> method <> "" ->
  onAppServerEvent env event s
  = if String.eqb method "codex/connected" && visible env then
      fst (reconnectLive env (ws_id w) t
             (Some (mkReconnectOptions (Some false))) s)
    else
      let matches :=
        bool_decide (extractThreadId method (ev_params event) = Some t) in
      if String.eqb method "thread/live_attached" then
        if matches then
          setState Polling
            (setActiveSubscriptionKey (Some (keyForThread (ws_id w) t)) s)
        else s
      else if String.eqb method "thread/live_detached" then
        if matches then onLiveDetached env (ws_id w) t s else s
      else if String.eqb method "thread/live_heartbeat" then
        if matches then setState Live s else s
      else if negb (isThreadActivityMethod method) then s
      else if negb matches then s
      else setState Live s.
Proof.
  intros Hw Hwid Ht Htid Hev Hm Hmne. unfold onAppServerEvent.
  rewrite Hm, Hw, Ht. simpl.
  rewrite (truthy_true _ Hwid), (truthy_true _ Htid), (truthy_true _ Hmne).
  rewrite Hev, String.eqb_refl. reflexivity.
Qed.

(** X14: a heartbeat and every thread activity event (item/..., turn/...,
    error, thread/tokenUsage/updated) for the selected workspace and thread
    makes the connection state live and changes nothing else: no call, no
    attempt, the same keys and sequence. *)
Theorem liveness_event_sets_live (env : Env) (event : AppServerEvent)
  (s : State) (w : WorkspaceInfo) (t method : string) :
  activeWorkspace s = Some w -> ws_id w <> "" ->
  activeThreadId s = Some t -> t <> "" ->
  ev_workspace_id event = ws_id w ->
  ev_method event = Some method ->
  method = "thread/live_heartbeat" \/ isThreadActivityMethod method = true ->
  extractThreadId method (ev_params event) = Some t ->
  onAppServerEvent env event s = setState Live s
  /\ connectionState (onAppServerEvent env event s) = Live
  /\ calls (onAppServerEvent env event s) = calls s
  /\ attempts (onAppServerEvent env event s) = attempts s
  /\ reconnectSequence (onAppServerEvent env event s) = reconnectSequence s
  /\ activeSubscriptionKey (onAppServerEvent env event s)
     = activeSubscriptionKey s
  /\ desiredSubscriptionKey (onAppServerEvent env event s)
     = desiredSubscriptionKey s.
Proof.
  intros Hw Hwid Ht Htid Hev Hm Hkind Hx.
  assert (method <> "") as Hmne by (destruct Hkind as [->|Hk]; [|intros ->]; discriminate).
  assert (onAppServerEvent env event s = setState Live s) as ->.
  { rewrite (onAppServerEvent_selected env event s w t method
               Hw Hwid Ht Htid Hev Hm Hmne).
    rewrite Hx, bool_decide_eq_true_2 by reflexivity. cbv zeta.
    destruct Hkind as [->|Hk]; [reflexivity|].
    destruct (String.eqb_spec method "codex/connected") as [->|_]; [discriminate|].
    destruct (String.eqb_spec method "thread/live_attached") as [->|_];
      [discriminate|].
    destruct (String.eqb_spec method "thread/live_detached") as [->|_];
      [discriminate|].
    destruct (String.eqb method "thread/live_heartbeat"); [reflexivity|].
    simpl. now rewrite Hk. }
  rewrite connectionState_setState. autorewrite with coord. repeat split.
Qed.

Lemma liveness_event_sets_live_witness :
  let s := initialState Scenario.selected in
  connectionState
    (onAppServerEvent Scenario.foreground
       (Scenario.event "item/started" "thread-1") s) = Live.
Proof.
  intros s.
  refine (proj1 (proj2 (liveness_event_sets_live Scenario.foreground
                          (Scenario.event "item/started" "thread-1") s
                          Scenario.workspace "thread-1" "item/started"
                          eq_refl _ eq_refl _ eq_refl eq_refl _ eq_refl)));
    try discriminate.
  right. reflexivity.
Defined.

(** X15: a [thread/live_attached] event for the selected workspace and
    thread makes the selected key the active key and the connection state
    polling, and changes nothing else. *)
Theorem live_attached_sets_active (env : Env) (event : AppServerEvent)
  (s : State) (w : WorkspaceInfo) (t : string) :
  activeWorkspace s = Some w -> ws_id w <> "" ->
  activeThreadId s = Some t -> t <> "" ->
  ev_workspace_id event = ws_id w ->
  ev_method event = Some "thread/live_attached" ->
  extractThreadId "thread/live_attached" (ev_params event) = Some t ->
  activeSubscriptionKey (onAppServerEvent env event s)
  = Some (keyForThread (ws_id w) t)
  /\ connectionState (onAppServerEvent env event s) = Polling
  /\ calls (onAppServerEvent env event s) = calls s
  /\ attempts (onAppServerEvent env event s) = attempts s
  /\ reconnectSequence (onAppServerEvent env event s) = reconnectSequence s
  /\ desiredSubscriptionKey (onAppServerEvent env event s)
     = desiredSubscriptionKey s
  /\ inFlightReconnect (onAppServerEvent env event s) = inFlightReconnect s.
Proof.
  intros Hw Hwid Ht Htid Hev Hm Hx.
  rewrite (onAppServerEvent_selected env event s w t "thread/live_attached"
             Hw Hwid Ht Htid Hev Hm ltac:(discriminate)).
  rewrite Hx, bool_decide_eq_true_2 by reflexivity. simpl.
  rewrite connectionState_setState. autorewrite with coord. repeat split.
Qed.

Lemma live_attached_sets_active_witness :
  let s := initialState Scenario.selected in
  activeSubscriptionKey
    (onAppServerEvent Scenario.foreground
       (Scenario.event "thread/live_attached" "thread-1") s)
  = Some (keyForThread (ws_id Scenario.workspace) "thread-1").
Proof.
  intros s.
  refine (proj1 (live_attached_sets_active Scenario.foreground
                   (Scenario.event "thread/live_attached" "thread-1") s
                   Scenario.workspace "thread-1"
                   eq_refl _ eq_refl _ eq_refl eq_refl eq_refl));
    discriminate.
Defined.

(** X16: a [codex/connected] event for the selected workspace calls
    [reconnectLive] for the selected thread with [runResume: false] when
    the document is visible, whatever thread id the event carries, and is
    ignored when the document is hidden. *)
Theorem codex_connected_reasserts (env : Env) (event : AppServerEvent)
  (s : State) (w : WorkspaceInfo) (t : string) :
  activeWorkspace s = Some w -> ws_id w <> "" ->
  activeThreadId s = Some t -> t <> "" ->
  ev_workspace_id event = ws_id w ->
  ev_method event = Some "codex/connected" ->
  onAppServerEvent env event s
  = if visible env
    then fst (reconnectLive env (ws_id w) t
                (Some (mkReconnectOptions (Some false))) s)
    else s.
Proof.
  intros Hw Hwid Ht Htid Hev Hm.
  rewrite (onAppServerEvent_selected env event s w t "codex/connected"
             Hw Hwid Ht Htid Hev Hm ltac:(discriminate)).
  simpl. destruct (visible env); reflexivity.
Qed.

Lemma codex_connected_reasserts_witness :
  let s := initialState Scenario.selected in
  onAppServerEvent (mkEnv false true 0)
    (mkAppServerEvent "ws-1" (Some "codex/connected") []) s
  = if visible (mkEnv false true 0)
    then fst (reconnectLive (mkEnv false true 0) (ws_id Scenario.workspace)
                "thread-1" (Some (mkReconnectOptions (Some false))) s)
    else s.
Proof.
  intros s.
  apply (codex_connected_reasserts (mkEnv false true 0)
           (mkAppServerEvent "ws-1" (Some "codex/connected") []) s
           Scenario.workspace "thread-1"); try reflexivity; discriminate.
Defined.

(** ** Detach events and the connection state *)

(** X17: in remote mode, a [thread/live_detached] event for the selected
    key that is not suppressed (no entry for the key, or an expired one)
    clears the active key and leaves the connection state polling when the
    workspace is connected and disconnected when it is not, whether or not
    a reconnect is started: the state is never live after it. *)
Theorem detached_event_leaves_live (env : Env) (event : AppServerEvent)
  (s : State) (w : WorkspaceInfo) (t : string) :
  reachable s ->
  backendMode s = "remote" ->
  activeWorkspace s = Some w -> ws_id w <> "" ->
  activeThreadId s = Some t -> t <> "" ->
  ev_workspace_id event = ws_id w ->
  ev_method event = Some "thread/live_detached" ->
  extractThreadId "thread/live_detached" (ev_params event) = Some t ->
  ignoreDetachedEventsUntil s !! keyForThread (ws_id w) t = None
  \/ (exists v, ignoreDetachedEventsUntil s !! keyForThread (ws_id w) t = Some v
                /\ (v < now env)%N) ->
  connectionState (onAppServerEvent env event s)
  = (if ws_connected w then Polling else Disconnected)
  /\ connectionState (onAppServerEvent env event s) <> Live
  /\ activeSubscriptionKey (onAppServerEvent env event s) = None.
Proof.
  intros Hreach Hmode Hw Hwid Ht Htid Hev Hm Hx Hentry.
  assert (connectionState (onAppServerEvent env event s)
          = (if ws_connected w then Polling else Disconnected)
          /\ activeSubscriptionKey (onAppServerEvent env event s) = None)
    as [Hconn Hact];
    [|split; [exact Hconn|split; [rewrite Hconn; now destruct (ws_connected w)
                                 |exact Hact]]].
  rewrite (onAppServerEvent_detached env event s w t Hw Hwid Ht Htid Hev Hm Hx).
  unfold onLiveDetached.
  set (key := keyForThread (ws_id w) t) in *.
  assert ((0 <? default 0%N (ignoreDetachedEventsUntil s !! key))%N
          && (now env <=? default 0%N (ignoreDetachedEventsUntil s !! key))%N
          = false) as ->.
  { destruct Hentry as [->|(v & -> & Hpast)]; [reflexivity|]. simpl.
    destruct (N.leb_spec (now env) v); [lia|]. apply andb_false_r. }
  set (s1 := if (0 <? _)%N then _ else s).
  assert (backendMode s1 = "remote" /\ activeWorkspace s1 = Some w) as [Hmode1 Hw1]
    by (unfold s1; destruct (0 <? _)%N; simpl; auto).
  set (s2 := reconcileDisconnectedState (setActiveSubscriptionKey None s1)).
  assert (connectionState s2 = if ws_connected w then Polling else Disconnected)
    as Hc2
    by (unfold s2; rewrite connectionState_reconcile; simpl;
        rewrite Hmode1, Hw1; apply restingState_remote).
  assert (activeSubscriptionKey s2 = None) as Ha2
    by (unfold s2; now autorewrite with coord).
  assert (activeWorkspace s2 = Some w) as Hw2
    by (unfold s2; now autorewrite with coord).
  destruct (visible env && focused env); [|split; assumption].
  assert (passesChecks (ws_id w) t s2) as Hchecks.
  { unfold passesChecks, s2. autorewrite with coord. simpl.
    rewrite Hmode1, Hw1. repeat split; eauto. }
  destruct (reconnectLive_passing env (ws_id w) t
              (Some (mkReconnectOptions (Some true))) s2 Hchecks)
    as [(f & _ & _ & _ & ->)|(_ & s0 & -> & H1 & H2 & H3 & H4 & H5 & _)].
  - simpl. split; assumption.
  - destruct (startAttempt_effect env (ws_id w) t
                (Some (mkReconnectOptions (Some true))) s2 s0 H1 H2 H3 H4 H5)
      as (_ & _ & _ & _ & Hc & Ha & _).
    rewrite Hc, Ha, Hw2. simpl. split; [reflexivity | exact Ha2].
Qed.

Lemma detached_event_leaves_live_witness :
  let e := Scenario.foreground in
  let s := run [(e, OpMount); (e, OpSettle 0 Fulfilled);
                (e, OpSettle 0 Fulfilled);
                (e, OpAppServerEvent
                      (Scenario.event "thread/live_heartbeat" "thread-1"))]
             (initialState Scenario.selected) in
  reachable s /\ connectionState s = Live
  /\ connectionState
       (onAppServerEvent e (Scenario.event "thread/live_detached" "thread-1") s)
     <> Live.
Proof.
  intros e s.
  assert (reachable s) as Hreach by apply reachable_run, reachable_init.
  split; [exact Hreach|]. split; [vm_compute; reflexivity|].
  assert (backendMode s = "remote") as Hmode by (vm_compute; reflexivity).
  assert (activeWorkspace s = Some Scenario.workspace) as Hw
    by (vm_compute; reflexivity).
  assert (activeThreadId s = Some "thread-1") as Ht by (vm_compute; reflexivity).
  assert (ignoreDetachedEventsUntil s
            !! keyForThread (ws_id Scenario.workspace) "thread-1" = None) as Hnone
    by (vm_compute; reflexivity).
  refine (proj1 (proj2 (detached_event_leaves_live e
                          (Scenario.event "thread/live_detached" "thread-1") s
                          Scenario.workspace "thread-1" Hreach Hmode Hw _ Ht _
                          eq_refl eq_refl eq_refl (or_introl Hnone))));
    discriminate.
Defined.

(** A new attempt for the active key of a connected workspace, started
    with [runResume: false], goes straight to the dedupe unsubscribe. *)
Lemma startAttempt_dedupe (env : Env) (w t : string) (s0 : State) :
  connectedOpt (activeWorkspace s0) = true ->
  activeSubscriptionKey s0 = Some (keyForThread w t) ->
  let s1 := fst (startAttempt env w t (keyForThread w t)
                   (Some (mkReconnectOptions (Some false))) s0) in
  calls s1
  = (calls s0
     ++ [(Some (List.length (attempts s0)), ThreadLiveUnsubscribe w t)])%list
  /\ ignoreDetachedEventsUntil s1
     = <[keyForThread w t := (now env + SELF_DETACH_IGNORE_WINDOW_MS)%N]>
         (ignoreDetachedEventsUntil s0)
  /\ activeSubscriptionKey s1 = Some (keyForThread w t)
  /\ activeWorkspace s1 = activeWorkspace s0
  /\ activeThreadId s1 = activeThreadId s0.
Proof.
  intros Hconn Hact. unfold startAttempt.
  set (pid := List.length (attempts s0)).
  set (a0 := mkAttempt w t (keyForThread w t)
               (Some (mkReconnectOptions (Some false)))
               (reconnectSequence s0 + 1) AwaitSubscribe).
  match goal with |- context [attemptStart env pid a0 ?x] => set (s2 := x) end.
  assert (attemptStart env pid a0 s2
          = (issue (Some pid) (ThreadLiveUnsubscribe w t)
               (setIgnoreDetachedEventsUntil
                  (<[keyForThread w t := (now env + SELF_DETACH_IGNORE_WINDOW_MS)%N]>
                     (ignoreDetachedEventsUntil s0))
                  (setDesiredSubscriptionKey (Some (keyForThread w t)) s2)),
             AwaitDedupeUnsubscribe)) as ->.
  { unfold attemptStart. simpl activeWorkspace.
    assert (activeWorkspace s2 = activeWorkspace s0) as ->
      by (unfold s2; now autorewrite with coord).
    assert (afterSessionReconnect env pid a0
              (setDesiredSubscriptionKey (Some (keyForThread w t)) s2)
            = (issue (Some pid) (ThreadLiveUnsubscribe w t)
                 (setIgnoreDetachedEventsUntil
                    (<[keyForThread w t := (now env + SELF_DETACH_IGNORE_WINDOW_MS)%N]>
                       (ignoreDetachedEventsUntil s0))
                    (setDesiredSubscriptionKey (Some (keyForThread w t)) s2)),
               AwaitDedupeUnsubscribe)) as Hbody.
    { unfold afterSessionReconnect, afterRefresh. simpl.
      assert (reconnectSequence s2 = reconnectSequence s0 + 1) as ->
        by (unfold s2; now autorewrite with coord).
      assert (activeSubscriptionKey s2 = Some (keyForThread w t)) as ->
        by (unfold s2; now autorewrite with coord).
      assert (ignoreDetachedEventsUntil s2 = ignoreDetachedEventsUntil s0) as ->
        by (unfold s2; now autorewrite with coord).
      now rewrite !bool_decide_eq_true_2. }
    unfold connectedOpt in Hconn.
    destruct (activeWorkspace s0) as [x|]; [|exact Hbody].
    rewrite Hconn. exact Hbody. }
  simpl. unfold s2. autorewrite with coord. simpl. repeat split; assumption.
Qed.

(** X18: the coordinator does not take its own unsubscribe for a drop.
    When [reconnectLive] is called with [runResume: false] for the key that
    is already active, on a connected workspace, the new attempt records
    the key as ignored until ten seconds later and issues an unsubscribe
    for it; a [thread/live_detached] event for that key arriving within
    those ten seconds only removes the record: the active key stays, the
    connection state stays, and no reconnect is started. *)
Theorem self_detach_is_suppressed (env env' : Env) (event : AppServerEvent)
  (s : State) (w : WorkspaceInfo) (t : string) :
  let key := keyForThread (ws_id w) t in
  let s1 := fst (reconnectLive env (ws_id w) t
                   (Some (mkReconnectOptions (Some false))) s) in
  backendMode s = "remote" ->
  activeWorkspace s = Some w -> ws_id w <> "" -> ws_connected w = true ->
  activeThreadId s = Some t -> t <> "" ->
  activeSubscriptionKey s = Some key ->
  (forall f, inFlightReconnect s = Some f -> if_key f = key ->
     if_sequence f <> reconnectSequence s) ->
  ev_workspace_id event = ws_id w ->
  ev_method event = Some "thread/live_detached" ->
  extractThreadId "thread/live_detached" (ev_params event) = Some t ->
  (now env' <= now env + SELF_DETACH_IGNORE_WINDOW_MS)%N ->
  calls s1
  = (calls s
     ++ [(Some (List.length (attempts s)),
          ThreadLiveUnsubscribe (ws_id w) t)])%list
  /\ ignoreDetachedEventsUntil s1 !! key
     = Some (now env + SELF_DETACH_IGNORE_WINDOW_MS)%N
  /\ onAppServerEvent env' event s1
     = setIgnoreDetachedEventsUntil (delete key (ignoreDetachedEventsUntil s1)) s1
  /\ activeSubscriptionKey (onAppServerEvent env' event s1) = Some key
  /\ connectionState (onAppServerEvent env' event s1) = connectionState s1
  /\ attempts (onAppServerEvent env' event s1) = attempts s1
  /\ calls (onAppServerEvent env' event s1) = calls s1.
Proof.
  intros key s1 Hmode Hw Hwid Hconn Ht Htid Hact Hfresh Hev Hm Hx Hnow.
  assert (passesChecks (ws_id w) t s) as Hchecks
    by (unfold passesChecks; rewrite Hw; repeat split; auto; now eexists).
  destruct (reconnectLive_passing env (ws_id w) t
              (Some (mkReconnectOptions (Some false))) s Hchecks)
    as [(f & Hfl & Hk & Hq & _)|(_ & s0 & Hcall & H1 & H2 & H3 & H4 & H5 & Hshape)];
    [now destruct (Hfresh f Hfl Hk)|].
  assert (connectedOpt (activeWorkspace s0) = true) as Hc0
    by (rewrite H4, Hw; exact Hconn).
  assert (activeSubscriptionKey s0 = Some (keyForThread (ws_id w) t)) as Ha0
    by (rewrite H5; exact Hact).
  destruct (startAttempt_dedupe env (ws_id w) t s0 Hc0 Ha0)
    as (Hcalls & Hign & Hactive & Hws & Hthread).
  assert (ignoreDetachedEventsUntil s0 = ignoreDetachedEventsUntil s
          /\ activeThreadId s0 = activeThreadId s) as [Hig0 Hth0]
    by (destruct Hshape as [-> | ->]; split; reflexivity).
  unfold s1. rewrite Hcall.
  set (s1' := fst (startAttempt _ _ _ _ _ _)) in *.
  assert (ignoreDetachedEventsUntil s1' !! key
          = Some (now env + SELF_DETACH_IGNORE_WINDOW_MS)%N) as Hentry
    by (rewrite Hign; apply lookup_insert_eq).
  assert (onAppServerEvent env' event s1'
          = setIgnoreDetachedEventsUntil
              (delete key (ignoreDetachedEventsUntil s1')) s1') as Hevent.
  { rewrite (onAppServerEvent_detached env' event s1' w t); auto;
      [|now rewrite Hws, H4|now rewrite Hthread, Hth0].
    unfold onLiveDetached. fold key. rewrite Hentry. simpl default.
    unfold SELF_DETACH_IGNORE_WINDOW_MS in *.
    destruct (N.ltb_spec 0 (now env + 10000)); [|lia].
    destruct (N.leb_spec (now env') (now env + 10000)); [|lia]. reflexivity. }
  split; [rewrite Hcalls; now rewrite H1, H3|].
  split; [exact Hentry|]. split; [exact Hevent|].
  rewrite Hevent. simpl. repeat split. exact Hactive.
Qed.

Lemma self_detach_is_suppressed_witness :
  let e := Scenario.foreground in
  let event := Scenario.event "thread/live_detached" "thread-1" in
  let s := run [(e, OpMount); (e, OpSettle 0 Fulfilled);
                (e, OpSettle 0 Fulfilled)]
             (initialState Scenario.selected) in
  let s1 := fst (reconnectLive e (ws_id Scenario.workspace) "thread-1"
                   (Some (mkReconnectOptions (Some false))) s) in
  activeSubscriptionKey s
  = Some (keyForThread (ws_id Scenario.workspace) "thread-1")
  /\ activeSubscriptionKey (onAppServerEvent e event s1)
     = Some (keyForThread (ws_id Scenario.workspace) "thread-1").
Proof.
  intros e event s s1.
  assert (activeSubscriptionKey s
          = Some (keyForThread (ws_id Scenario.workspace) "thread-1")) as Hact
    by (vm_compute; reflexivity).
  split; [exact Hact|].
  assert (backendMode s = "remote") as Hmode by (vm_compute; reflexivity).
  assert (activeWorkspace s = Some Scenario.workspace) as Hw
    by (vm_compute; reflexivity).
  assert (activeThreadId s = Some "thread-1") as Ht by (vm_compute; reflexivity).
  assert (inFlightReconnect s = None) as Hfl by (vm_compute; reflexivity).
  assert (now e <= now e + SELF_DETACH_IGNORE_WINDOW_MS)%N as Hnow
    by (vm_compute; discriminate).
  refine (proj1 (proj2 (proj2 (proj2
            (self_detach_is_suppressed e e event s Scenario.workspace "thread-1"
               Hmode Hw _ eq_refl Ht _ Hact _ eq_refl eq_refl eq_refl Hnow)))));
    first [discriminate | intros f Hf; rewrite Hfl in Hf; discriminate].
Defined.

(** ** The selection effect and the teardown *)

Lemma activeSubscriptionKey_reconnectLive (env : Env) (w t : string)
  (options : option ReconnectOptions) (s : State) :
  activeSubscriptionKey (fst (reconnectLive env w t options s))
  = activeSubscriptionKey s.
Proof.
  unfold reconnectLive.
  destruct (_ || _ || _ || _); [simpl; now autorewrite with coord|].
  assert (forall s0, activeSubscriptionKey s0 = activeSubscriptionKey s ->
            activeSubscriptionKey
              (fst (startAttempt env w t (keyForThread w t) options s0))
            = activeSubscriptionKey s) as Hstart.
  { intros s0 Hs0. unfold startAttempt.
    set (pid := List.length (attempts s0)).
    match goal with |- context [attemptStart env pid ?a0 ?x] =>
      set (a := a0); set (s2 := x) end.
    assert (at_sequence a = reconnectSequence s2) as Hcur
      by (unfold s2; now autorewrite with coord).
    destruct (attemptStart_current env pid a s2 Hcur) as (_ & _ & _ & Hact & _).
    destruct (snd (attemptStart env pid a s2)); simpl; autorewrite with coord;
      simpl; rewrite Hact; unfold s2; now autorewrite with coord. }
  simpl inFlightReconnect.
  destruct (inFlightReconnect s) as [f|];
    [destruct (bool_decide (if_key f = _));
     [destruct (bool_decide (if_sequence f = _))|]|];
    try (now apply Hstart); reflexivity.
Qed.

Lemma calls_reconnectLive (env : Env) (w t : string)
  (options : option ReconnectOptions) (s : State) :
  exists rest,
    calls (fst (reconnectLive env w t options s)) = (calls s ++ rest)%list.
Proof.
  assert (forall s0, calls s0 = calls s ->
            exists rest,
              calls (fst (startAttempt env w t (keyForThread w t) options s0))
              = (calls s ++ rest)%list) as Hstart.
  { intros s0 Hs0. unfold startAttempt.
    set (pid := List.length (attempts s0)).
    match goal with |- context [attemptStart env pid ?a0 ?x] =>
      set (a := a0); set (s2 := x) end.
    destruct (bodyStep_attemptStart env pid a s2)
      as [_ _ _ _ (extra & Hcalls & _)].
    exists extra.
    destruct (snd (attemptStart env pid a s2)); simpl; autorewrite with coord;
      simpl; rewrite Hcalls; unfold s2; autorewrite with coord; simpl;
      now rewrite Hs0. }
  unfold reconnectLive.
  destruct (_ || _ || _ || _);
    [exists []; simpl; autorewrite with coord; now rewrite app_nil_r|].
  simpl inFlightReconnect.
  destruct (inFlightReconnect s) as [f|];
    [destruct (bool_decide (if_key f = _));
     [destruct (bool_decide (if_sequence f = _))|]|];
    try (now apply Hstart).
  exists []. simpl. now rewrite app_nil_r.
Qed.

(** X19: the selection effect sets the desired key to the key of the
    selection. When nothing is selected for remote watching, or when the
    document is hidden, it starts no attempt: the attempts, the sequence
    and the in-flight record stay as they were and the connection state is
    reconciled to the resting state. In every case a previous active key
    that differs from the new key is cleared, with an unsubscribe issued
    for the ids it parses to before anything else. *)
Theorem selectionEffect_quiet_and_release (env : Env) (s : State) :
  (selectionKey s = None \/ visible env = false ->
   desiredSubscriptionKey (selectionEffect env s) = selectionKey s
   /\ attempts (selectionEffect env s) = attempts s
   /\ reconnectSequence (selectionEffect env s) = reconnectSequence s
   /\ inFlightReconnect (selectionEffect env s) = inFlightReconnect s
   /\ connectionState (selectionEffect env s)
      = restingState (backendMode s) (activeWorkspace s))
  /\ (forall previous,
        activeSubscriptionKey s = Some previous -> previous <> "" ->
        selectionKey s <> Some previous ->
        activeSubscriptionKey (selectionEffect env s) = None
        /\ exists rest,
             calls (selectionEffect env s)
             = (calls s
                ++ match splitKey previous with
                   | Some parsed =>
                       [(None, ThreadLiveUnsubscribe (pk_workspaceId parsed)
                                 (pk_threadId parsed))]
                   | None => []
                   end ++ rest)%list).
Proof.
  split.
  - intros Hquiet. unfold selectionEffect. fold (selectionKey s).
    set (s1 := setDesiredSubscriptionKey (selectionKey s) s).
    set (s2 := match activeSubscriptionKey s1 with Some k => _ | None => s1 end).
    assert (desiredSubscriptionKey s2 = selectionKey s /\ attempts s2 = attempts s
            /\ reconnectSequence s2 = reconnectSequence s
            /\ inFlightReconnect s2 = inFlightReconnect s
            /\ backendMode s2 = backendMode s
            /\ activeWorkspace s2 = activeWorkspace s)
      as (Hd & Hat & Hsq & Hfl & Hmode & Hws).
    { unfold s2. destruct (activeSubscriptionKey s1) as [k|]; [|repeat split].
      destruct (Js.truthy k && _); autorewrite with coord; repeat split. }
    assert (desiredSubscriptionKey (reconcileDisconnectedState s2) = selectionKey s
            /\ attempts (reconcileDisconnectedState s2) = attempts s
            /\ reconnectSequence (reconcileDisconnectedState s2)
               = reconnectSequence s
            /\ inFlightReconnect (reconcileDisconnectedState s2)
               = inFlightReconnect s
            /\ connectionState (reconcileDisconnectedState s2)
               = restingState (backendMode s) (activeWorkspace s)) as Hrec
      by (rewrite connectionState_reconcile, Hmode, Hws; autorewrite with coord;
          repeat split; assumption).
    destruct (selectionKey s) as [key|] eqn:Hkey; [|exact Hrec].
    destruct Hquiet as [?| ->]; [discriminate|]. exact Hrec.
  - intros previous Hact Hne Hother. unfold selectionEffect.
    fold (selectionKey s).
    set (s1 := setDesiredSubscriptionKey (selectionKey s) s).
    assert (activeSubscriptionKey s1 = Some previous) as -> by exact Hact.
    rewrite (truthy_true previous Hne).
    rewrite bool_decide_eq_false_2 by (intros Heq; apply Hother; now rewrite <- Heq).
    simpl andb. cbv iota.
    set (s2 := unsubscribeByKey previous (setActiveSubscriptionKey None s1)).
    assert (activeSubscriptionKey s2 = None) as Ha2
      by (unfold s2; now autorewrite with coord).
    assert (calls s2
            = (calls s
               ++ match splitKey previous with
                  | Some parsed =>
                      [(None, ThreadLiveUnsubscribe (pk_workspaceId parsed)
                                (pk_threadId parsed))]
                  | None => []
                  end)%list) as Hc2
      by (unfold s2, unsubscribeByKey; destruct (splitKey previous); simpl;
          [reflexivity | now rewrite app_nil_r]).
    assert (activeSubscriptionKey (reconcileDisconnectedState s2) = None
            /\ exists rest,
                 calls (reconcileDisconnectedState s2)
                 = (calls s
                    ++ match splitKey previous with
                       | Some parsed =>
                           [(None, ThreadLiveUnsubscribe (pk_workspaceId parsed)
                                     (pk_threadId parsed))]
                       | None => []
                       end ++ rest)%list) as Hrec.
    { autorewrite with coord. split; [exact Ha2|]. exists [].
      now rewrite Hc2, app_nil_r. }
    destruct (selectionKey s) as [key|]; [|exact Hrec].
    destruct (negb (visible env)); [exact Hrec|].
    destruct (splitKey key) as [parsed|]; [|exact Hrec].
    destruct (_ && _ && _).
    + split; [exact Ha2|]. exists []. now rewrite Hc2, app_nil_r.
    + rewrite activeSubscriptionKey_reconnectLive. split; [exact Ha2|].
      match goal with |- context [reconnectLive ?e ?w ?t ?o s2] =>
        destruct (calls_reconnectLive e w t o s2) as (rest & ->) end.
      exists rest. now rewrite Hc2, <- app_assoc.
Qed.

Lemma selectionEffect_quiet_and_release_witness :
  let e := Scenario.foreground in
  let attached :=
    onAppServerEvent e (Scenario.event "thread/live_attached" "thread-1")
      (initialState Scenario.selected) in
  let s := setProps (mkProps "remote" (Some Scenario.workspace)
                       (Some "thread-2") false) attached in
  activeSubscriptionKey s = Some "ws-1:thread-1"
  /\ activeSubscriptionKey (selectionEffect e s) = None.
Proof.
  intros e attached s.
  assert (activeSubscriptionKey s = Some "ws-1:thread-1") as Hact
    by (vm_compute; reflexivity).
  split; [exact Hact|].
  assert (selectionKey s <> Some "ws-1:thread-1") as Hother
    by (vm_compute; discriminate).
  refine (proj1 (proj2 (selectionEffect_quiet_and_release e s)
                   "ws-1:thread-1" Hact _ Hother)).
  discriminate.
Defined.

(** X20: when the selection effect runs while the document is visible, the
    key of the selection parses, is already the active key, the connection
    state is not disconnected and the workspace is connected, it only sets
    the desired key: no unsubscribe, no attempt, no call, the same
    connection state. *)
Theorem selectionEffect_satisfied (env : Env) (s : State) (key : string) :
  selectionKey s = Some key -> visible env = true ->
  splitKey key <> None ->
  activeSubscriptionKey s = Some key ->
  connectionState s <> Disconnected ->
  connectedOpt (activeWorkspace s) = true ->
  selectionEffect env s = setDesiredSubscriptionKey (Some key) s
  /\ calls (selectionEffect env s) = calls s
  /\ attempts (selectionEffect env s) = attempts s
  /\ reconnectSequence (selectionEffect env s) = reconnectSequence s
  /\ connectionState (selectionEffect env s) = connectionState s.
Proof.
  intros Hkey Hvis Hparse Hact Hconn Hws.
  assert (selectionEffect env s = setDesiredSubscriptionKey (Some key) s) as ->;
    [|repeat split].
  unfold selectionEffect. fold (selectionKey s). rewrite Hkey, Hvis.
  simpl activeSubscriptionKey. rewrite Hact.
  rewrite (bool_decide_eq_true_2 (Some key = Some key)) by reflexivity.
  rewrite andb_false_r. simpl negb. cbv iota.
  destruct (splitKey key) as [parsed|]; [|contradiction].
  simpl. rewrite Hact, Hws.
  rewrite bool_decide_eq_true_2 by reflexivity.
  rewrite bool_decide_eq_false_2 by exact Hconn. reflexivity.
Qed.

Lemma selectionEffect_satisfied_witness :
  let e := Scenario.foreground in
  let s := onAppServerEvent e (Scenario.event "thread/live_attached" "thread-1")
             (initialState Scenario.selected) in
  calls (selectionEffect e s) = calls s.
Proof.
  intros e s.
  assert (selectionKey s = Some "ws-1:thread-1") as Hkey by (vm_compute; reflexivity).
  assert (splitKey "ws-1:thread-1" <> None) as Hparse by (vm_compute; discriminate).
  assert (activeSubscriptionKey s = Some "ws-1:thread-1") as Hact
    by (vm_compute; reflexivity).
  assert (connectionState s <> Disconnected) as Hconn by (vm_compute; discriminate).
  assert (connectedOpt (activeWorkspace s) = true) as Hws
    by (vm_compute; reflexivity).
  exact (proj1 (proj2 (selectionEffect_satisfied e s "ws-1:thread-1"
                         Hkey eq_refl Hparse Hact Hconn Hws))).
Defined.

(** X21: the teardown clears the desired key and empties the map of
    ignored detach events; an active key is cleared with an unsubscribe for
    the ids it parses to. It leaves the sequence, the connection state, the
    in-flight record and the attempts as they are: unlike a blur it does
    not advance the sequence and does not reconcile the state. *)
Theorem teardown_effect (s : State) :
  desiredSubscriptionKey (teardown s) = None
  /\ ignoreDetachedEventsUntil (teardown s) = ∅
  /\ reconnectSequence (teardown s) = reconnectSequence s
  /\ connectionState (teardown s) = connectionState s
  /\ inFlightReconnect (teardown s) = inFlightReconnect s
  /\ attempts (teardown s) = attempts s
  /\ match activeSubscriptionKey s with
     | Some key =>
         if Js.truthy key then
           activeSubscriptionKey (teardown s) = None
           /\ calls (teardown s)
              = (calls s
                 ++ match splitKey key with
                    | Some parsed =>
                        [(None, ThreadLiveUnsubscribe (pk_workspaceId parsed)
                                  (pk_threadId parsed))]
                    | None => []
                    end)%list
         else activeSubscriptionKey (teardown s) = Some key
              /\ calls (teardown s) = calls s
     | None => activeSubscriptionKey (teardown s) = None
               /\ calls (teardown s) = calls s
     end.
Proof.
  unfold teardown. simpl activeSubscriptionKey.
  destruct (activeSubscriptionKey s) as [key|] eqn:Hact;
    [destruct (Js.truthy key)|]; autorewrite with coord; simpl;
    repeat split; auto.
  unfold unsubscribeByKey. destruct (splitKey key); simpl;
    [reflexivity | now rewrite app_nil_r].
Qed.

(** ** The resting state *)

Lemma setState_twice (c : RemoteThreadConnectionState) (s : State) :
  setState c (setState c s) = setState c s.
Proof.
  unfold setState at 1. rewrite connectionState_setState.
  now rewrite bool_decide_eq_true_2.
Qed.

(** X22: [reconcileDisconnectedState] changes nothing but the connection
    state and reconciling twice is reconciling once. The state it sets is
    never live in remote mode, never polling in any other mode, and
    disconnected whenever the workspace is absent or not connected. *)
Theorem reconcile_facts (s : State) :
  reconcileDisconnectedState (reconcileDisconnectedState s)
  = reconcileDisconnectedState s
  /\ (backendMode s = "remote" ->
      connectionState (reconcileDisconnectedState s) <> Live)
  /\ (backendMode s <> "remote" ->
      connectionState (reconcileDisconnectedState s) <> Polling)
  /\ (connectedOpt (activeWorkspace s) = false ->
      connectionState (reconcileDisconnectedState s) = Disconnected)
  /\ calls (reconcileDisconnectedState s) = calls s
  /\ activeSubscriptionKey (reconcileDisconnectedState s)
     = activeSubscriptionKey s
  /\ desiredSubscriptionKey (reconcileDisconnectedState s)
     = desiredSubscriptionKey s
  /\ reconnectSequence (reconcileDisconnectedState s) = reconnectSequence s.
Proof.
  split.
  - unfold reconcileDisconnectedState at 1. autorewrite with coord.
    unfold reconcileDisconnectedState.
    destruct (negb (String.eqb (backendMode s) "remote"));
      [|destruct (negb (connectedOpt (activeWorkspace s)))];
      apply setState_twice.
  - rewrite connectionState_reconcile. autorewrite with coord.
    unfold restingState. repeat split.
    + intros ->. simpl. now destruct (connectedOpt (activeWorkspace s)).
    + intros Hne. destruct (String.eqb_spec (backendMode s) "remote");
        [contradiction|]. simpl. now destruct (connectedOpt (activeWorkspace s)).
    + intros ->. simpl. now destruct (negb _).
Qed.

Lemma reconcile_facts_witness :
  connectionState
    (reconcileDisconnectedState
       (setConnectionState Live (initialState Scenario.selected))) <> Live.
Proof.
  apply (proj1 (proj2 (reconcile_facts
                         (setConnectionState Live
                            (initialState Scenario.selected))))).
  reflexivity.
Defined.

(** ** The in-flight record *)

Lemma inFlightPending_same (s s' : State) :
  attempts s' = attempts s -> inFlightReconnect s' = inFlightReconnect s ->
  inFlightPending s -> inFlightPending s'.
Proof. intros Hat Hfl H f. rewrite Hat, Hfl. apply H. Qed.

Lemma inFlightPending_initialState (p : Props) : inFlightPending (initialState p).
Proof. intros f Hf. discriminate. Qed.

Lemma inFlightPending_park (pid : nat) (a : Attempt) (s : State)
  (r : State * Suspension) :
  inFlightPending s -> attempts s !! pid = Some a ->
  attempts (fst r) = attempts s -> inFlightReconnect (fst r) = inFlightReconnect s ->
  inFlightPending (park pid a r).
Proof.
  intros H Ha Hat Hfl f Hf.
  assert (pid < List.length (attempts s))%nat as Hlt by now apply lookup_lt_Some in Ha.
  rewrite attempts_park, Hat.
  assert (inFlightReconnect s = Some f
          /\ (if_promise f = pid -> forall b, snd r <> Settled b)) as [Hs Hpid].
  { unfold park in Hf. destruct (snd r) eqn:Hr; simpl in Hf;
      try (rewrite Hfl in Hf; split; [exact Hf | discriminate]).
    unfold finallyClear in Hf. simpl in Hf.
    destruct (inFlightReconnect s) as [g|] eqn:Hs0; rewrite Hfl in Hf;
      [|simpl in Hf; rewrite Hfl in Hf; discriminate].
    case_bool_decide; simpl in Hf; [discriminate|].
    rewrite Hfl in Hf. injection Hf as <-. split; [reflexivity | contradiction]. }
  destruct (H f Hs) as (x & Hx & Hpend & Hkey & Hseq).
  destruct (decide (if_promise f = pid)) as [Heq|Hne].
  - rewrite Heq in *. rewrite Ha in Hx. injection Hx as <-.
    exists (withSuspension a (snd r)). rewrite list_lookup_insert_eq by assumption.
    repeat split; try assumption.
    unfold isPending. simpl. specialize (Hpid eq_refl).
    destruct (snd r); try reflexivity. now destruct (Hpid result).
  - exists x. rewrite list_lookup_insert_ne by congruence. repeat split; assumption.
Qed.

Lemma inFlightPending_resume (env : Env) (pid : nat) (o : Outcome) (s : State) :
  inFlightPending s -> inFlightPending (resume env pid o s).
Proof.
  intros H. assert (beforeSubscribe AwaitReconnectWorkspace) as Hb by (left; reflexivity).
  unfold resume. destruct (attempts s !! pid) as [a|] eqn:Ha; [|assumption].
  destruct (at_suspension a), o; try assumption;
    apply (inFlightPending_park pid a s); try assumption;
    first [ apply (bs_attempts _ _ _ _ _ (bodyStep_onRejected pid a AwaitSubscribe s))
          | apply (bs_inFlight _ _ _ _ _ (bodyStep_onRejected pid a AwaitSubscribe s))
          | apply (bs_attempts _ _ _ _ _ (bodyStep_afterSubscribe pid a s))
          | apply (bs_inFlight _ _ _ _ _ (bodyStep_afterSubscribe pid a s))
          | apply (bs_attempts _ _ _ _ _ (bodyStep_afterStaleUnsubscribe pid a s))
          | apply (bs_inFlight _ _ _ _ _ (bodyStep_afterStaleUnsubscribe pid a s))
          | apply (bs_attempts _ _ _ _ _ (bodyStep_afterSessionReconnect env pid a _ s Hb))
          | apply (bs_inFlight _ _ _ _ _ (bodyStep_afterSessionReconnect env pid a _ s Hb))
          | apply (bs_attempts _ _ _ _ _ (bodyStep_afterRefresh env pid a _ s Hb))
          | apply (bs_inFlight _ _ _ _ _ (bodyStep_afterRefresh env pid a _ s Hb))
          | apply (bs_attempts _ _ _ _ _ (bodyStep_afterDedupeUnsubscribe pid a _ s Hb))
          | apply (bs_inFlight _ _ _ _ _ (bodyStep_afterDedupeUnsubscribe pid a _ s Hb)) ].
Qed.

Lemma inFlightPending_startAttempt (env : Env) (w t key : string)
  (options : option ReconnectOptions) (s : State) :
  inFlightPending (fst (startAttempt env w t key options s)).
Proof.
  unfold startAttempt. simpl fst.
  set (pid := List.length (attempts s)).
  match goal with |- context [attemptStart env pid ?a0 ?x] =>
    set (a := a0); set (s2 := x) end.
  destruct (bodyStep_attemptStart env pid a s2) as [Bseq _ Bat _ _].
  assert (attempts s2 = attempts s) as Hat2
    by (unfold s2; now autorewrite with coord).
  destruct (snd (attemptStart env pid a s2)) eqn:Hr;
    try (intros f Hf; simpl in Hf; injection Hf as <-; simpl;
         rewrite Bat, Hat2; eexists; split;
         [apply list_lookup_middle; reflexivity|];
         repeat split; simpl; rewrite Bseq; unfold s2;
         now autorewrite with coord).
  intros f Hf. unfold finallyClear in Hf. simpl in Hf.
  rewrite bool_decide_eq_true_2 in Hf by reflexivity. discriminate.
Qed.

Lemma inFlightPending_reconnectLive (env : Env) (w t : string)
  (options : option ReconnectOptions) (s : State) :
  inFlightPending s -> inFlightPending (fst (reconnectLive env w t options s)).
Proof.
  intros H. unfold reconnectLive.
  destruct (_ || _ || _ || _);
    [simpl; apply (inFlightPending_same s); autorewrite with coord; auto|].
  simpl inFlightReconnect.
  destruct (inFlightReconnect s) as [f|];
    [destruct (bool_decide (if_key f = _));
     [destruct (bool_decide (if_sequence f = _))|]|];
    try apply inFlightPending_startAttempt.
  now apply (inFlightPending_same s).
Qed.

Ltac in_flight_kept :=
  first [ apply inFlightPending_reconnectLive | idtac ];
  match goal with
  | H : inFlightPending ?s |- inFlightPending _ =>
      apply (inFlightPending_same s);
      [autorewrite with coord; simpl; autorewrite with coord; reflexivity
      |autorewrite with coord; simpl; autorewrite with coord; reflexivity
      |exact H]
  end.

Lemma inFlightPending_step (env : Env) (op : Operation) (s : State) :
  inFlightPending s -> inFlightPending (step env op s).
Proof.
  intros H. destruct op; simpl;
    try (now apply inFlightPending_resume);
    unfold selectionEffect, onAppServerEvent, onLiveDetached, handleFocus,
      handleVisibilityChange, reconnectActiveThread, handleBlur, teardown;
    repeat case_match; in_flight_kept.
Qed.

Lemma reachable_inFlightPending (s : State) : reachable s -> inFlightPending s.
Proof.
  induction 1 as [p|env op s _ IH];
    [apply inFlightPending_initialState | now apply inFlightPending_step].
Qed.

(** X23: in every reachable state the in-flight record names an attempt
    that is still unresolved and has the record's key and sequence number,
    which is never above the current sequence. So the promise a call of
    [reconnectLive] resolves with, whether shared or new, is always the
    promise of an attempt for the requested key that is unresolved when
    the call returns. *)
Theorem reconnectLive_promise_is_pending (env : Env) (w t : string)
  (options : option ReconnectOptions) (s : State) (pid : nat) :
  reachable s ->
  (forall f, inFlightReconnect s = Some f ->
     if_sequence f <= reconnectSequence s
     /\ exists a, attempts s !! if_promise f = Some a /\ isPending a = true
                  /\ at_targetKey a = if_key f /\ at_sequence a = if_sequence f)
  /\ (snd (reconnectLive env w t options s) = AttemptPromise pid ->
      exists a, attempts (fst (reconnectLive env w t options s)) !! pid = Some a
                /\ isPending a = true /\ at_targetKey a = keyForThread w t).
Proof.
  intros Hreach.
  pose proof (reachable_Inv s Hreach) as HI.
  pose proof (reachable_inFlightPending s Hreach) as HP.
  split.
  - intros f Hf. destruct (HP f Hf) as (a & Ha & Hpend & Hkey & Hseq).
    split; [rewrite <- Hseq; now apply (inv_sequence s HI (if_promise f) a)|].
    exists a. repeat split; assumption.
  - destruct (decide (passesChecks w t s)) as [Hp|Hp];
      [|rewrite (reconnectLive_failing env w t options s Hp); discriminate].
    destruct (reconnectLive_passing env w t options s Hp)
      as [(f & Hfl & Hk & _ & ->)|(_ & s0 & -> & H1 & H2 & H3 & H4 & H5 & _)].
    + simpl. intros [= <-]. destruct (HP f Hfl) as (a & Ha & Hpend & Hkey & _).
      exists a. repeat split; try assumption. now rewrite Hkey.
    + destruct (startAttempt_effect env w t options s s0 H1 H2 H3 H4 H5)
        as (-> & _ & _ & _ & _ & _ & (susp & Hsusp & ->) & _).
      intros [= <-]. eexists. split; [apply list_lookup_middle; reflexivity|].
      split; [|reflexivity]. unfold isPending. simpl.
      destruct susp; try reflexivity. now destruct (Hsusp result).
Qed.

Lemma reconnectLive_promise_is_pending_witness :
  let e := Scenario.foreground in
  let s := fst (reconnectLive e "ws-1" "thread-1" Scenario.withoutResume
                  (initialState Scenario.idle)) in
  reachable s
  /\ exists a,
       attempts (fst (reconnectLive e "ws-1" "thread-1" Scenario.withResume s))
         !! 0%nat = Some a
       /\ isPending a = true /\ at_targetKey a = keyForThread "ws-1" "thread-1".
Proof.
  intros e s.
  assert (reachable s) as Hreach
    by apply (reachable_step e
                (OpReconnectLive "ws-1" "thread-1" Scenario.withoutResume)
                _ (reachable_init Scenario.idle)).
  split; [exact Hreach|].
  apply (proj2 (reconnectLive_promise_is_pending e "ws-1" "thread-1"
                  Scenario.withResume s 0 Hreach)).
  vm_compute. reflexivity.
Defined.

(** X24: a blur followed by a focus starts over. With a workspace and a
    thread selected in remote mode and the document visible, the focus
    that follows a blur never shares an attempt started before the blur:
    it starts a new attempt for the selected key with [runResume: true];
    the sequence ends two above its value before the blur, and the new
    attempt is the one in flight. *)
Theorem blur_then_focus_restarts (env : Env) (s : State) (w : WorkspaceInfo)
  (t : string) :
  let key := keyForThread (ws_id w) t in
  let s' := handleFocus env (handleBlur s) in
  reachable s -> visible env = true ->
  backendMode s = "remote" ->
  activeWorkspace s = Some w -> ws_id w <> "" ->
  activeThreadId s = Some t -> t <> "" ->
  reconnectSequence s' = reconnectSequence s + 2
  /\ inFlightReconnect s'
     = Some (mkInFlight key (reconnectSequence s + 2) (List.length (attempts s)))
  /\ desiredSubscriptionKey s' = Some key
  /\ exists susp,
       (forall b, susp <> Settled b)
       /\ attempts s'
          = (attempts s
             ++ [mkAttempt (ws_id w) t key
                   (Some (mkReconnectOptions (Some true)))
                   (reconnectSequence s + 2) susp])%list.
Proof.
  intros key s' Hreach Hvis Hmode Hw Hwid Ht Htid.
  pose proof (reachable_Inv s Hreach) as HI.
  pose proof (reachable_inFlightPending s Hreach) as HP.
  set (s1 := handleBlur s).
  assert (attempts s1 = attempts s /\ inFlightReconnect s1 = inFlightReconnect s
          /\ backendMode s1 = backendMode s
          /\ activeWorkspace s1 = activeWorkspace s
          /\ activeThreadId s1 = activeThreadId s)
    as (Hat & Hfl & Hmode1 & Hw1 & Ht1).
  { unfold s1, handleBlur. simpl activeSubscriptionKey.
    destruct (activeSubscriptionKey s) as [k|] eqn:Hk; [|repeat split].
    destruct (Js.truthy k) eqn:Htr; simpl negb; cbv iota;
      autorewrite with coord; repeat split. }
  assert (reconnectSequence s1 = reconnectSequence s + 1) as Hsq
    by apply reconnectSequence_handleBlur.
  assert (s' = fst (reconnectLive env (ws_id w) t
                      (Some (mkReconnectOptions (Some true))) s1)) as ->.
  { unfold s', handleFocus, reconnectActiveThread. fold s1.
    rewrite Hvis, Hw1, Hw, Ht1, Ht. simpl.
    now rewrite (truthy_true _ Hwid), (truthy_true _ Htid). }
  assert (passesChecks (ws_id w) t s1) as Hchecks
    by (unfold passesChecks; rewrite Hmode1, Hw1, Hw; repeat split; eauto).
  destruct (reconnectLive_passing env (ws_id w) t
              (Some (mkReconnectOptions (Some true))) s1 Hchecks)
    as [(f & Hf & _ & Hq & _)|(_ & s0 & -> & H1 & H2 & H3 & H4 & H5 & _)].
  - exfalso. rewrite Hfl in Hf. destruct (HP f Hf) as (a & Ha & _ & _ & Hseq).
    pose proof (inv_sequence s HI _ a Ha) as Hle. lia.
  - destruct (startAttempt_effect env (ws_id w) t
                (Some (mkReconnectOptions (Some true))) s1 s0 H1 H2 H3 H4 H5)
      as (_ & Hseq' & Hfl' & Hdes & _ & _ & (susp & Hsusp & Hatt) & _).
    rewrite Hseq', Hfl', Hdes, Hatt, Hsq, Hat.
    replace (reconnectSequence s + 1 + 1) with (reconnectSequence s + 2) by lia.
    repeat split. exists susp. split; [exact Hsusp | reflexivity].
Qed.

Lemma blur_then_focus_restarts_witness :
  let e := Scenario.foreground in
  let s := run [(e, OpMount); (e, OpSettle 0 Fulfilled)]
             (initialState Scenario.selected) in
  reachable s
  /\ reconnectSequence (handleFocus e (handleBlur s)) = reconnectSequence s + 2.
Proof.
  intros e s.
  assert (reachable s) as Hreach by apply reachable_run, reachable_init.
  split; [exact Hreach|].
  assert (backendMode s = "remote") as Hmode by (vm_compute; reflexivity).
  assert (activeWorkspace s = Some Scenario.workspace) as Hw
    by (vm_compute; reflexivity).
  assert (activeThreadId s = Some "thread-1") as Ht by (vm_compute; reflexivity).
  refine (proj1 (blur_then_focus_restarts e s Scenario.workspace "thread-1"
                   Hreach eq_refl Hmode Hw _ Ht _)); discriminate.
Defined.

(** ** Who calls the collaborators *)

Lemma ownCalls_same (s s' : State) :
  calls s' = calls s -> ownCallsAreUnsubscribes s -> ownCallsAreUnsubscribes s'.
Proof. unfold ownCallsAreUnsubscribes. now intros ->. Qed.

Lemma ownCalls_attempt (s s' : State) (pid : nat) (a : Attempt)
  (extra : list LoggedCall) :
  calls s' = (calls s ++ extra)%list -> Forall (issuedBy pid a) extra ->
  ownCallsAreUnsubscribes s -> ownCallsAreUnsubscribes s'.
Proof.
  unfold ownCallsAreUnsubscribes. intros -> Hextra H.
  apply Forall_app. split; [exact H|].
  eapply Forall_impl; [exact Hextra|].
  intros [i c] [Hi _] Hnone. simpl in Hi, Hnone. congruence.
Qed.

Lemma ownCalls_initialState (p : Props) : ownCallsAreUnsubscribes (initialState p).
Proof. constructor. Qed.

Lemma ownCalls_unsubscribeByKey (key : string) (s : State) :
  ownCallsAreUnsubscribes s -> ownCallsAreUnsubscribes (unsubscribeByKey key s).
Proof.
  unfold unsubscribeByKey, ownCallsAreUnsubscribes.
  destruct (splitKey key); [|trivial]. intros H. simpl.
  apply Forall_app. split; [exact H|]. now repeat constructor.
Qed.

Lemma ownCalls_setState (c : RemoteThreadConnectionState) (s : State) :
  ownCallsAreUnsubscribes s -> ownCallsAreUnsubscribes (setState c s).
Proof. apply ownCalls_same. now autorewrite with coord. Qed.

Lemma ownCalls_reconcileDisconnectedState (s : State) :
  ownCallsAreUnsubscribes s ->
  ownCallsAreUnsubscribes (reconcileDisconnectedState s).
Proof. apply ownCalls_same. now autorewrite with coord. Qed.

Lemma ownCalls_setDesiredSubscriptionKey (k : option string) (s : State) :
  ownCallsAreUnsubscribes s ->
  ownCallsAreUnsubscribes (setDesiredSubscriptionKey k s).
Proof. now apply ownCalls_same. Qed.

Lemma ownCalls_setActiveSubscriptionKey (k : option string) (s : State) :
  ownCallsAreUnsubscribes s ->
  ownCallsAreUnsubscribes (setActiveSubscriptionKey k s).
Proof. now apply ownCalls_same. Qed.

Lemma ownCalls_setIgnoreDetachedEventsUntil (m : gmap string N) (s : State) :
  ownCallsAreUnsubscribes s ->
  ownCallsAreUnsubscribes (setIgnoreDetachedEventsUntil m s).
Proof. now apply ownCalls_same. Qed.

Lemma ownCalls_setReconnectSequence (n : Z) (s : State) :
  ownCallsAreUnsubscribes s -> ownCallsAreUnsubscribes (setReconnectSequence n s).
Proof. now apply ownCalls_same. Qed.

Lemma ownCalls_setProps (p : Props) (s : State) :
  ownCallsAreUnsubscribes s -> ownCallsAreUnsubscribes (setProps p s).
Proof. now apply ownCalls_same. Qed.

Lemma ownCalls_resume (env : Env) (pid : nat) (o : Outcome) (s : State) :
  ownCallsAreUnsubscribes s -> ownCallsAreUnsubscribes (resume env pid o s).
Proof.
  intros H. assert (beforeSubscribe AwaitReconnectWorkspace) as Hb by (left; reflexivity).
  unfold resume. destruct (attempts s !! pid) as [a|] eqn:Ha; [|assumption].
  assert (forall old r, BodyStep pid a old s r ->
            ownCallsAreUnsubscribes (park pid a r)) as Hpark.
  { intros old r [_ _ _ _ (extra & Hcalls & Hextra & _)].
    apply (ownCalls_attempt s _ pid a extra); [|assumption..].
    now rewrite calls_park. }
  destruct (at_suspension a), o; try assumption;
    first [ apply (Hpark _ _ (bodyStep_onRejected pid a AwaitSubscribe s))
          | apply (Hpark _ _ (bodyStep_afterSubscribe pid a s))
          | apply (Hpark _ _ (bodyStep_afterStaleUnsubscribe pid a s))
          | apply (Hpark _ _ (bodyStep_afterSessionReconnect env pid a _ s Hb))
          | apply (Hpark _ _ (bodyStep_afterRefresh env pid a _ s Hb))
          | apply (Hpark _ _ (bodyStep_afterDedupeUnsubscribe pid a _ s Hb)) ].
Qed.

Lemma ownCalls_startAttempt (env : Env) (w t key : string)
  (options : option ReconnectOptions) (s : State) :
  ownCallsAreUnsubscribes s ->
  ownCallsAreUnsubscribes (fst (startAttempt env w t key options s)).
Proof.
  intros H. unfold startAttempt. simpl fst.
  set (pid := List.length (attempts s)).
  match goal with |- context [attemptStart env pid ?a0 ?x] =>
    set (a := a0); set (s2 := x) end.
  destruct (bodyStep_attemptStart env pid a s2)
    as [_ _ _ _ (extra & Hcalls & Hextra & _)].
  apply (ownCalls_attempt s _ pid a extra); [|assumption..].
  destruct (snd (attemptStart env pid a s2)); autorewrite with coord; simpl;
    rewrite Hcalls; unfold s2; now autorewrite with coord.
Qed.

Lemma ownCalls_reconnectLive (env : Env) (w t : string)
  (options : option ReconnectOptions) (s : State) :
  ownCallsAreUnsubscribes s ->
  ownCallsAreUnsubscribes (fst (reconnectLive env w t options s)).
Proof.
  intros H. unfold reconnectLive.
  destruct (_ || _ || _ || _); [now apply ownCalls_reconcileDisconnectedState|].
  simpl inFlightReconnect.
  destruct (inFlightReconnect s) as [f|];
    [destruct (bool_decide (if_key f = _));
     [destruct (bool_decide (if_sequence f = _))|]|];
    try (now apply ownCalls_startAttempt).
  exact H.
Qed.

Create HintDb owncalls.

#[global] Hint Resolve ownCalls_unsubscribeByKey ownCalls_setState
  ownCalls_reconcileDisconnectedState ownCalls_setDesiredSubscriptionKey
  ownCalls_setActiveSubscriptionKey ownCalls_setIgnoreDetachedEventsUntil
  ownCalls_setReconnectSequence ownCalls_setProps ownCalls_resume
  ownCalls_reconnectLive : owncalls.

Lemma ownCalls_step (env : Env) (op : Operation) (s : State) :
  ownCallsAreUnsubscribes s -> ownCallsAreUnsubscribes (step env op s).
Proof.
  intros H. destruct op; simpl;
    unfold selectionEffect, onAppServerEvent, onLiveDetached, handleFocus,
      handleVisibilityChange, reconnectActiveThread, handleBlur, teardown;
    repeat case_match; auto 10 with owncalls.
Qed.

Lemma reachable_ownCalls (s : State) : reachable s -> ownCallsAreUnsubscribes s.
Proof.
  induction 1 as [p|env op s _ IH];
    [apply ownCalls_initialState | now apply ownCalls_step].
Qed.

(** X25: the handlers and effects themselves only ever unsubscribe. Every
    subscribe, refresh and session-reconnect call in the log was issued by
    a reconnect attempt, for that attempt's own workspace and thread. *)
Theorem only_attempts_subscribe (s : State) (issuer : option nat) (c : Call) :
  reachable s -> (issuer, c) ∈ calls s ->
  isUnsubscribe (issuer, c) = false ->
  exists pid a, issuer = Some pid /\ attempts s !! pid = Some a /\ callOf a c.
Proof.
  intros Hreach Hin Hkind.
  pose proof (reachable_ownCalls s Hreach) as Hown.
  pose proof (inv_owned s (reachable_Inv s Hreach)) as Hatt.
  unfold ownCallsAreUnsubscribes in Hown. rewrite Forall_forall in Hown, Hatt.
  destruct issuer as [pid|].
  - destruct (Hatt _ Hin) as (a & Ha & Hof). now exists pid, a.
  - specialize (Hown _ Hin eq_refl). congruence.
Qed.

Lemma only_attempts_subscribe_witness :
  let s := fst (reconnectLive Scenario.foreground "ws-1" "thread-1"
                  Scenario.withoutResume (initialState Scenario.idle)) in
  reachable s
  /\ exists pid a, Some 0%nat = Some pid /\ attempts s !! pid = Some a
                   /\ callOf a (ThreadLiveSubscribe "ws-1" "thread-1").
Proof.
  intros s.
  assert (reachable s) as Hreach
    by apply (reachable_step Scenario.foreground
                (OpReconnectLive "ws-1" "thread-1" Scenario.withoutResume)
                _ (reachable_init Scenario.idle)).
  split; [exact Hreach|].
  apply (only_attempts_subscribe s (Some 0%nat)
           (ThreadLiveSubscribe "ws-1" "thread-1") Hreach); [|reflexivity].
  vm_compute. apply list_elem_of_here.
Defined.

(** ** The teardown does not cancel *)

(** X26: the teardown does not invalidate an attempt: it leaves the
    sequence as it is, so an attempt whose subscribe call was pending with
    the current sequence number still resolves true when that call
    resolves after the teardown, and makes its key the active key again,
    with no unsubscribe issued for it. *)
Theorem teardown_does_not_cancel (env : Env) (s : State) (pid : nat)
  (a : Attempt) :
  attempts s !! pid = Some a -> at_suspension a = AwaitSubscribe ->
  at_sequence a = reconnectSequence s ->
  attempts (teardown s) !! pid = Some a
  /\ reconnectSequence (teardown s) = reconnectSequence s
  /\ attempts (resume env pid Fulfilled (teardown s)) !! pid
     = Some (withSuspension a (Settled true))
  /\ activeSubscriptionKey (resume env pid Fulfilled (teardown s))
     = Some (at_targetKey a)
  /\ calls (resume env pid Fulfilled (teardown s)) = calls (teardown s).
Proof.
  intros Ha Hsusp Hseq.
  assert (attempts (teardown s) = attempts s
          /\ reconnectSequence (teardown s) = reconnectSequence s) as [Hat Hsq]
    by (unfold teardown; repeat case_match; autorewrite with coord; split;
        reflexivity).
  assert (attempts (teardown s) !! pid = Some a) as Ha' by now rewrite Hat.
  split; [exact Ha'|]. split; [exact Hsq|].
  rewrite (resume_unfold env pid Fulfilled (teardown s) a Ha'), Hsusp.
  unfold afterSubscribe. rewrite bool_decide_eq_true_2 by now rewrite Hsq.
  simpl negb. cbv iota.
  split; [apply (lookup_park (teardown s)); [assumption
                                            | simpl; now autorewrite with coord]|].
  autorewrite with coord. simpl. autorewrite with coord. split; reflexivity.
Qed.

Lemma teardown_does_not_cancel_witness :
  let e := Scenario.foreground in
  let s := fst (reconnectLive e "ws-1" "thread-1" Scenario.withoutResume
                  (initialState Scenario.idle)) in
  let a := mkAttempt "ws-1" "thread-1" "ws-1:thread-1" Scenario.withoutResume
             1 AwaitSubscribe in
  attempts s !! 0%nat = Some a
  /\ activeSubscriptionKey (resume e 0 Fulfilled (teardown s))
     = Some (at_targetKey a).
Proof.
  intros e s a.
  assert (attempts s !! 0%nat = Some a) as Ha by (vm_compute; reflexivity).
  assert (at_sequence a = reconnectSequence s) as Hseq by (vm_compute; reflexivity).
  split; [exact Ha|].
  exact (proj1 (proj2 (proj2 (proj2
           (teardown_does_not_cancel e s 0 a Ha eq_refl Hseq))))).
Defined.
